(** * Order workflow of the e-commerce backend

    A shallow embedding of [app/services/order_service.py] (the order
    number, checkout, update_status, cancel_order and the two listings),
    of the tables of [app/database/models.py] it reads and writes, of
    what feeds and surrounds it: [ProductService.update] and [delete]
    from [app/services/product_service.py], the cart service of
    [app/services/cart_service.py], the role guards of
    [app/core/security.py] and the order endpoints of
    [app/api/v1/endpoints/orders.py] with their responses.

    - Tables are lists of rows in storage order; a relationship
      ([user.cart_items], [order.items], [cart_item.product]) is the
      selection of the rows whose foreign key matches, and a row is
      mutated in place through its primary key, as the session's identity
      map has one object per primary key.
    - INTEGER columns ([stock], [quantity]) are unbounded integers here.
      The database holds 32 bits of them and refuses a write beyond: a
      statement that asserts a successful write of restored stock
      assumes that the value fits ([restock_fits]).
    - A row mutated in place keeps its position in the model's list;
      PostgreSQL may return an updated row after the others.  The
      statements relate a row before a write to the row of the same
      primary key after it.
    - [price], [total_amount] and [price_at_purchase] are Python floats:
      binary64, here Rocq's primitive floats.
    - Service methods run in a small monad over the SQLAlchemy session:
      the committed database, the session's view with its pending
      changes, and the position in the streams of values the environment
      supplies ([datetime.utcnow()], [uuid4()], [secrets.token_bytes]).
      An exception leaves the session as it was at the raise; what a
      request leaves in the database is what it committed. *)

From Stdlib Require Import ZArith Lia Bool List.
From Stdlib Require Import Floats.PrimFloat Floats.SpecFloat Floats.FloatOps.
From Stdlib Require Import Init.Byte Strings.Ascii Strings.String.
From stdpp Require Import base tactics option list strings sorting.

Local Open Scope Z_scope.

(** ** Scalars *)

(** [uuid.UUID]: a 128-bit value. *)
Abbreviation UUID := Z.

(** [datetime.datetime] (naive, as [datetime.utcnow()] returns it). *)
Record datetime := mk_datetime {
  year : Z; month : Z; day : Z;
  hour : Z; minute : Z; second : Z; microsecond : Z
}.

(** Python's [float(n)] for an [int]: the nearest binary64 value (ties to
    even).  Python raises OverflowError beyond the binary64 range, which
    an INTEGER column cannot reach. *)
Definition float_of_int (n : Z) : float :=
  SF2Prim (binary_normalize prec emax n 0 false).

(** The [k] low decimal digits of [n], most significant first. *)
Fixpoint dec_digits (k : nat) (n : Z) : string :=
  match k with
  | O => EmptyString
  | S k' =>
      String (ascii_of_N (48 + Z.to_N ((n / 10 ^ Z.of_nat k') mod 10)))
             (dec_digits k' n)
  end.

(** [dt.strftime("%Y%m%d")], for the years 1000..9999. *)
Definition strftime_Ymd (dt : datetime) : string :=
  (dec_digits 4 (year dt) ++ dec_digits 2 (month dt) ++ dec_digits 2 (day dt))%string.

(** One lowercase hexadecimal digit. *)
Definition hex_digit (n : N) : ascii :=
  if (n <? 10)%N then ascii_of_N (48 + n) else ascii_of_N (87 + n).

(** [bytes.hex()]: two lowercase digits per byte. *)
Fixpoint hexlify (bs : list byte) : string :=
  match bs with
  | [] => EmptyString
  | b :: bs' =>
      let n := Byte.to_N b in
      String (hex_digit (n / 16)) (String (hex_digit (n mod 16)) (hexlify bs'))
  end.

(** [str.upper()] on ASCII text. *)
Definition upper_ascii (c : ascii) : ascii :=
  let n := N_of_ascii c in
  if ((97 <=? n) && (n <=? 122))%N then ascii_of_N (n - 32) else c.

Fixpoint upper (s : string) : string :=
  match s with
  | EmptyString => EmptyString
  | String c s' => String (upper_ascii c) (upper s')
  end.

(** Comparison of naive datetimes, as Python and a TIMESTAMP column
    compare them: field by field, the year first. *)
Fixpoint lex_compare (a b : list Z) : comparison :=
  match a, b with
  | [], [] => Eq
  | [], _ :: _ => Lt
  | _ :: _, [] => Gt
  | x :: a', y :: b' =>
      match x ?= y with
      | Eq => lex_compare a' b'
      | c => c
      end
  end.

Definition datetime_fields (dt : datetime) : list Z :=
  [year dt; month dt; day dt; hour dt; minute dt; second dt; microsecond dt].

Definition datetime_compare (a b : datetime) : comparison :=
  lex_compare (datetime_fields a) (datetime_fields b).

Definition datetime_leb (a b : datetime) : bool :=
  match datetime_compare a b with
  | Gt => false
  | _ => true
  end.

(** ** app/database/models.py *)

Inductive UserRole := BUYER | SELLER | ADMIN.

Inductive OrderStatus :=
  PENDING | PAID | PROCESSING | SHIPPED | DELIVERED | CANCELLED | REFUNDED.

#[global] Instance OrderStatus_eq_dec : EqDecision OrderStatus.
Proof. solve_decision. Defined.

Module User.
Record t := mk {
  id : UUID; email : string; full_name : string; phone : option string;
  hashed_password : string; is_active : bool; is_verified : bool;
  role : UserRole; created_at : datetime; updated_at : datetime
}.
End User.

Module Category.
Record t := mk {
  id : UUID; name : string; description : option string; created_at : datetime
}.
End Category.

Module Product.
Record t := mk {
  id : UUID; name : string; description : string; price : float;
  stock : Z; image_urls : option (list string); is_active : bool;
  created_at : datetime; updated_at : datetime;
  seller_id : UUID; category_id : option UUID
}.

Definition set_name (v : string) (p : t) : t :=
  mk (id p) v (description p) (price p) (stock p) (image_urls p)
     (is_active p) (created_at p) (updated_at p) (seller_id p) (category_id p).
Definition set_description (v : string) (p : t) : t :=
  mk (id p) (name p) v (price p) (stock p) (image_urls p)
     (is_active p) (created_at p) (updated_at p) (seller_id p) (category_id p).
Definition set_price (v : float) (p : t) : t :=
  mk (id p) (name p) (description p) v (stock p) (image_urls p)
     (is_active p) (created_at p) (updated_at p) (seller_id p) (category_id p).
Definition set_stock (v : Z) (p : t) : t :=
  mk (id p) (name p) (description p) (price p) v (image_urls p)
     (is_active p) (created_at p) (updated_at p) (seller_id p) (category_id p).
Definition set_image_urls (v : option (list string)) (p : t) : t :=
  mk (id p) (name p) (description p) (price p) (stock p) v
     (is_active p) (created_at p) (updated_at p) (seller_id p) (category_id p).
Definition set_is_active (v : bool) (p : t) : t :=
  mk (id p) (name p) (description p) (price p) (stock p) (image_urls p)
     v (created_at p) (updated_at p) (seller_id p) (category_id p).
Definition set_updated_at (v : datetime) (p : t) : t :=
  mk (id p) (name p) (description p) (price p) (stock p) (image_urls p)
     (is_active p) (created_at p) v (seller_id p) (category_id p).
Definition set_category_id (v : option UUID) (p : t) : t :=
  mk (id p) (name p) (description p) (price p) (stock p) (image_urls p)
     (is_active p) (created_at p) (updated_at p) (seller_id p) v.
End Product.

Module CartItem.
Record t := mk {
  id : UUID; quantity : Z; created_at : datetime; updated_at : datetime;
  user_id : UUID; product_id : UUID
}.

Definition set_quantity (v : Z) (c : t) : t :=
  mk (id c) v (created_at c) (updated_at c) (user_id c) (product_id c).
End CartItem.

Module Order.
Record t := mk {
  id : UUID; order_number : string; status : OrderStatus; total_amount : float;
  shipping_address : string; shipping_city : string;
  shipping_zip : string; shipping_phone : string;
  created_at : datetime; updated_at : datetime; buyer_id : UUID
}.

Definition set_status (v : OrderStatus) (o : t) : t :=
  mk (id o) (order_number o) v (total_amount o) (shipping_address o)
     (shipping_city o) (shipping_zip o) (shipping_phone o)
     (created_at o) (updated_at o) (buyer_id o).
Definition set_updated_at (v : datetime) (o : t) : t :=
  mk (id o) (order_number o) (status o) (total_amount o) (shipping_address o)
     (shipping_city o) (shipping_zip o) (shipping_phone o)
     (created_at o) v (buyer_id o).
End Order.

Module OrderItem.
Record t := mk {
  id : UUID; quantity : Z; price_at_purchase : float;
  order_id : UUID; product_id : UUID
}.
End OrderItem.

(** ** app/api/schemas *)

Module CheckoutRequest.
Record t := mk {
  shipping_address : string; shipping_city : string;
  shipping_zip : string; shipping_phone : string
}.
End CheckoutRequest.

Module OrderStatusUpdate.
Record t := mk { status : OrderStatus }.
End OrderStatusUpdate.

(** ** The database *)

Record DB := mk_DB {
  users : list User.t;
  categories : list Category.t;
  products : list Product.t;
  cart_items : list CartItem.t;
  orders : list Order.t;
  order_items : list OrderItem.t
}.

Definition set_products (v : list Product.t) (d : DB) : DB :=
  mk_DB (users d) (categories d) v (cart_items d) (orders d) (order_items d).
Definition set_cart_items (v : list CartItem.t) (d : DB) : DB :=
  mk_DB (users d) (categories d) (products d) v (orders d) (order_items d).
Definition set_orders (v : list Order.t) (d : DB) : DB :=
  mk_DB (users d) (categories d) (products d) (cart_items d) v (order_items d).
Definition set_order_items (v : list OrderItem.t) (d : DB) : DB :=
  mk_DB (users d) (categories d) (products d) (cart_items d) (orders d) v.

(** Lookup by primary key, and in-place mutation of the row (the session
    object) with a given primary key. *)
Definition find_by {A} (key : A -> Z) (k : Z) (l : list A) : option A :=
  List.find (fun r => key r =? k) l.

Definition alter_by {A} (key : A -> Z) (f : A -> A) (k : Z) (l : list A) : list A :=
  List.map (fun r => if key r =? k then f r else r) l.

(** [session.delete(row)]: the row leaves the table. *)
Definition delete_by {A} (key : A -> Z) (k : Z) (l : list A) : list A :=
  List.filter (fun r => negb (key r =? k)) l.

(** The relationships [User.cart_items] and [Order.items]. *)
Definition cart_items_of (d : DB) (user_id : UUID) : list CartItem.t :=
  List.filter (fun c => CartItem.user_id c =? user_id) (cart_items d).

Definition items_of (d : DB) (order_id : UUID) : list OrderItem.t :=
  List.filter (fun i => OrderItem.order_id i =? order_id) (order_items d).

(** The constraints of models.py that an insert of this workflow can
    violate: the primary keys of [orders] and [order_items], and
    [order_number: str = Field(unique=True)]. *)
Definition integrity (d : DB) : bool :=
  bool_decide (NoDup (List.map Order.id (orders d)))
  && bool_decide (NoDup (List.map Order.order_number (orders d)))
  && bool_decide (NoDup (List.map OrderItem.id (order_items d))).

(** ** Exceptions

    The [HTTPException]s of the services, named as the error taxonomy
    names them, with the data their detail message is built from, and the
    exceptions of the libraries underneath. *)
Inductive exn :=
| EmptyCart                                        (* 400 Cart is empty *)
| ProductUnavailable (name : string)               (* 400 Product '..' is no longer available *)
| InsufficientStock (name : string) (stock : Z)    (* 400 Not enough stock for '..'. Only .. available *)
| NotFound (detail : string)                       (* 404 *)
| Forbidden (detail : string)                      (* 403 *)
| InvalidState (status : OrderStatus)              (* 400 Cannot cancel order with status: .. *)
| NoResultFound                                    (* sqlalchemy: scalar_one() on no row *)
| IntegrityError                                   (* sqlalchemy: a constraint refused a flush *)
| AttributeError.                                  (* attribute access on None *)

Definition status_code (e : exn) : option Z :=
  match e with
  | EmptyCart | ProductUnavailable _ | InsufficientStock _ _ | InvalidState _ => Some 400
  | NotFound _ => Some 404
  | Forbidden _ => Some 403
  | NoResultFound | IntegrityError | AttributeError => None
  end.

(** ** The session monad *)

(** What the environment answers: the [k]-th call of each source. *)
Record Env := mk_Env {
  utcnow_at : nat -> datetime;
  uuid4_at : nat -> UUID;
  token_bytes_at : nat -> nat -> list byte
}.

(** [committed] is what the database durably holds; [working] is the
    session's view (loaded objects with their pending changes).  A request
    whose handler raises leaves [committed] as the last commit made it. *)
Record Session := mk_Session {
  committed : DB;
  working : DB;
  n_utcnow : nat;
  n_uuid4 : nat;
  n_token_bytes : nat
}.

(** A session as [get_session] opens it on database [d]. *)
Definition begin (d : DB) : Session := mk_Session d d 0 0 0.

Inductive outcome (A : Type) :=
| Return (a : A)
| Raise (e : exn).
Arguments Return {A} a.
Arguments Raise {A} e.

Definition M (A : Type) : Type := Env -> Session -> outcome A * Session.

Definition ret {A} (a : A) : M A := fun _ s => (Return a, s).

Definition raise {A} (e : exn) : M A := fun _ s => (Raise e, s).

Definition bind {A B} (m : M A) (k : A -> M B) : M B :=
  fun env s =>
    match m env s with
    | (Return a, s') => k a env s'
    | (Raise e, s') => (Raise e, s')
    end.

Notation "'let!' x ':=' m 'in' k" := (bind m (fun x => k))
  (at level 10, x pattern, m at level 100, k at level 200).
Notation "m ';;' k" := (bind m (fun _ => k))
  (at level 100, k at level 200, right associativity).

Definition get_db : M DB := fun _ s => (Return (working s), s).

Definition modify_db (f : DB -> DB) : M unit :=
  fun _ s =>
    (Return tt,
     mk_Session (committed s) (f (working s)) (n_utcnow s) (n_uuid4 s) (n_token_bytes s)).

(** [datetime.utcnow()] *)
Definition utcnow : M datetime :=
  fun env s =>
    (Return (utcnow_at env (n_utcnow s)),
     mk_Session (committed s) (working s) (S (n_utcnow s)) (n_uuid4 s) (n_token_bytes s)).

(** [uuid4()] *)
Definition uuid4 : M UUID :=
  fun env s =>
    (Return (uuid4_at env (n_uuid4 s)),
     mk_Session (committed s) (working s) (n_utcnow s) (S (n_uuid4 s)) (n_token_bytes s)).

(** [secrets.token_bytes(nbytes)] *)
Definition token_bytes (nbytes : nat) : M (list byte) :=
  fun env s =>
    (Return (token_bytes_at env (n_token_bytes s) nbytes),
     mk_Session (committed s) (working s) (n_utcnow s) (n_uuid4 s) (S (n_token_bytes s))).

(** [secrets.token_hex(nbytes)] *)
Definition token_hex (nbytes : nat) : M string :=
  let! bs := token_bytes nbytes in ret (hexlify bs).

(** [session.flush()]: the pending rows reach the database, which checks
    its constraints. *)
Definition flush : M unit :=
  let! d := get_db in
  if integrity d then ret tt else raise IntegrityError.

(** [session.commit()]: flush, then make the session's view durable. *)
Definition commit : M unit :=
  flush ;;
  fun _ s =>
    (Return tt,
     mk_Session (working s) (working s) (n_utcnow s) (n_uuid4 s) (n_token_bytes s)).

(** A [for] loop whose body runs in the session. *)
Fixpoint for_each {A} (l : list A) (body : A -> M unit) : M unit :=
  match l with
  | [] => ret tt
  | x :: l' => body x ;; for_each l' body
  end.

(** ** app/services/order_service.py *)

(** One entry of [order_items_data]. *)
Record OrderItemData := mk_item_data {
  product_id : UUID;
  quantity : Z;
  price_at_purchase : float
}.

(** An [Order] as a query with
    [selectinload(Order.items)] returns it: the row and its items. *)
Abbreviation LoadedOrder := (Order.t * list OrderItem.t)%type.

Module OrderService.

Definition _generate_order_number : M string :=
  let! now := utcnow in
  let timestamp := strftime_Ymd now in
  let! hex := token_hex 4 in
  let random_part := upper hex in
  ret ("ORD-" +:+ timestamp +:+ "-" +:+ random_part).

Definition get_by_id (order_id : UUID) : M (option LoadedOrder) :=
  let! d := get_db in
  ret (match find_by Order.id order_id (orders d) with
       | Some order => Some (order, items_of d (Order.id order))
       | None => None
       end).

(** The body of checkout's first loop.  [total_amount] starts as the
    [int] 0, which the first [+=] converts to the float 0.0. *)
Definition check_cart_item (cart_item : CartItem.t)
    (acc : float * list OrderItemData) : M (float * list OrderItemData) :=
  let '(total_amount, order_items_data) := acc in
  let! d := get_db in
  match find_by Product.id (CartItem.product_id cart_item) (products d) with
  | None => raise AttributeError
  | Some product =>
      if negb (Product.is_active product) then
        raise (ProductUnavailable (Product.name product))
      else if Product.stock product <? CartItem.quantity cart_item then
        raise (InsufficientStock (Product.name product) (Product.stock product))
      else
        let subtotal :=
          (Product.price product * float_of_int (CartItem.quantity cart_item))%float in
        ret ((total_amount + subtotal)%float,
             order_items_data ++
             [mk_item_data (Product.id product) (CartItem.quantity cart_item)
                           (Product.price product)])
  end.

Fixpoint check_cart (cart : list CartItem.t)
    (acc : float * list OrderItemData) : M (float * list OrderItemData) :=
  match cart with
  | [] => ret acc
  | cart_item :: cart' =>
      let! acc' := check_cart_item cart_item acc in check_cart cart' acc'
  end.

(** The body of checkout's second loop: create the item, reduce the stock. *)
Definition create_item (order_id : UUID) (item_data : OrderItemData) : M unit :=
  let! d := get_db in
  let product := find_by Product.id (product_id item_data) (products d) in
  let! id := uuid4 in
  modify_db (fun d =>
    set_order_items
      (order_items d ++
       [OrderItem.mk id (quantity item_data) (price_at_purchase item_data)
                     order_id (product_id item_data)]) d) ;;
  match product with
  | None => raise AttributeError
  | Some product =>
      modify_db (fun d =>
        set_products
          (alter_by Product.id
             (fun p => Product.set_stock (Product.stock p - quantity item_data) p)
             (Product.id product) (products d)) d) ;;
      let! now := utcnow in
      modify_db (fun d =>
        set_products
          (alter_by Product.id (Product.set_updated_at now)
             (Product.id product) (products d)) d)
  end.

Definition delete_cart_item (cart_item : CartItem.t) : M unit :=
  modify_db (fun d =>
    set_cart_items (delete_by CartItem.id (CartItem.id cart_item) (cart_items d)) d).

Definition checkout (checkout_data : CheckoutRequest.t) (user : User.t)
    : M LoadedOrder :=
  let! d := get_db in
  match find_by User.id (User.id user) (users d) with
  | None => raise NoResultFound
  | Some user =>
      let cart := cart_items_of d (User.id user) in
      match cart with
      | [] => raise EmptyCart
      | _ :: _ =>
          let! (total_amount, order_items_data) := check_cart cart (0%float, []) in
          let! order_number := _generate_order_number in
          let! id := uuid4 in
          let! created_at := utcnow in
          let! updated_at := utcnow in
          let order :=
            Order.mk id order_number PENDING total_amount
              (CheckoutRequest.shipping_address checkout_data)
              (CheckoutRequest.shipping_city checkout_data)
              (CheckoutRequest.shipping_zip checkout_data)
              (CheckoutRequest.shipping_phone checkout_data)
              created_at updated_at (User.id user) in
          modify_db (fun d => set_orders (orders d ++ [order]) d) ;;
          flush ;;
          for_each order_items_data (create_item (Order.id order)) ;;
          for_each cart delete_cart_item ;;
          commit ;;
          let! d := get_db in
          match find_by Order.id (Order.id order) (orders d) with
          | None => raise NoResultFound
          | Some order => ret (order, items_of d (Order.id order))
          end
      end
  end.

Definition update_status (order_id : UUID) (status_update : OrderStatusUpdate.t)
    (user : User.t) : M LoadedOrder :=
  let! order := get_by_id order_id in
  match order with
  | None => raise (NotFound "Order not found")
  | Some (order, _) =>
      modify_db (fun d =>
        set_orders
          (alter_by Order.id (Order.set_status (OrderStatusUpdate.status status_update))
             (Order.id order) (orders d)) d) ;;
      let! now := utcnow in
      modify_db (fun d =>
        set_orders
          (alter_by Order.id (Order.set_updated_at now) (Order.id order) (orders d)) d) ;;
      commit ;;
      let! d := get_db in
      match find_by Order.id (Order.id order) (orders d) with
      | None => raise NoResultFound
      | Some order => ret (order, items_of d (Order.id order))
      end
  end.

(** The body of cancel_order's loop. *)
Definition restore_stock (item : OrderItem.t) : M unit :=
  let! d := get_db in
  match find_by Product.id (OrderItem.product_id item) (products d) with
  | None => raise AttributeError
  | Some product =>
      modify_db (fun d =>
        set_products
          (alter_by Product.id
             (fun p => Product.set_stock (Product.stock p + OrderItem.quantity item) p)
             (Product.id product) (products d)) d) ;;
      let! now := utcnow in
      modify_db (fun d =>
        set_products
          (alter_by Product.id (Product.set_updated_at now)
             (Product.id product) (products d)) d)
  end.

(** [order.status in [SHIPPED, DELIVERED, CANCELLED]] *)
Definition cannot_cancel (st : OrderStatus) : bool :=
  bool_decide (st ∈ [SHIPPED; DELIVERED; CANCELLED]).

(** Returns the order as [session.refresh(order)] reloads it: its row. *)
Definition cancel_order (order_id : UUID) (user : User.t) : M Order.t :=
  let! order := get_by_id order_id in
  match order with
  | None => raise (NotFound "Order not found")
  | Some (order, items) =>
      if negb (Order.buyer_id order =? User.id user) then
        raise (Forbidden "Not your order")
      else if cannot_cancel (Order.status order) then
        raise (InvalidState (Order.status order))
      else
        for_each items restore_stock ;;
        modify_db (fun d =>
          set_orders
            (alter_by Order.id (Order.set_status CANCELLED) (Order.id order) (orders d)) d) ;;
        let! now := utcnow in
        modify_db (fun d =>
          set_orders
            (alter_by Order.id (Order.set_updated_at now) (Order.id order) (orders d)) d) ;;
        commit ;;
        let! d := get_db in
        match find_by Order.id (Order.id order) (orders d) with
        | None => raise NoResultFound
        | Some order => ret order
        end
  end.

(** The query
    [select(Order).options(selectinload(Order.items)).where(..)
     .order_by(Order.created_at.desc()).offset(skip).limit(limit)].
    [order_by] is the database's answer to ORDER BY: which of two rows
    of one [created_at] comes first is its choice.  [skip] and [limit]
    are the non-negative integers the endpoints let through. *)
Definition select_orders (order_by : list Order.t -> list Order.t)
    (where_ : Order.t -> bool) (skip limit : nat) (d : DB) : list LoadedOrder :=
  List.map (fun order => (order, items_of d (Order.id order)))
    (take limit (drop skip (order_by (List.filter where_ (orders d))))).

Definition get_user_orders (order_by : list Order.t -> list Order.t)
    (user_id : UUID) (skip limit : nat) : M (list LoadedOrder * nat) :=
  let where_ := fun order => Order.buyer_id order =? user_id in
  let! d := get_db in
  let total := length (List.filter where_ (orders d)) in
  let! d := get_db in
  let orders := select_orders order_by where_ skip limit d in
  ret (orders, total).

(** [if status:] holds for every member of [OrderStatus], a [str] enum
    with no empty value. *)
Definition get_all_orders (order_by : list Order.t -> list Order.t)
    (skip limit : nat) (status : option OrderStatus) : M (list LoadedOrder * nat) :=
  let where_ :=
    match status with
    | Some status => fun order => bool_decide (Order.status order = status)
    | None => fun _ => true
    end in
  let! d := get_db in
  let total := length (List.filter where_ (orders d)) in
  let! d := get_db in
  let orders := select_orders order_by where_ skip limit d in
  ret (orders, total).

End OrderService.

(** ** app/services/product_service.py *)

(** [ProductUpdate]: a field is [None] when the request leaves it unset,
    [Some None] when the request sends null, [Some (Some v)] otherwise
    (what [model_dump(exclude_unset=True)] keeps is the [Some _] fields). *)
Module ProductUpdate.
Record t := mk {
  name : option (option string);
  description : option (option string);
  price : option (option float);
  stock : option (option Z);
  category_id : option (option UUID);
  image_urls : option (option (list string));
  is_active : option (option bool)
}.
End ProductUpdate.

Module ProductService.

Definition get_by_id (product_id : UUID) : M (option Product.t) :=
  let! d := get_db in ret (find_by Product.id product_id (products d)).

(** [setattr(product, field, value)] on a column that is NOT NULL: a null
    leaves a row the database will refuse ([None]). *)
Definition setattr_required {A} (set : A -> Product.t -> Product.t)
    (value : option (option A)) (product : option Product.t) : option Product.t :=
  match value with
  | None => product
  | Some None => None
  | Some (Some v) => set v <$> product
  end.

(** [setattr] on a nullable column. *)
Definition setattr_nullable {A} (set : option A -> Product.t -> Product.t)
    (value : option (option A)) (product : option Product.t) : option Product.t :=
  match value with
  | None => product
  | Some v => set v <$> product
  end.

(** The loop [for field, value in update_data.items(): setattr(...)]. *)
Definition apply_updates (u : ProductUpdate.t) (product : Product.t) : option Product.t :=
  setattr_required Product.set_is_active (ProductUpdate.is_active u)
    (setattr_nullable Product.set_image_urls (ProductUpdate.image_urls u)
      (setattr_nullable Product.set_category_id (ProductUpdate.category_id u)
        (setattr_required Product.set_stock (ProductUpdate.stock u)
          (setattr_required Product.set_price (ProductUpdate.price u)
            (setattr_required Product.set_description (ProductUpdate.description u)
              (setattr_required Product.set_name (ProductUpdate.name u)
                (Some product))))))).

Definition update (product_id : UUID) (product_update : ProductUpdate.t)
    (seller : User.t) : M Product.t :=
  let! product := get_by_id product_id in
  match product with
  | None => raise (NotFound "Product not found")
  | Some product =>
      if negb (Product.seller_id product =? User.id seller) then
        raise (Forbidden "You can only update your own products")
      else
        let! d := get_db in
        match ProductUpdate.category_id product_update with
        | Some (Some category_id) =>
            if find_by Category.id category_id (categories d) is None
            then raise (NotFound "Category not found") else ret tt
        | _ => ret tt
        end ;;
        let updated := apply_updates product_update product in
        let! now := utcnow in
        match updated with
        | None => raise IntegrityError
        | Some updated =>
            modify_db (fun d =>
              set_products
                (alter_by Product.id
                   (fun _ => Product.set_updated_at now updated)
                   (Product.id product) (products d)) d) ;;
            commit ;;
            let! d := get_db in
            match find_by Product.id (Product.id product) (products d) with
            | None => raise NoResultFound
            | Some product => ret product
            end
        end
  end.

(** Soft delete: the row stays, deactivated. *)
Definition delete (product_id : UUID) (seller : User.t) : M bool :=
  let! product := get_by_id product_id in
  match product with
  | None => raise (NotFound "Product not found")
  | Some product =>
      if negb (Product.seller_id product =? User.id seller) then
        raise (Forbidden "You can only delete your own products")
      else
        modify_db (fun d =>
          set_products
            (alter_by Product.id (Product.set_is_active false)
               (Product.id product) (products d)) d) ;;
        let! now := utcnow in
        modify_db (fun d =>
          set_products
            (alter_by Product.id (Product.set_updated_at now)
               (Product.id product) (products d)) d) ;;
        commit ;;
        ret true
  end.

End ProductService.

(** ** app/api/schemas/cart.py *)

Module CartItemCreate.
Record t := mk { product_id : UUID; quantity : Z }.
End CartItemCreate.

Module CartItemUpdate.
Record t := mk { quantity : Z }.
End CartItemUpdate.

(** ** app/services/cart_service.py

    The cart service raises HTTP 400 with messages of its own, and its
    queries can raise what the order workflow's cannot; [exn] names
    neither.  A cart method answers with a sum: on the left one of these
    exceptions, each raised as the last step of its path and before any
    write of its request. *)
Module CartService.

Inductive error :=
| ProductNotAvailable             (* 400 Product is not available *)
| OnlyInStock (stock : Z)         (* 400 Only .. items available in stock *)
| CannotAddMore (stock : Z)       (* 400 Cannot add more. Only .. items available *)
| OnlyAvailable (stock : Z)       (* 400 Only .. items available *)
| MultipleResultsFound.           (* sqlalchemy: scalar_one_or_none() on several rows *)

(** The constraints of models.py on [cart_items] that an insert can
    violate: the primary key, [unique_user_product_cart], and the
    foreign keys to users and products. *)
Definition cart_constraints (d : DB) : bool :=
  bool_decide (NoDup (List.map CartItem.id (cart_items d)))
  && bool_decide (NoDup (List.map (fun c => (CartItem.user_id c, CartItem.product_id c))
                           (cart_items d)))
  && forallb (fun c =>
                match find_by User.id (CartItem.user_id c) (users d),
                      find_by Product.id (CartItem.product_id c) (products d) with
                | Some _, Some _ => true
                | _, _ => false
                end) (cart_items d).

Definition get_user_cart (user_id : UUID) : M (list CartItem.t) :=
  let! d := get_db in ret (cart_items_of d user_id).

Definition get_cart_item (user_id product_id : UUID) : M (error + option CartItem.t) :=
  let! d := get_db in
  ret (match List.filter
               (fun c => (CartItem.user_id c =? user_id) &&
                         (CartItem.product_id c =? product_id)) (cart_items d) with
       | [] => inr None
       | [c] => inr (Some c)
       | _ :: _ :: _ => inl MultipleResultsFound
       end).

(** [session.refresh(cart_item)] after the commit: the row as stored. *)
Definition refresh (cart_item_id : UUID) : M (error + CartItem.t) :=
  let! d := get_db in
  match find_by CartItem.id cart_item_id (cart_items d) with
  | None => raise NoResultFound
  | Some cart_item => ret (inr cart_item)
  end.

Definition add_to_cart (cart_data : CartItemCreate.t) (user : User.t)
    : M (error + CartItem.t) :=
  let! d := get_db in
  match find_by Product.id (CartItemCreate.product_id cart_data) (products d) with
  | None => ret (inl ProductNotAvailable)
  | Some product =>
      if negb (Product.is_active product) then ret (inl ProductNotAvailable)
      else if Product.stock product <? CartItemCreate.quantity cart_data then
        ret (inl (OnlyInStock (Product.stock product)))
      else
        let! existing_item :=
          get_cart_item (User.id user) (CartItemCreate.product_id cart_data) in
        match existing_item with
        | inl e => ret (inl e)
        | inr (Some existing_item) =>
            let new_quantity :=
              CartItem.quantity existing_item + CartItemCreate.quantity cart_data in
            if Product.stock product <? new_quantity then
              ret (inl (CannotAddMore (Product.stock product)))
            else
              modify_db (fun d =>
                set_cart_items
                  (alter_by CartItem.id (CartItem.set_quantity new_quantity)
                     (CartItem.id existing_item) (cart_items d)) d) ;;
              commit ;;
              refresh (CartItem.id existing_item)
        | inr None =>
            let! id := uuid4 in
            let! created_at := utcnow in
            let! updated_at := utcnow in
            let cart_item :=
              CartItem.mk id (CartItemCreate.quantity cart_data) created_at updated_at
                (User.id user) (CartItemCreate.product_id cart_data) in
            modify_db (fun d => set_cart_items (cart_items d ++ [cart_item]) d) ;;
            (let! d := get_db in
             if cart_constraints d then ret tt else raise IntegrityError) ;;
            commit ;;
            refresh (CartItem.id cart_item)
        end
  end.

Definition update_cart_item (cart_item_id : UUID) (update_data : CartItemUpdate.t)
    (user : User.t) : M (error + CartItem.t) :=
  let! d := get_db in
  match find_by CartItem.id cart_item_id (cart_items d) with
  | None => raise (NotFound "Cart item not found")
  | Some cart_item =>
      if negb (CartItem.user_id cart_item =? User.id user) then
        raise (Forbidden "Not your cart item")
      else
        match find_by Product.id (CartItem.product_id cart_item) (products d) with
        | None => raise AttributeError
        | Some product =>
            if Product.stock product <? CartItemUpdate.quantity update_data then
              ret (inl (OnlyAvailable (Product.stock product)))
            else
              modify_db (fun d =>
                set_cart_items
                  (alter_by CartItem.id
                     (CartItem.set_quantity (CartItemUpdate.quantity update_data))
                     (CartItem.id cart_item) (cart_items d)) d) ;;
              commit ;;
              refresh (CartItem.id cart_item)
        end
  end.

Definition remove_from_cart (cart_item_id : UUID) (user : User.t) : M bool :=
  let! d := get_db in
  match find_by CartItem.id cart_item_id (cart_items d) with
  | None => raise (NotFound "Cart item not found")
  | Some cart_item =>
      if negb (CartItem.user_id cart_item =? User.id user) then
        raise (Forbidden "Not your cart item")
      else
        OrderService.delete_cart_item cart_item ;;
        commit ;;
        ret true
  end.

Definition clear_cart (user : User.t) : M bool :=
  let! cart_items := get_user_cart (User.id user) in
  for_each cart_items OrderService.delete_cart_item ;;
  commit ;;
  ret true.

End CartService.

(** ** app/core/security.py

    The role guards, on the user that [get_current_user] has
    authenticated. *)
Module Security.

Definition get_current_buyer (current_user : User.t) : M User.t :=
  match User.role current_user with
  | BUYER => ret current_user
  | _ => raise (Forbidden "Only buyers can access this")
  end.

Definition get_current_seller (current_user : User.t) : M User.t :=
  match User.role current_user with
  | SELLER => ret current_user
  | _ => raise (Forbidden "Only sellers can access this")
  end.

Definition get_current_admin (current_user : User.t) : M User.t :=
  match User.role current_user with
  | ADMIN => ret current_user
  | _ => raise (Forbidden "Only admins can access this")
  end.

End Security.

(** ** app/api/schemas/order.py: the responses *)

Module OrderItemResponse.
Record t := mk {
  id : UUID; product_id : UUID; product_name : string; quantity : Z;
  price_at_purchase : float; subtotal : float
}.
End OrderItemResponse.

Module OrderResponse.
Record t := mk {
  id : UUID; order_number : string; status : OrderStatus; total_amount : float;
  shipping_address : string; shipping_city : string;
  shipping_zip : string; shipping_phone : string;
  items : list OrderItemResponse.t;
  created_at : datetime; updated_at : datetime
}.
End OrderResponse.

Module OrderListResponse.
Record t := mk { total : nat; orders : list OrderResponse.t }.
End OrderListResponse.

(** ** app/api/v1/endpoints/orders.py

    [product_name: str] refuses the [None] that an item without product
    gives: pydantic raises its ValidationError, for which the services'
    exceptions have no name; a response that is not built is [None].
    Each endpoint takes the authenticated user and runs its role guard
    first, as FastAPI resolves the dependency before the body. *)
Module OrdersAPI.

Definition item_response (d : DB) (item : OrderItem.t) : option OrderItemResponse.t :=
  match find_by Product.id (OrderItem.product_id item) (products d) with
  | None => None
  | Some product =>
      Some (OrderItemResponse.mk (OrderItem.id item) (OrderItem.product_id item)
              (Product.name product) (OrderItem.quantity item)
              (OrderItem.price_at_purchase item)
              (OrderItem.price_at_purchase item * float_of_int (OrderItem.quantity item))%float)
  end.

Fixpoint items_responses (d : DB) (items : list OrderItem.t)
    : option (list OrderItemResponse.t) :=
  match items with
  | [] => Some []
  | item :: items' =>
      match item_response d item with
      | None => None
      | Some r =>
          match items_responses d items' with
          | None => None
          | Some rs => Some (r :: rs)
          end
      end
  end.

Definition build_order_response (d : DB) (order : LoadedOrder) : option OrderResponse.t :=
  let '(order, items) := order in
  match items_responses d items with
  | None => None
  | Some items_responses =>
      Some (OrderResponse.mk (Order.id order) (Order.order_number order)
              (Order.status order) (Order.total_amount order)
              (Order.shipping_address order) (Order.shipping_city order)
              (Order.shipping_zip order) (Order.shipping_phone order)
              items_responses (Order.created_at order) (Order.updated_at order))
  end.

(** [[build_order_response(order) for order in orders]] *)
Fixpoint build_order_responses (d : DB) (orders : list LoadedOrder)
    : option (list OrderResponse.t) :=
  match orders with
  | [] => Some []
  | order :: orders' =>
      match build_order_response d order with
      | None => None
      | Some r =>
          match build_order_responses d orders' with
          | None => None
          | Some rs => Some (r :: rs)
          end
      end
  end.

Definition checkout (checkout_data : CheckoutRequest.t) (current_user : User.t)
    : M (option OrderResponse.t) :=
  let! current_user := Security.get_current_buyer current_user in
  let! order := OrderService.checkout checkout_data current_user in
  let! d := get_db in
  ret (build_order_response d order).

(** [skip: int = Query(0, ge=0)] and [limit: int = Query(20, ge=1, le=100)]
    of the two listing endpoints. *)
Definition query_in_bounds (skip limit : Z) : bool :=
  (0 <=? skip) && (1 <=? limit) && (limit <=? 100).

(** What a listing endpoint answers.  FastAPI resolves the dependencies
    first, the role guard among them, then validates the query; to a
    value outside its bounds it answers 422 (RequestValidationError,
    which the services' exceptions do not name either) and the body does
    not run. *)
Inductive listing :=
| Unprocessable
| Listed (response : option OrderListResponse.t).

Definition get_my_orders (order_by : list Order.t -> list Order.t)
    (skip limit : Z) (current_user : User.t) : M listing :=
  let! current_user := Security.get_current_buyer current_user in
  if negb (query_in_bounds skip limit) then ret Unprocessable
  else
    let! (orders, total) :=
      OrderService.get_user_orders order_by (User.id current_user)
        (Z.to_nat skip) (Z.to_nat limit) in
    let! d := get_db in
    ret (Listed (OrderListResponse.mk total <$> build_order_responses d orders)).

Definition get_order (order_id : UUID) (current_user : User.t)
    : M (option OrderResponse.t) :=
  let! current_user := Security.get_current_buyer current_user in
  let! order := OrderService.get_by_id order_id in
  match order with
  | None => raise (NotFound "Order not found")
  | Some order =>
      if negb (Order.buyer_id (fst order) =? User.id current_user) then
        raise (Forbidden "Not your order")
      else
        let! d := get_db in
        ret (build_order_response d order)
  end.

Definition get_all_orders (order_by : list Order.t -> list Order.t)
    (skip limit : Z) (status : option OrderStatus) (current_admin : User.t)
    : M listing :=
  let! current_admin := Security.get_current_admin current_admin in
  if negb (query_in_bounds skip limit) then ret Unprocessable
  else
    let! (orders, total) :=
      OrderService.get_all_orders order_by (Z.to_nat skip) (Z.to_nat limit) status in
    let! d := get_db in
    ret (Listed (OrderListResponse.mk total <$> build_order_responses d orders)).


End OrdersAPI.

(** A request: the handler runs in a session of its own on the database
    as the last commit left it; what the database holds afterwards is
    what the session committed. *)
Definition request {A} (handler : M A) (env : Env) (d : DB) : outcome A * DB :=
  let '(r, s) := handler env (begin d) in (r, committed s).

(** ** Scenarios

    The data of the spec's scenarios: product A (price 10, stock 5) and
    product B (price 20, stock 1), carts of buyer alice, and an order of
    hers in a given status. *)
Module Scenario.

Definition noon (sec : Z) : datetime := mk_datetime 2024 1 1 12 0 sec 0.

(** The clock ticks one second per reading; ids count up from 1000; the
    first token is de ad be ef, the later ones 00 00 00 01. *)
Definition env : Env :=
  mk_Env (fun k => noon (Z.of_nat k))
         (fun k => 1000 + Z.of_nat k)
         (fun k _ => match k with
                     | O => [Byte.xde; Byte.xad; Byte.xbe; Byte.xef]
                     | _ => [Byte.x00; Byte.x00; Byte.x00; Byte.x01]
                     end).

Definition alice : User.t :=
  User.mk 1 "alice@example.com" "Alice" None "x" true true BUYER (noon 0) (noon 0).
Definition bob : User.t :=
  User.mk 2 "bob@example.com" "Bob" None "x" true true BUYER (noon 0) (noon 0).
Definition admin : User.t :=
  User.mk 3 "admin@example.com" "Admin" None "x" true true ADMIN (noon 0) (noon 0).
Definition seller : User.t :=
  User.mk 9 "seller@example.com" "Seller" None "x" true true SELLER (noon 0) (noon 0).

Definition product_A (stock : Z) (updated : datetime) : Product.t :=
  Product.mk 10 "A" "first" 10%float stock None true (noon 0) updated 9 None.
Definition product_B : Product.t :=
  Product.mk 11 "B" "second" 20%float 1 None true (noon 0) (noon 0) 9 None.

(** Cart lines of alice: [qty] of product A, two of product B. *)
Definition line_A (qty : Z) : CartItem.t := CartItem.mk 20 qty (noon 0) (noon 0) 1 10.
Definition line_B : CartItem.t := CartItem.mk 21 2 (noon 0) (noon 0) 1 11.

Definition shipping : CheckoutRequest.t :=
  CheckoutRequest.mk "1 Main Street" "Springfield" "12345" "5550100100".

(** Order 100 of alice, two of A, in status [st]. *)
Definition order_100 (st : OrderStatus) : Order.t :=
  Order.mk 100 "ORD-20240101-DEADBEEF" st 20%float
    "1 Main Street" "Springfield" "12345" "5550100100" (noon 0) (noon 0) 1.
Definition item_200 : OrderItem.t := OrderItem.mk 200 2 10%float 100 10.

(** A database with the cart [cart] and no order. *)
Definition shop (cart : list CartItem.t) : DB :=
  mk_DB [alice; bob; admin; seller] [] [product_A 5 (noon 0); product_B] cart [] [].

(** A database with order 100 in status [st] and the cart [cart]. *)
Definition shop_with_order (st : OrderStatus) (cart : list CartItem.t) : DB :=
  mk_DB [alice; bob; admin; seller] [] [product_A 3 (noon 0); product_B] cart
        [order_100 st] [item_200].

(** What the checkout of two A by alice places in [shop [line_A 2]]. *)
Definition placed_order (st : OrderStatus) (updated : datetime) : Order.t :=
  Order.mk 1000 "ORD-20240101-DEADBEEF" st 20%float
    "1 Main Street" "Springfield" "12345" "5550100100" (noon 1) updated 1.
Definition placed_items : list OrderItem.t := [OrderItem.mk 1001 2 10%float 1000 10].

Definition shop_after_checkout : DB :=
  mk_DB [alice; bob; admin; seller] [] [product_A 3 (noon 3); product_B] []
        [placed_order PENDING (noon 2)] placed_items.

(** The seller raises the price of A to 99. *)
Definition price_rise : list (UUID * ProductUpdate.t * User.t * Env) :=
  [(10, ProductUpdate.mk None None (Some (Some 99%float)) None None None None,
    seller, env)].

Definition shop_after_cancel : DB :=
  mk_DB [alice; bob; admin; seller] [] [product_A 5 (noon 0); product_B] []
        [placed_order CANCELLED (noon 1)] placed_items.

End Scenario.

(** Further scenario data: bob has a cart of his own. *)
Module MoreScenarios.
Import Scenario.

(** Cart line of bob: one of product A. *)
Definition line_bob : CartItem.t := CartItem.mk 22 1 (noon 0) (noon 0) 2 10.

(** [shop [line_A 2; line_bob]] after the checkout of alice. *)
Definition shop_after_checkout_beside_bob : DB :=
  mk_DB [alice; bob; admin; seller] [] [product_A 3 (noon 3); product_B] [line_bob]
        [placed_order PENDING (noon 2)] placed_items.

(** An order of buyer [buyer], placed [sec] seconds after noon. *)
Definition order_at (id : UUID) (number : string) (st : OrderStatus) (buyer : UUID)
    (sec : Z) : Order.t :=
  Order.mk id number st 20%float
    "1 Main Street" "Springfield" "12345" "5550100100" (noon sec) (noon sec) buyer.

(** Three orders of alice and one of bob, not stored in the order they
    were placed. *)
Definition shop_with_history : DB :=
  mk_DB [alice; bob; admin; seller] [] [product_A 3 (noon 0); product_B] []
        [order_at 101 "ORD-20240101-00000001" PENDING 1 5;
         order_at 102 "ORD-20240101-00000002" SHIPPED 2 6;
         order_at 103 "ORD-20240101-00000003" CANCELLED 1 9;
         order_at 104 "ORD-20240101-00000004" PENDING 1 7]
        [OrderItem.mk 201 2 10%float 101 10].

(** Product updates: a null name; a new stock of 8. *)
Definition null_name : ProductUpdate.t :=
  ProductUpdate.mk (Some None) None None None None None None.
Definition restock : ProductUpdate.t :=
  ProductUpdate.mk None None None (Some (Some 8)) None None None.

(** Product A after its seller has deleted it. *)
Definition deleted_A : Product.t :=
  Product.mk 10 "A" "first" 10%float 5 None false (noon 0) (noon 0) 9 None.

Definition shop_after_delete (cart : list CartItem.t) : DB :=
  mk_DB [alice; bob; admin; seller] [] [deleted_A; product_B] cart [] [].

(** Cart requests: one more of product A; one of product B; four of A. *)
Definition one_A : CartItemCreate.t := CartItemCreate.mk 10 1.
Definition four_A : CartItemCreate.t := CartItemCreate.mk 10 4.


End MoreScenarios.

(** * Vocabulary of the properties *)

(** A computation that only reads the session. *)
Definition read_only {A} (m : M A) : Prop :=
  forall env s r s', m env s = (r, s') -> s' = s.

(** A computation all of whose exceptions satisfy [P]. *)
Definition raises_only {A} (P : exn -> Prop) (m : M A) : Prop :=
  forall env s e s', m env s = (Raise e, s') -> P e.

(** The exceptions by which checkout rejects a cart. *)
Definition rejection (e : exn) : Prop :=
  match e with
  | EmptyCart | ProductUnavailable _ | InsufficientStock _ _ => True
  | _ => False
  end.

(** The exceptions of the libraries underneath the services. *)
Definition internal (e : exn) : Prop :=
  match e with
  | NoResultFound | IntegrityError | AttributeError => True
  | _ => False
  end.

(** The quantity that the rows of [l] carry for product [pid]. *)
Fixpoint quantity_for {A} (pid_of qty_of : A -> Z) (pid : Z) (l : list A) : Z :=
  match l with
  | [] => 0
  | x :: l' =>
      (if pid_of x =? pid then qty_of x else 0) + quantity_for pid_of qty_of pid l'
  end.

(** Everything of a product row but [stock] and [updated_at]. *)
Definition same_but_stock (p p' : Product.t) : Prop :=
  Product.id p' = Product.id p /\ Product.name p' = Product.name p /\
  Product.description p' = Product.description p /\
  Product.price p' = Product.price p /\
  Product.image_urls p' = Product.image_urls p /\
  Product.is_active p' = Product.is_active p /\
  Product.created_at p' = Product.created_at p /\
  Product.seller_id p' = Product.seller_id p /\
  Product.category_id p' = Product.category_id p.

(** What a loop of stock movements does to the products table: row by
    row, the stock moves by [delta (id)], nothing else but [updated_at]
    changes, and a row no movement names is left as it was. *)
Definition stock_moved (delta : Z -> Z) (named : list Z) (ps ps' : list Product.t) : Prop :=
  Forall2 (fun p p' =>
             same_but_stock p p' /\
             Product.stock p' = Product.stock p + delta (Product.id p) /\
             (~ In (Product.id p) named -> p' = p)) ps ps'.

(** The tables neither loop writes. *)
Definition same_users_carts_orders (d d' : DB) : Prop :=
  users d' = users d /\ categories d' = categories d /\
  cart_items d' = cart_items d /\ orders d' = orders d.

(** The OrderItem that checkout creates from an entry of
    [order_items_data]. *)
Definition item_of_data (oid : UUID) (x : OrderItemData) (it : OrderItem.t) : Prop :=
  OrderItem.quantity it = quantity x /\
  OrderItem.price_at_purchase it = price_at_purchase x /\
  OrderItem.order_id it = oid /\
  OrderItem.product_id it = product_id x.

(** The OrderItems that checkout's second loop creates, the first with
    the [k]-th [uuid4()] as its id. *)
Fixpoint created_items (env : Env) (oid : UUID) (k : nat) (ds : list OrderItemData)
    : list OrderItem.t :=
  match ds with
  | [] => []
  | x :: ds' =>
      OrderItem.mk (uuid4_at env k) (quantity x) (price_at_purchase x) oid (product_id x)
      :: created_items env oid (S k) ds'
  end.

(** Cart item [c] passes the checks on database [d]: its product is
    active and holds at least the quantity asked for. *)
Definition acceptable (d : DB) (c : CartItem.t) : Prop :=
  exists p, find_by Product.id (CartItem.product_id c) (products d) = Some p /\
            Product.is_active p = true /\
            CartItem.quantity c <= Product.stock p.

(** ... and [x] is the entry of [order_items_data] recorded for it. *)
Definition accepts (d : DB) (c : CartItem.t) (x : OrderItemData) : Prop :=
  exists p, find_by Product.id (CartItem.product_id c) (products d) = Some p /\
            Product.is_active p = true /\
            CartItem.quantity c <= Product.stock p /\
            x = mk_item_data (CartItem.product_id c) (CartItem.quantity c)
                             (Product.price p).

(** Cart item [c] fails the checks on [d], with exception [e]. *)
Definition rejects (d : DB) (c : CartItem.t) (e : exn) : Prop :=
  match find_by Product.id (CartItem.product_id c) (products d) with
  | None => e = AttributeError
  | Some p =>
      (Product.is_active p = false /\ e = ProductUnavailable (Product.name p)) \/
      (Product.is_active p = true /\ Product.stock p < CartItem.quantity c /\
       e = InsufficientStock (Product.name p) (Product.stock p))
  end.

(** One more line on a running total. *)
Definition add_line (total : float) (price : float) (qty : Z) : float :=
  (total + price * float_of_int qty)%float.

(** The running total over entries of [order_items_data]. *)
Definition total_of_data (start : float) (ds : list OrderItemData) : float :=
  fold_left (fun t x => add_line t (price_at_purchase x) (quantity x)) ds start.

(** The order number [_generate_order_number] returns in session [s]. *)
Definition generated_order_number (env : Env) (s : Session) : string :=
  "ORD-" +:+ strftime_Ymd (utcnow_at env (n_utcnow s)) +:+ "-" +:+
  upper (hexlify (token_bytes_at env (n_token_bytes s) 4)).

(** The order checkout builds in session [s], for buyer [uid] and the
    total [total]. *)
Definition new_order (env : Env) (s : Session) (checkout_data : CheckoutRequest.t)
    (uid : UUID) (total : float) : Order.t :=
  Order.mk (uuid4_at env (n_uuid4 s)) (generated_order_number env s)
    PENDING total
    (CheckoutRequest.shipping_address checkout_data)
    (CheckoutRequest.shipping_city checkout_data)
    (CheckoutRequest.shipping_zip checkout_data)
    (CheckoutRequest.shipping_phone checkout_data)
    (utcnow_at env (S (n_utcnow s))) (utcnow_at env (S (S (n_utcnow s))))
    uid.

(** The foreign key [OrderItem.order_id -> orders.id]. *)
Definition order_items_reference_orders (d : DB) : Prop :=
  forall it, In it (order_items d) ->
             In (OrderItem.order_id it) (List.map Order.id (orders d)).

(** "The sum over the order's items of price_at_purchase * quantity", as
    Python's [sum] computes it: from 0, left to right, in floats. *)
Definition sum_of_lines (items : list OrderItem.t) : float :=
  fold_left (fun t it => add_line t (OrderItem.price_at_purchase it) (OrderItem.quantity it))
            items 0%float.

(** Everything of an order row but [status] and [updated_at]. *)
Definition same_but_status (o o' : Order.t) : Prop :=
  Order.id o' = Order.id o /\ Order.order_number o' = Order.order_number o /\
  Order.buyer_id o' = Order.buyer_id o /\ Order.total_amount o' = Order.total_amount o /\
  Order.shipping_address o' = Order.shipping_address o /\
  Order.shipping_city o' = Order.shipping_city o /\
  Order.shipping_zip o' = Order.shipping_zip o /\
  Order.shipping_phone o' = Order.shipping_phone o /\
  Order.created_at o' = Order.created_at o.

(** Product updates, one request after the other. *)
Fixpoint product_updates (us : list (UUID * ProductUpdate.t * User.t * Env)) (d : DB) : DB :=
  match us with
  | [] => d
  | (product_id, product_update, seller, env) :: us' =>
      product_updates us'
        (snd (request (ProductService.update product_id product_update seller) env d))
  end.

(** A computation that keeps an invariant of the session. *)
Definition preserves (P : Session -> Prop) {A} (m : M A) : Prop :=
  forall env s r s', m env s = (r, s') -> P s -> P s'.

(** Both the committed database and the session's view hold the orders
    [os] and the order items [is]. *)
Definition holds_orders (os : list Order.t) (ois : list OrderItem.t) (s : Session) : Prop :=
  orders (committed s) = os /\ order_items (committed s) = ois /\
  orders (working s) = os /\ order_items (working s) = ois.

(** The stock of product [pid] in database [d]. *)
Definition stock_of (d : DB) (pid : UUID) : option Z :=
  Product.stock <$> find_by Product.id pid (products d).

(** The quantity of product [pid] on the items [its]. *)
Definition purchased (pid : UUID) (its : list OrderItem.t) : Z :=
  quantity_for OrderItem.product_id OrderItem.quantity pid its.

(** Every character of [s] satisfies [P]. *)
Fixpoint string_forall (P : ascii -> bool) (s : string) : bool :=
  match s with
  | EmptyString => true
  | String c s' => P c && string_forall P s'
  end.

(** A decimal digit; a digit of uppercase hexadecimal. *)
Definition is_digit (c : ascii) : bool :=
  let n := N_of_ascii c in ((48 <=? n) && (n <=? 57))%N.

Definition is_upper_hex (c : ascii) : bool :=
  let n := N_of_ascii c in
  (((48 <=? n) && (n <=? 57)) || ((65 <=? n) && (n <=? 70)))%N.

(** The value of an uppercase hexadecimal digit, and the bytes an
    uppercase hexadecimal string spells (what [bytes.fromhex] reads). *)
Definition upper_hex_value (c : ascii) : N :=
  let n := N_of_ascii c in if (n <=? 57)%N then (n - 48)%N else (n - 55)%N.

Fixpoint unhexlify (s : string) : option (list byte) :=
  match s with
  | EmptyString => Some []
  | String c1 (String c2 s') =>
      match Byte.of_N (16 * upper_hex_value c1 + upper_hex_value c2), unhexlify s' with
      | Some b, Some bs => Some (b :: bs)
      | _, _ => None
      end
  | String _ EmptyString => None
  end.

(** The calendar date of a [datetime] is one [strftime("%Y%m%d")] prints
    in eight digits. *)
Definition date_in_range (dt : datetime) : Prop :=
  0 <= year dt < 10000 /\ 0 <= month dt < 100 /\ 0 <= day dt < 100.

(** What the database may answer to ORDER BY created_at DESC: the rows it
    was given, the newest first. *)
Definition newest_first (l : list Order.t) : Prop :=
  StronglySorted
    (fun a b => datetime_leb (Order.created_at b) (Order.created_at a) = true) l.

Definition orders_by_created_at_desc (order_by : list Order.t -> list Order.t) : Prop :=
  forall l, Permutation (order_by l) l /\ newest_first (order_by l).

(** One such answer: insertion, rows of one [created_at] in storage order. *)
Fixpoint insert_newest_first (o : Order.t) (l : list Order.t) : list Order.t :=
  match l with
  | [] => [o]
  | o' :: l' =>
      if datetime_leb (Order.created_at o') (Order.created_at o) then o :: l
      else o' :: insert_newest_first o l'
  end.

Definition sort_newest_first (l : list Order.t) : list Order.t :=
  fold_right insert_newest_first [] l.

(** The orders of buyer [uid]; the orders in status [st]. *)
Definition orders_of (d : DB) (uid : UUID) : list Order.t :=
  List.filter (fun o => Order.buyer_id o =? uid) (orders d).

Definition orders_in (d : DB) (st : OrderStatus) : list Order.t :=
  List.filter (fun o => bool_decide (Order.status o = st)) (orders d).

(** The foreign key [OrderItem.product_id -> products.id]. *)
Definition order_items_reference_products (d : DB) : Prop :=
  forall it, In it (order_items d) ->
             In (OrderItem.product_id it) (List.map Product.id (products d)).

(** Everything of a product row but [is_active] and [updated_at]. *)
Definition same_but_active (p p' : Product.t) : Prop :=
  Product.id p' = Product.id p /\ Product.name p' = Product.name p /\
  Product.description p' = Product.description p /\
  Product.price p' = Product.price p /\ Product.stock p' = Product.stock p /\
  Product.image_urls p' = Product.image_urls p /\
  Product.created_at p' = Product.created_at p /\
  Product.seller_id p' = Product.seller_id p /\
  Product.category_id p' = Product.category_id p.

(** The orders a status filter selects; no filter selects them all. *)
Definition orders_matching (d : DB) (status : option OrderStatus) : list Order.t :=
  match status with
  | Some st => orders_in d st
  | None => orders d
  end.

(** What [setattr] leaves in a NOT NULL column, and in a nullable one,
    for a field of the request: unset keeps the old value. *)
Definition updated_required {A} (value : option (option A)) (old new : A) : Prop :=
  match value with
  | None => new = old
  | Some (Some v) => new = v
  | Some None => False
  end.

Definition updated_nullable {A} (value : option (option A)) (old new : option A) : Prop :=
  match value with
  | None => new = old
  | Some v => new = v
  end.

(** The request sends null for a NOT NULL column. *)
Definition nulls_required (u : ProductUpdate.t) : Prop :=
  ProductUpdate.name u = Some None \/ ProductUpdate.description u = Some None \/
  ProductUpdate.price u = Some None \/ ProductUpdate.stock u = Some None \/
  ProductUpdate.is_active u = Some None.

(** The category the request names, if any, exists. *)
Definition category_known (d : DB) (u : ProductUpdate.t) : Prop :=
  match ProductUpdate.category_id u with
  | Some (Some c) => find_by Category.id c (categories d) <> None
  | _ => True
  end.

(** Every table but [products]. *)
Definition same_but_products (d d' : DB) : Prop :=
  users d' = users d /\ categories d' = categories d /\
  cart_items d' = cart_items d /\ orders d' = orders d /\
  order_items d' = order_items d.

(** The line of an order response that shows item [it] on database [d]:
    the item's own columns, and the name the product has in [d]. *)
Definition shows (d : DB) (it : OrderItem.t) (r : OrderItemResponse.t) : Prop :=
  OrderItemResponse.id r = OrderItem.id it /\
  OrderItemResponse.product_id r = OrderItem.product_id it /\
  OrderItemResponse.quantity r = OrderItem.quantity it /\
  OrderItemResponse.price_at_purchase r = OrderItem.price_at_purchase it /\
  OrderItemResponse.subtotal r =
    (OrderItem.price_at_purchase it * float_of_int (OrderItem.quantity it))%float /\
  Product.name <$> find_by Product.id (OrderItem.product_id it) (products d) =
    Some (OrderItemResponse.product_name r).

(** The response [r] is the order row [o] with the items [its]. *)
Definition response_of (d : DB) (o : Order.t) (its : list OrderItem.t)
    (r : OrderResponse.t) : Prop :=
  OrderResponse.id r = Order.id o /\
  OrderResponse.order_number r = Order.order_number o /\
  OrderResponse.status r = Order.status o /\
  OrderResponse.total_amount r = Order.total_amount o /\
  OrderResponse.shipping_address r = Order.shipping_address o /\
  OrderResponse.shipping_city r = Order.shipping_city o /\
  OrderResponse.shipping_zip r = Order.shipping_zip o /\
  OrderResponse.shipping_phone r = Order.shipping_phone o /\
  OrderResponse.created_at r = Order.created_at o /\
  OrderResponse.updated_at r = Order.updated_at o /\
  Forall2 (shows d) its (OrderResponse.items r).


(** The sum of [w] over the rows of [l]. *)
Fixpoint total_weight {A} (w : A -> Z) (l : list A) : Z :=
  match l with
  | [] => 0
  | x :: l' => w x + total_weight w l'
  end.

(** What a cart line counts for product [pid] in the cart of [uid]. *)
Definition line_weight (uid pid : UUID) (c : CartItem.t) : Z :=
  if (CartItem.user_id c =? uid) && (CartItem.product_id c =? pid)
  then CartItem.quantity c else 0.

(** The quantity of product [pid] in the cart of user [uid]. *)
Definition in_cart (d : DB) (uid pid : UUID) : Z :=
  quantity_for CartItem.product_id CartItem.quantity pid (cart_items_of d uid).

(** Every table but [cart_items]. *)
Definition same_but_cart_items (d d' : DB) : Prop :=
  users d' = users d /\ categories d' = categories d /\
  products d' = products d /\ orders d' = orders d /\
  order_items d' = order_items d.

(** The values an INTEGER column holds (PostgreSQL's int4). *)
Definition int32 (n : Z) : Prop := -2147483648 <= n <= 2147483647.

(** Every stock, with the quantities of the items [its] added back, is a
    value of its INTEGER column: what the commit of a cancellation of
    these items has to write. *)
Definition restock_fits (d : DB) (its : list OrderItem.t) : Prop :=
  Forall (fun p => int32 (Product.stock p + purchased (Product.id p) its)) (products d).

(** A date whose year [strftime("%Y")] prints in four digits. *)
Definition four_digit_date (dt : datetime) : Prop :=
  1000 <= year dt <= 9999 /\ 1 <= month dt <= 12 /\ 1 <= day dt <= 31.

(** The number that a string of decimal digits spells. *)
Fixpoint digits_from (acc : Z) (s : string) : Z :=
  match s with
  | EmptyString => acc
  | String c s' => digits_from (acc * 10 + (Z.of_N (N_of_ascii c) - 48)) s'
  end.

Definition digits_value (s : string) : Z := digits_from 0 s.

(** * Properties *)

(** ** Running the monad *)

Arguments integrity : simpl never.
Arguments float_of_int : simpl never.
Arguments strftime_Ymd : simpl never.
Arguments hexlify : simpl never.
Arguments upper : simpl never.
Arguments String.append : simpl never.

Lemma bind_Return {A B} (m : M A) (k : A -> M B) env s b s' :
  bind m k env s = (Return b, s') ->
  exists a s1, m env s = (Return a, s1) /\ k a env s1 = (Return b, s').
Proof.
  unfold bind. destruct (m env s) as [[a|e] s1]; intros H.
  - exists a, s1. auto.
  - discriminate.
Qed.

Lemma bind_Raise {A B} (m : M A) (k : A -> M B) env s e s' :
  bind m k env s = (Raise e, s') ->
  m env s = (Raise e, s') \/
  exists a s1, m env s = (Return a, s1) /\ k a env s1 = (Raise e, s').
Proof.
  unfold bind. destruct (m env s) as [[a|e0] s1]; intros H.
  - right. exists a, s1. auto.
  - left. congruence.
Qed.

Lemma bind_run {A B} (m : M A) (k : A -> M B) env s a s1 :
  m env s = (Return a, s1) -> bind m k env s = k a env s1.
Proof. unfold bind. intros ->. reflexivity. Qed.

Lemma raises_only_bind {A B} P (m : M A) (k : A -> M B) :
  raises_only P m -> (forall a, raises_only P (k a)) -> raises_only P (bind m k).
Proof.
  intros Hm Hk env s e s' H. apply bind_Raise in H as [H | (a & s1 & _ & H)].
  - eapply Hm; eauto.
  - eapply Hk; eauto.
Qed.

Lemma raises_only_for_each {A} P (body : A -> M unit) l :
  (forall x, raises_only P (body x)) -> raises_only P (for_each l body).
Proof.
  intros Hb. induction l as [|x l IH]; simpl.
  - intros env s e s' H. discriminate.
  - apply raises_only_bind; auto.
Qed.

Lemma check_cart_item_read_only c acc : read_only (OrderService.check_cart_item c acc).
Proof.
  intros env s r s'. unfold OrderService.check_cart_item. destruct acc as [t ds].
  unfold bind, get_db, raise, ret.
  repeat case_match; intros; simplify_eq; reflexivity.
Qed.

Lemma check_cart_read_only cart : forall acc, read_only (OrderService.check_cart cart acc).
Proof.
  induction cart as [|c cart IH]; intros acc env s r s'; simpl.
  - unfold ret. intros; simplify_eq; reflexivity.
  - unfold bind. destruct (OrderService.check_cart_item c acc env s) as [[a|e] s1] eqn:E.
    + apply check_cart_item_read_only in E. subst s1. apply IH.
    + apply check_cart_item_read_only in E. intros; simplify_eq. reflexivity.
Qed.

Lemma flush_raises_internal : raises_only internal flush.
Proof.
  intros env s e s'. unfold flush, bind, get_db, ret, raise.
  case_match; intros; simplify_eq. exact I.
Qed.

Lemma commit_raises_internal : raises_only internal commit.
Proof.
  unfold commit. apply raises_only_bind; [apply flush_raises_internal|].
  intros _ env s e s' H. discriminate.
Qed.

Lemma create_item_raises_internal oid x :
  raises_only internal (OrderService.create_item oid x).
Proof.
  intros env s e s'. unfold OrderService.create_item.
  unfold bind, get_db, uuid4, modify_db, utcnow, raise; simpl.
  case_match; intros; simplify_eq. exact I.
Qed.

Lemma delete_cart_item_raises_internal c :
  raises_only internal (OrderService.delete_cart_item c).
Proof. intros env s e s' H. discriminate. Qed.

(** C1 (atomicity of a rejected checkout).  Whenever checkout raises
    EmptyCart, ProductUnavailable or InsufficientStock, the session is
    exactly as it was at entry: the committed database and the session's
    own view are untouched (no Order, no OrderItem, no stock change, no
    cart deletion, not even pending), because these exceptions can only
    come from the validation loop, which runs to its end before the first
    mutation. *)
Theorem checkout_rejection_mutates_nothing :
  forall checkout_data user env s e s',
    OrderService.checkout checkout_data user env s = (Raise e, s') ->
    rejection e ->
    s' = s.
Proof.
  intros data user env s e s' H Hrej. unfold OrderService.checkout in H.
  apply bind_Raise in H as [H | (d & s1 & Hd & H)]; [discriminate|].
  unfold get_db in Hd. injection Hd as <- <-.
  destruct (find_by User.id (User.id user) (users (working s))) as [u|];
    [|unfold raise in H; simplify_eq; destruct Hrej].
  destruct (cart_items_of (working s) (User.id u)) as [|c cart] eqn:Ecart;
    [unfold raise in H; simplify_eq; reflexivity|].
  apply bind_Raise in H as [H | ([total ds] & s1 & Hcheck & H)].
  - eapply check_cart_read_only; eauto.
  - exfalso.
    assert (Hint : internal e); [|destruct e; simpl in *; tauto].
    refine ((_ : raises_only internal _) env s1 e s' H).
    apply raises_only_bind; [intros ? ? ? ? ?; discriminate|intros order_number].
    apply raises_only_bind; [intros ? ? ? ? ?; discriminate|intros id].
    apply raises_only_bind; [intros ? ? ? ? ?; discriminate|intros created].
    apply raises_only_bind; [intros ? ? ? ? ?; discriminate|intros updated].
    apply raises_only_bind; [intros ? ? ? ? ?; discriminate|intros _].
    apply raises_only_bind; [apply flush_raises_internal|intros _].
    apply raises_only_bind;
      [apply raises_only_for_each, create_item_raises_internal|intros _].
    apply raises_only_bind;
      [apply raises_only_for_each, delete_cart_item_raises_internal|intros _].
    apply raises_only_bind; [apply commit_raises_internal|intros _].
    apply raises_only_bind; [intros ? ? ? ? ?; discriminate|intros d].
    intros env0 s0 e0 s0'. case_match; unfold ret, raise; intros; simplify_eq. exact I.
Qed.

(** ** Tables *)

Section tables.
Context {A : Type} (key : A -> Z).

Lemma find_by_key k l r : find_by key k l = Some r -> key r = k.
Proof.
  unfold find_by. intros H. apply List.find_some in H as [_ H].
  apply Z.eqb_eq in H. exact H.
Qed.

Lemma find_by_In k l r : find_by key k l = Some r -> In r l.
Proof. unfold find_by. intros H. apply List.find_some in H as [H _]. exact H. Qed.

Lemma find_by_None k l : find_by key k l = None <-> ~ In k (List.map key l).
Proof.
  unfold find_by. induction l as [|x l IH]; simpl; [tauto|].
  destruct (Z.eqb_spec (key x) k) as [E|E].
  - split; [discriminate|]. intros H. exfalso. apply H. left. exact E.
  - rewrite IH. tauto.
Qed.

Lemma find_by_app k l1 l2 :
  find_by key k (l1 ++ l2) =
  match find_by key k l1 with Some r => Some r | None => find_by key k l2 end.
Proof.
  unfold find_by. induction l1 as [|x l1 IH]; simpl; [reflexivity|].
  destruct (key x =? k); auto.
Qed.

Lemma find_by_map (g : A -> A) k l :
  (forall r, key (g r) = key r) ->
  find_by key k (List.map g l) = g <$> find_by key k l.
Proof.
  intros Hg. unfold find_by. induction l as [|x l IH]; simpl; [reflexivity|].
  rewrite Hg. destruct (key x =? k); auto.
Qed.

Lemma find_by_Forall2 (R : A -> A -> Prop) k l l' :
  (forall x y, R x y -> key y = key x) ->
  Forall2 R l l' ->
  option_Forall2 R (find_by key k l) (find_by key k l').
Proof.
  intros HR H. unfold find_by. induction H as [|x y l l' Hxy _ IH]; simpl.
  - constructor.
  - rewrite (HR _ _ Hxy). destruct (key x =? k); [constructor; exact Hxy | exact IH].
Qed.

Lemma Forall2_map_same (R : A -> A -> Prop) (g : A -> A) l :
  (forall x, R x (g x)) -> Forall2 R l (List.map g l).
Proof. intros H. induction l; simpl; constructor; auto. Qed.

End tables.

Lemma quantity_for_absent {A} (pid_of qty_of : A -> Z) pid l :
  ~ In pid (List.map pid_of l) -> quantity_for pid_of qty_of pid l = 0.
Proof.
  induction l as [|x l IH]; simpl; [reflexivity|]. intros H.
  destruct (Z.eqb_spec (pid_of x) pid) as [E|E]; [exfalso; auto|].
  rewrite IH; [reflexivity|tauto].
Qed.

Lemma stock_moved_refl ps : stock_moved (fun _ => 0) [] ps ps.
Proof.
  unfold stock_moved. induction ps; constructor; auto.
  unfold same_but_stock. repeat split; auto; lia.
Qed.

Lemma stock_moved_trans d1 d2 n1 n2 d n ps ps' ps'' :
  (forall k, d k = d1 k + d2 k) ->
  (forall k, In k n1 \/ In k n2 -> In k n) ->
  stock_moved d1 n1 ps ps' -> stock_moved d2 n2 ps' ps'' ->
  stock_moved d n ps ps''.
Proof.
  intros Hd Hn H1 H2. unfold stock_moved in *.
  eapply Forall2_trans; [|exact H1|exact H2].
  intros p p' p'' (F1 & S1 & U1) (F2 & S2 & U2).
  assert (Hid : Product.id p' = Product.id p) by apply F1.
  split; [|split].
  - unfold same_but_stock in *. intuition congruence.
  - rewrite S2, S1, Hid, Hd. lia.
  - intros Hp. rewrite U2, U1; auto; rewrite ?Hid; intros ?; apply Hp, Hn; auto.
Qed.

(** One movement: the row with primary key [k] gets [stock + q] and a
    new [updated_at]. *)
Lemma stock_moved_step k q now f ps :
  (forall p, f p = Product.set_stock (Product.stock p + q) p) ->
  stock_moved (fun pid => if k =? pid then q else 0) [k] ps
    (alter_by Product.id (Product.set_updated_at now) k (alter_by Product.id f k ps)).
Proof.
  intros Hf. unfold stock_moved, alter_by. rewrite List.map_map.
  apply Forall2_map_same. intros p. rewrite Hf.
  destruct (Z.eqb_spec (Product.id p) k) as [E|E]; simpl.
  - rewrite E, Z.eqb_refl. simpl. unfold same_but_stock; simpl.
    repeat split; auto. intros H. exfalso. apply H. left. reflexivity.
  - destruct (Z.eqb_spec (Product.id p) k) as [|_]; [contradiction|].
    destruct (Z.eqb_spec k (Product.id p)) as [E'|_]; [symmetry in E'; contradiction|].
    unfold same_but_stock. repeat split; auto; lia.
Qed.

(** ** The loops of checkout and cancel_order *)

Lemma created_items_data env oid ds : forall k,
  Forall2 (item_of_data oid) ds (created_items env oid k ds).
Proof.
  induction ds as [|x ds IH]; intros k; simpl; constructor; auto.
  repeat split.
Qed.

Lemma create_item_run oid x env sa sb :
  OrderService.create_item oid x env sa = (Return tt, sb) ->
  committed sb = committed sa /\
  same_users_carts_orders (working sa) (working sb) /\
  n_utcnow sb = S (n_utcnow sa) /\ n_uuid4 sb = S (n_uuid4 sa) /\
  n_token_bytes sb = n_token_bytes sa /\
  order_items (working sb) =
    order_items (working sa) ++ created_items env oid (n_uuid4 sa) [x] /\
  stock_moved (fun pid => if product_id x =? pid then - quantity x else 0)
    [product_id x] (products (working sa)) (products (working sb)).
Proof.
  unfold OrderService.create_item, bind, get_db, uuid4, modify_db, utcnow, raise; simpl.
  destruct (find_by Product.id (product_id x) (products (working sa))) as [p|] eqn:E;
    [|discriminate].
  apply find_by_key in E. rewrite E. intros H. injection H as <-. simpl.
  repeat (split; [reflexivity|]).
  split; [repeat split|]. repeat (split; [reflexivity|]).
  apply stock_moved_step. intros q. reflexivity.
Qed.

Lemma create_items_run oid ds : forall env sa sb,
  for_each ds (OrderService.create_item oid) env sa = (Return tt, sb) ->
  committed sb = committed sa /\
  same_users_carts_orders (working sa) (working sb) /\
  n_utcnow sb = (length ds + n_utcnow sa)%nat /\
  n_uuid4 sb = (length ds + n_uuid4 sa)%nat /\
  n_token_bytes sb = n_token_bytes sa /\
  order_items (working sb) =
    order_items (working sa) ++ created_items env oid (n_uuid4 sa) ds /\
  stock_moved (fun pid => - quantity_for product_id quantity pid ds)
    (List.map product_id ds) (products (working sa)) (products (working sb)).
Proof.
  induction ds as [|x ds IH]; intros env sa sb H; simpl in H.
  - injection H as <-. split; [reflexivity|]. split; [repeat split|].
    repeat (split; [reflexivity|]). simpl. rewrite List.app_nil_r.
    split; [reflexivity|]. apply stock_moved_refl.
  - apply bind_Return in H as ([] & s1 & H1 & H2).
    apply create_item_run in H1
      as (C1 & (U1 & G1 & K1 & O1) & T1 & N1 & B1 & I1 & M1).
    apply IH in H2 as (C2 & (U2 & G2 & K2 & O2) & T2 & N2 & B2 & I2 & M2).
    split; [congruence|]. split; [repeat split; congruence|].
    split; [simpl; lia|]. split; [simpl; lia|]. split; [congruence|]. split.
    + rewrite I2, I1, N1. simpl. rewrite <- List.app_assoc. reflexivity.
    + eapply stock_moved_trans; [| |exact M1|exact M2].
      * intros k. simpl. destruct (product_id x =? k); lia.
      * simpl. intros k [[->|[]]|Hk]; auto.
Qed.

Lemma restore_stock_run item env sa sb :
  OrderService.restore_stock item env sa = (Return tt, sb) ->
  committed sb = committed sa /\
  same_users_carts_orders (working sa) (working sb) /\
  order_items (working sb) = order_items (working sa) /\
  n_utcnow sb = S (n_utcnow sa) /\
  stock_moved (fun pid => if OrderItem.product_id item =? pid
                          then OrderItem.quantity item else 0)
    [OrderItem.product_id item] (products (working sa)) (products (working sb)).
Proof.
  unfold OrderService.restore_stock, bind, get_db, modify_db, utcnow, raise; simpl.
  destruct (find_by Product.id (OrderItem.product_id item) (products (working sa)))
    as [p|] eqn:E; [|discriminate].
  apply find_by_key in E. rewrite E. intros H. injection H as <-. simpl.
  split; [reflexivity|]. split; [repeat split|]. split; [reflexivity|].
  split; [reflexivity|]. apply stock_moved_step. reflexivity.
Qed.

Lemma restore_all_run items : forall env sa sb,
  for_each items OrderService.restore_stock env sa = (Return tt, sb) ->
  committed sb = committed sa /\
  same_users_carts_orders (working sa) (working sb) /\
  order_items (working sb) = order_items (working sa) /\
  n_utcnow sb = (length items + n_utcnow sa)%nat /\
  stock_moved (fun pid => quantity_for OrderItem.product_id OrderItem.quantity pid items)
    (List.map OrderItem.product_id items)
    (products (working sa)) (products (working sb)).
Proof.
  induction items as [|x items IH]; intros env sa sb H; simpl in H.
  - injection H as <-. split; [reflexivity|]. split; [repeat split|].
    split; [reflexivity|]. split; [reflexivity|]. apply stock_moved_refl.
  - apply bind_Return in H as ([] & s1 & H1 & H2).
    apply restore_stock_run in H1 as (C1 & (U1 & G1 & K1 & O1) & I1 & T1 & M1).
    apply IH in H2 as (C2 & (U2 & G2 & K2 & O2) & I2 & T2 & M2).
    split; [congruence|]. split; [repeat split; congruence|].
    split; [congruence|]. split; [simpl; lia|].
    eapply stock_moved_trans; [| |exact M1|exact M2].
    + intros k. simpl. reflexivity.
    + simpl. intros k [[->|[]]|Hk]; auto.
Qed.

(** ** The validation loop of checkout *)

Lemma accepts_acceptable d c x : accepts d c x -> acceptable d c.
Proof. intros (p & ? & ? & ? & _). exists p. auto. Qed.

Lemma acceptable_accepts d c : acceptable d c -> exists x, accepts d c x.
Proof. intros (p & ? & ? & ?). eexists. exists p. eauto. Qed.

Lemma check_cart_item_Return c acc env s acc' s' :
  OrderService.check_cart_item c acc env s = (Return acc', s') ->
  s' = s /\
  exists x, accepts (working s) c x /\
            acc' = (add_line (fst acc) (price_at_purchase x) (quantity x), snd acc ++ [x]).
Proof.
  unfold OrderService.check_cart_item. destruct acc as [t ds].
  unfold bind, get_db, raise, ret; simpl.
  destruct (find_by Product.id (CartItem.product_id c) (products (working s)))
    as [p|] eqn:E; [|discriminate].
  destruct (Product.is_active p) eqn:Ea; simpl; [|discriminate].
  destruct (Z.ltb_spec (Product.stock p) (CartItem.quantity c)) as [Hlt|Hge]; [discriminate|].
  intros H. injection H as <- <-. split; [reflexivity|].
  rewrite (find_by_key _ _ _ _ E).
  eexists. split; [exists p; eauto|]. reflexivity.
Qed.

Lemma check_cart_item_Raise c acc env s e s' :
  OrderService.check_cart_item c acc env s = (Raise e, s') ->
  s' = s /\ rejects (working s) c e.
Proof.
  unfold OrderService.check_cart_item, rejects. destruct acc as [t ds].
  unfold bind, get_db, raise, ret; simpl.
  destruct (find_by Product.id (CartItem.product_id c) (products (working s)))
    as [p|] eqn:E.
  - destruct (Product.is_active p) eqn:Ea; simpl.
    + destruct (Z.ltb_spec (Product.stock p) (CartItem.quantity c)) as [Hlt|Hge]; [|discriminate].
      intros H. injection H as <- <-. auto.
    + intros H. injection H as <- <-. auto.
  - intros H. injection H as <- <-. auto.
Qed.

Lemma check_cart_item_accepts c acc env s x :
  accepts (working s) c x ->
  OrderService.check_cart_item c acc env s =
  (Return (add_line (fst acc) (price_at_purchase x) (quantity x), snd acc ++ [x]), s).
Proof.
  intros (p & E & Ea & Hq & ->).
  unfold OrderService.check_cart_item. destruct acc as [t ds].
  unfold bind, get_db, raise, ret; simpl. rewrite E, Ea. simpl.
  destruct (Z.ltb_spec (Product.stock p) (CartItem.quantity c)) as [Hlt|Hge]; [lia|].
  rewrite (find_by_key _ _ _ _ E). reflexivity.
Qed.

Lemma check_cart_item_rejects c acc env s e :
  rejects (working s) c e ->
  OrderService.check_cart_item c acc env s = (Raise e, s).
Proof.
  unfold rejects, OrderService.check_cart_item. destruct acc as [t ds].
  unfold bind, get_db, raise, ret; simpl.
  destruct (find_by Product.id (CartItem.product_id c) (products (working s)))
    as [p|]; [|intros ->; reflexivity].
  intros [(Ea & ->) | (Ea & Hq & ->)]; rewrite Ea; simpl; [reflexivity|].
  destruct (Z.ltb_spec (Product.stock p) (CartItem.quantity c)) as [Hlt|Hge]; [reflexivity|lia].
Qed.

Lemma check_cart_Return cart : forall acc env s total ds s',
  OrderService.check_cart cart acc env s = (Return (total, ds), s') ->
  s' = s /\
  exists new, Forall2 (accepts (working s)) cart new /\
              ds = snd acc ++ new /\ total = total_of_data (fst acc) new.
Proof.
  induction cart as [|c cart IH]; intros acc env s total ds s' H; simpl in H.
  - unfold ret in H. injection H as -> <-. split; [reflexivity|].
    exists []. simpl. rewrite List.app_nil_r. auto.
  - apply bind_Return in H as (acc1 & s1 & H1 & H2).
    apply check_cart_item_Return in H1 as (-> & x & Hx & ->).
    apply IH in H2 as (-> & new & Hnew & -> & ->). split; [reflexivity|].
    exists (x :: new). simpl. rewrite <- List.app_assoc. auto.
Qed.

Lemma check_cart_Raise cart : forall acc env s e s',
  OrderService.check_cart cart acc env s = (Raise e, s') ->
  s' = s /\
  exists pre c post, cart = pre ++ c :: post /\
                     Forall (acceptable (working s)) pre /\
                     rejects (working s) c e.
Proof.
  induction cart as [|c cart IH]; intros acc env s e s' H; simpl in H;
    [discriminate|].
  apply bind_Raise in H as [H | (acc1 & s1 & H1 & H2)].
  - apply check_cart_item_Raise in H as (-> & Hr). split; [reflexivity|].
    exists [], c, cart. auto.
  - apply check_cart_item_Return in H1 as (-> & x & Hx & ->).
    apply IH in H2 as (-> & pre & c' & post & -> & Hpre & Hr). split; [reflexivity|].
    exists (c :: pre), c', post. split; [reflexivity|]. split; [|exact Hr].
    constructor; [eapply accepts_acceptable; eauto | exact Hpre].
Qed.

Lemma check_cart_accepts cart : forall new acc env s,
  Forall2 (accepts (working s)) cart new ->
  OrderService.check_cart cart acc env s =
  (Return (total_of_data (fst acc) new, snd acc ++ new), s).
Proof.
  induction cart as [|c cart IH]; intros new acc env s H; inversion H; subst; simpl.
  - rewrite List.app_nil_r. destruct acc; reflexivity.
  - erewrite bind_run; [|apply check_cart_item_accepts; eassumption].
    rewrite (IH l'); [|assumption]. simpl. rewrite <- List.app_assoc. reflexivity.
Qed.

Lemma check_cart_rejects pre c post acc env s e :
  Forall (acceptable (working s)) pre ->
  rejects (working s) c e ->
  OrderService.check_cart (pre ++ c :: post) acc env s = (Raise e, s).
Proof.
  intros Hpre Hr. revert acc. induction Hpre as [|c' pre Hc' _ IH]; intros acc; simpl.
  - unfold bind. rewrite (check_cart_item_rejects _ _ _ _ _ Hr). reflexivity.
  - apply acceptable_accepts in Hc' as (x & Hx).
    erewrite bind_run; [|apply check_cart_item_accepts; eassumption]. apply IH.
Qed.

(** ** A successful checkout, step by step *)

Lemma delete_cart_run cart : forall env sa,
  exists sb, for_each cart OrderService.delete_cart_item env sa = (Return tt, sb) /\
    committed sb = committed sa /\
    users (working sb) = users (working sa) /\
    categories (working sb) = categories (working sa) /\
    products (working sb) = products (working sa) /\
    orders (working sb) = orders (working sa) /\
    order_items (working sb) = order_items (working sa) /\
    cart_items (working sb) =
      fold_left (fun l c => delete_by CartItem.id (CartItem.id c) l) cart
        (cart_items (working sa)).
Proof.
  induction cart as [|c cart IH]; intros env sa; simpl.
  - exists sa. repeat split.
  - unfold bind at 1. unfold OrderService.delete_cart_item at 1. unfold modify_db.
    match goal with |- context [for_each cart _ env ?s] =>
      destruct (IH env s) as (sb & H & C & U & G & P & O & I & K) end.
    exists sb. simpl in *. repeat split; assumption.
Qed.

Lemma flush_run env s s' :
  flush env s = (Return tt, s') -> integrity (working s) = true /\ s' = s.
Proof.
  unfold flush, bind, get_db, ret, raise.
  destruct (integrity (working s)); [|discriminate].
  intros H. injection H as <-. auto.
Qed.

Lemma commit_run env s s' :
  commit env s = (Return tt, s') ->
  integrity (working s) = true /\
  s' = mk_Session (working s) (working s) (n_utcnow s) (n_uuid4 s) (n_token_bytes s).
Proof.
  unfold commit. intros H. apply bind_Return in H as ([] & s1 & H1 & H2).
  apply flush_run in H1 as (Hi & ->). injection H2 as <-. auto.
Qed.

Lemma commit_ok env s :
  integrity (working s) = true ->
  commit env s =
  (Return tt,
   mk_Session (working s) (working s) (n_utcnow s) (n_uuid4 s) (n_token_bytes s)).
Proof.
  intros Hi. unfold commit, flush, bind, get_db, ret. rewrite Hi. reflexivity.
Qed.

Lemma checkout_run checkout_data user env s o its s' :
  OrderService.checkout checkout_data user env s = (Return (o, its), s') ->
  exists u ds,
    find_by User.id (User.id user) (users (working s)) = Some u /\
    cart_items_of (working s) (User.id user) <> [] /\
    Forall2 (accepts (working s)) (cart_items_of (working s) (User.id user)) ds /\
    let order :=
      new_order env s checkout_data (User.id user) (total_of_data 0%float ds) in
    integrity (set_orders (orders (working s) ++ [order]) (working s)) = true /\
    integrity (working s') = true /\
    committed s' = working s' /\
    users (working s') = users (working s) /\
    categories (working s') = categories (working s) /\
    orders (working s') = orders (working s) ++ [order] /\
    order_items (working s') =
      order_items (working s) ++ created_items env (Order.id order) (S (n_uuid4 s)) ds /\
    stock_moved (fun pid => - quantity_for product_id quantity pid ds)
      (List.map product_id ds) (products (working s)) (products (working s')) /\
    find_by Order.id (Order.id order) (orders (working s')) = Some o /\
    its = items_of (working s') (Order.id o).
Proof.
  intros H. unfold OrderService.checkout in H.
  apply bind_Return in H as (d & s0 & Hd & H).
  unfold get_db in Hd. injection Hd as <- <-.
  destruct (find_by User.id (User.id user) (users (working s))) as [u|] eqn:Eu;
    [|discriminate].
  pose proof (find_by_key _ _ _ _ Eu) as Hu. rewrite Hu in H.
  destruct (cart_items_of (working s) (User.id user)) as [|c cart] eqn:Ecart;
    [discriminate|].
  apply bind_Return in H as ([total ds] & s1 & Hcheck & H).
  apply check_cart_Return in Hcheck as (-> & new & Hacc & Hds & Htot).
  simpl in Hds, Htot. subst ds total.
  exists u, new. split; [reflexivity|]. split; [discriminate|]. split; [exact Hacc|].
  unfold OrderService._generate_order_number, token_hex, token_bytes in H.
  unfold bind at 1 2 3 4 5 6 7 8 in H. unfold utcnow, uuid4, ret, modify_db in H.
  simpl in H.
  change (OrderService.delete_cart_item c;; for_each cart OrderService.delete_cart_item)
    with (for_each (c :: cart) OrderService.delete_cart_item) in H.
  set (order := new_order env s checkout_data (User.id user) (total_of_data 0%float new)).
  apply bind_Return in H as ([] & s2 & Hflush & H).
  apply flush_run in Hflush as (Hint1 & ->). simpl in Hint1.
  apply bind_Return in H as ([] & s3 & Hcreate & H).
  apply create_items_run in Hcreate
    as (C3 & (U3 & G3 & K3 & O3) & _ & _ & _ & I3 & M3).
  simpl in C3, U3, G3, K3, O3, I3, M3.
  apply bind_Return in H as ([] & s4 & Hdel & H).
  destruct (delete_cart_run (c :: cart) env s3)
    as (sb & Hrun & C4 & U4 & G4 & P4 & O4 & I4 & _).
  rewrite Hrun in Hdel. injection Hdel as <-.
  apply bind_Return in H as ([] & s5 & Hcommit & H).
  apply commit_run in Hcommit as (Hint2 & ->).
  unfold bind, get_db in H. simpl in H.
  destruct (find_by Order.id (uuid4_at env (n_uuid4 s)) (orders (working sb)))
    as [o'|] eqn:Eo; [|discriminate].
  unfold ret in H. injection H as <- <- <-. simpl.
  split; [exact Hint1|]. split; [exact Hint2|]. split; [reflexivity|].
  split; [rewrite U4; exact U3|]. split; [rewrite G4; exact G3|].
  split; [rewrite O4, O3; reflexivity|]. split; [rewrite I4; exact I3|].
  split; [rewrite P4; exact M3|]. split; [exact Eo|reflexivity].
Qed.

Lemma NoDup_snoc_fresh {A} (l : list A) (a : A) : NoDup (l ++ [a]) -> ~ In a l.
Proof.
  rewrite NoDup_app. intros (_ & H & _) Hin. apply (H a).
  - apply list_elem_of_In. exact Hin.
  - apply list_elem_of_In. left. reflexivity.
Qed.

Lemma integrity_fresh_order d o :
  integrity (set_orders (orders d ++ [o]) d) = true ->
  ~ In (Order.id o) (List.map Order.id (orders d)).
Proof.
  unfold integrity. simpl. intros H.
  apply andb_true_iff in H as [H _]. apply andb_true_iff in H as [H _].
  apply bool_decide_eq_true in H. rewrite List.map_app in H. simpl in H.
  apply NoDup_snoc_fresh in H. exact H.
Qed.

Lemma integrity_fresh_number d o :
  integrity (set_orders (orders d ++ [o]) d) = true ->
  ~ In (Order.order_number o) (List.map Order.order_number (orders d)).
Proof.
  unfold integrity. simpl. intros H.
  apply andb_true_iff in H as [H _]. apply andb_true_iff in H as [_ H].
  apply bool_decide_eq_true in H. rewrite List.map_app in H. simpl in H.
  apply NoDup_snoc_fresh in H. exact H.
Qed.

Lemma items_of_fresh d oid :
  order_items_reference_orders d ->
  ~ In oid (List.map Order.id (orders d)) ->
  List.filter (fun i => OrderItem.order_id i =? oid) (order_items d) = [].
Proof.
  intros Hfk Hfresh. unfold order_items_reference_orders in Hfk.
  induction (order_items d) as [|it l IH]; simpl; [reflexivity|].
  destruct (Z.eqb_spec (OrderItem.order_id it) oid) as [E|E].
  - exfalso. apply Hfresh. rewrite <- E. apply Hfk. left. reflexivity.
  - apply IH. intros it' Hin. apply Hfk. right. exact Hin.
Qed.

Lemma items_of_created env oid ds : forall k,
  List.filter (fun i => OrderItem.order_id i =? oid) (created_items env oid k ds) =
  created_items env oid k ds.
Proof.
  induction ds as [|x ds IH]; intros k; simpl; [reflexivity|].
  rewrite Z.eqb_refl, IH. reflexivity.
Qed.

Lemma total_of_data_items oid ds its : forall t,
  Forall2 (item_of_data oid) ds its ->
  total_of_data t ds =
  fold_left (fun t it => add_line t (OrderItem.price_at_purchase it) (OrderItem.quantity it))
            its t.
Proof.
  intros t H. revert t. induction H as [|x it ds its (Hq & Hp & _) _ IH]; intros t; simpl.
  - reflexivity.
  - rewrite Hq, Hp. apply IH.
Qed.

Lemma quantity_for_items oid ds its pid :
  Forall2 (item_of_data oid) ds its ->
  quantity_for OrderItem.product_id OrderItem.quantity pid its =
  quantity_for product_id quantity pid ds.
Proof.
  induction 1 as [|x it ds its (Hq & _ & _ & Hp) _ IH]; simpl; [reflexivity|].
  rewrite Hq, Hp, IH. reflexivity.
Qed.

Lemma quantity_for_accepts d cart ds pid :
  Forall2 (accepts d) cart ds ->
  quantity_for product_id quantity pid ds =
  quantity_for CartItem.product_id CartItem.quantity pid cart.
Proof.
  induction 1 as [|c x cart ds (p & _ & _ & _ & ->) _ IH]; simpl; [reflexivity|].
  rewrite IH. reflexivity.
Qed.

Lemma product_ids_items oid ds its :
  Forall2 (item_of_data oid) ds its ->
  List.map OrderItem.product_id its = List.map product_id ds.
Proof.
  induction 1 as [|x it ds its (_ & _ & _ & Hp) _ IH]; simpl; [reflexivity|].
  rewrite Hp, IH. reflexivity.
Qed.

Lemma request_Return {A} (m : M A) env d a d' :
  request m env d = (Return a, d') ->
  exists s', m env (begin d) = (Return a, s') /\ committed s' = d'.
Proof.
  unfold request. destruct (m env (begin d)) as [r s'].
  intros H. injection H as -> <-. eauto.
Qed.

Lemma request_Raise {A} (m : M A) env d e d' :
  request m env d = (Raise e, d') ->
  exists s', m env (begin d) = (Raise e, s') /\ committed s' = d'.
Proof.
  unfold request. destruct (m env (begin d)) as [r s'].
  intros H. injection H as -> <-. eauto.
Qed.

(** What a successful checkout request returns and leaves behind. *)
Lemma checkout_success checkout_data user env d o its d' :
  order_items_reference_orders d ->
  request (OrderService.checkout checkout_data user) env d = (Return (o, its), d') ->
  exists ds,
    cart_items_of d (User.id user) <> [] /\
    Forall2 (accepts d) (cart_items_of d (User.id user)) ds /\
    o = new_order env (begin d) checkout_data (User.id user) (total_of_data 0%float ds) /\
    its = created_items env (Order.id o) 1 ds /\
    ~ In (Order.id o) (List.map Order.id (orders d)) /\
    integrity d' = true /\
    users d' = users d /\
    orders d' = orders d ++ [o] /\
    order_items d' = order_items d ++ its /\
    items_of d' (Order.id o) = its /\
    find_by Order.id (Order.id o) (orders d') = Some o /\
    stock_moved (fun pid => - quantity_for product_id quantity pid ds)
      (List.map product_id ds) (products d) (products d').
Proof.
  intros Hfk H. apply request_Return in H as (s' & H & <-).
  apply checkout_run in H
    as (u & ds & Eu & Hne & Hacc & Hi1 & Hi2 & Hc & HU & _ & HO & HI & HM & Ho & Hits).
  simpl in *. rewrite Hc.
  set (order := new_order env (begin d) checkout_data (User.id user)
                  (total_of_data 0%float ds)) in *.
  pose proof (integrity_fresh_order _ _ Hi1) as Hfresh.
  assert (Ho' : o = order).
  { rewrite HO, find_by_app in Ho.
    destruct (find_by Order.id (Order.id order) (orders d)) eqn:E.
    - exfalso. apply Hfresh. rewrite <- (find_by_key _ _ _ _ E).
      apply List.in_map. eapply find_by_In. exact E.
    - unfold find_by in Ho, E. simpl in Ho, E. rewrite E, Z.eqb_refl in Ho.
      congruence. }
  subst o.
  assert (Hitems : items_of (working s') (Order.id order) =
                   created_items env (Order.id order) 1 ds).
  { unfold items_of. rewrite HI, List.filter_app.
    rewrite (items_of_fresh d _ Hfk Hfresh). apply items_of_created. }
  rewrite Hitems in Hits.
  exists ds. split; [exact Hne|]. split; [exact Hacc|]. split; [reflexivity|].
  split; [exact Hits|]. split; [exact Hfresh|]. split; [exact Hi2|].
  split; [exact HU|]. split; [exact HO|]. split; [rewrite Hits; exact HI|].
  split; [rewrite Hits; exact Hitems|]. split; [|exact HM].
  rewrite HO, find_by_app.
  destruct (find_by Order.id (Order.id order) (orders d)) eqn:E.
  - exfalso. apply Hfresh. rewrite <- (find_by_key _ _ _ _ E).
    apply List.in_map. eapply find_by_In. exact E.
  - unfold find_by. simpl. rewrite Z.eqb_refl. reflexivity.
Qed.

(** ** A successful cancel_order, step by step *)

Lemma get_by_id_run oid env s :
  OrderService.get_by_id oid env s =
  (Return (match find_by Order.id oid (orders (working s)) with
           | Some o => Some (o, items_of (working s) oid)
           | None => None
           end), s).
Proof.
  unfold OrderService.get_by_id, bind, get_db, ret.
  destruct (find_by Order.id oid (orders (working s))) as [o|] eqn:E; [|reflexivity].
  rewrite (find_by_key _ _ _ _ E). reflexivity.
Qed.

Lemma find_by_alter_order f oid os o :
  (forall x, Order.id (f x) = Order.id x) ->
  find_by Order.id oid os = Some o ->
  find_by Order.id oid (alter_by Order.id f oid os) = Some (f o).
Proof.
  intros Hf E. unfold alter_by. rewrite find_by_map.
  - rewrite E. simpl. rewrite (find_by_key _ _ _ _ E), Z.eqb_refl. reflexivity.
  - intros x. destruct (Order.id x =? oid); [apply Hf | reflexivity].
Qed.

Lemma cancel_order_run oid user env s o' s' :
  OrderService.cancel_order oid user env s = (Return o', s') ->
  exists o,
    find_by Order.id oid (orders (working s)) = Some o /\
    Order.buyer_id o = User.id user /\
    OrderService.cannot_cancel (Order.status o) = false /\
    let items := items_of (working s) oid in
    let now := utcnow_at env (length items + n_utcnow s) in
    o' = Order.set_updated_at now (Order.set_status CANCELLED o) /\
    integrity (working s') = true /\
    committed s' = working s' /\
    users (working s') = users (working s) /\
    categories (working s') = categories (working s) /\
    cart_items (working s') = cart_items (working s) /\
    order_items (working s') = order_items (working s) /\
    orders (working s') =
      alter_by Order.id (Order.set_updated_at now) oid
        (alter_by Order.id (Order.set_status CANCELLED) oid (orders (working s))) /\
    stock_moved
      (fun pid => quantity_for OrderItem.product_id OrderItem.quantity pid items)
      (List.map OrderItem.product_id items)
      (products (working s)) (products (working s')).
Proof.
  intros H. unfold OrderService.cancel_order in H.
  rewrite (bind_run _ _ _ _ _ _ (get_by_id_run oid env s)) in H.
  destruct (find_by Order.id oid (orders (working s))) as [o|] eqn:Eo; [|discriminate].
  pose proof (find_by_key _ _ _ _ Eo) as Hid.
  destruct (Z.eqb_spec (Order.buyer_id o) (User.id user)) as [Hb|Hb];
    simpl in H; [|discriminate].
  destruct (OrderService.cannot_cancel (Order.status o)) eqn:Hc; [discriminate|].
  apply bind_Return in H as ([] & s1 & Hloop & H).
  apply restore_all_run in Hloop as (C1 & (U1 & G1 & K1 & O1) & I1 & T1 & M1).
  unfold bind at 1 2 3 in H. unfold modify_db, utcnow in H. simpl in H.
  apply bind_Return in H as ([] & s2 & Hcommit & H).
  apply commit_run in Hcommit as (Hint & ->). simpl in Hint.
  unfold bind, get_db in H. simpl in H.
  rewrite Hid, O1, T1 in H.
  erewrite find_by_alter_order in H; [| reflexivity |
    apply find_by_alter_order; [reflexivity | exact Eo]].
  unfold ret in H. injection H as <- <-. simpl.
  exists o. rewrite Hid, O1, T1 in Hint.
  split; [reflexivity|]. split; [exact Hb|]. split; [exact Hc|].
  split; [reflexivity|]. split; [exact Hint|]. split; [reflexivity|].
  split; [exact U1|]. split; [exact G1|]. split; [exact K1|]. split; [exact I1|].
  split; [reflexivity|]. exact M1.
Qed.

(** ** Price snapshot *)

Lemma preserves_bind P {A B} (m : M A) (k : A -> M B) :
  preserves P m -> (forall a, preserves P (k a)) -> preserves P (bind m k).
Proof.
  intros Hm Hk env s r s'. unfold bind.
  destruct (m env s) as [[a|e] s1] eqn:E; intros H HP.
  - eapply Hk; [exact H|]. eapply Hm; eauto.
  - injection H as <- <-. eapply Hm; eauto.
Qed.

Lemma preserves_orders_read os ois {A} (m : M A) :
  read_only m -> preserves (holds_orders os ois) m.
Proof. intros Hm env s r s' H HP. apply Hm in H. subst s'. exact HP. Qed.

Lemma preserves_orders_utcnow os ois : preserves (holds_orders os ois) utcnow.
Proof. intros env s r s' H HP. injection H as <- <-. exact HP. Qed.

Lemma preserves_orders_commit os ois : preserves (holds_orders os ois) commit.
Proof.
  intros env s r s'. unfold commit, flush, bind, get_db, ret, raise.
  destruct (integrity (working s)); intros H (H1 & H2 & H3 & H4);
    injection H as <- <-; repeat split; assumption.
Qed.

Lemma preserves_orders_products os ois (f : DB -> list Product.t) :
  preserves (holds_orders os ois) (modify_db (fun d => set_products (f d) d)).
Proof. intros env s r s' H HP. injection H as <- <-. exact HP. Qed.

Lemma product_update_preserves_orders os ois pid upd seller :
  preserves (holds_orders os ois) (ProductService.update pid upd seller).
Proof.
  unfold ProductService.update, ProductService.get_by_id.
  apply preserves_bind.
  { apply preserves_orders_read. intros env s r s' H. injection H as <- <-. reflexivity. }
  intros [product|]; [|apply preserves_orders_read; intros ? ? ? ? H; injection H; auto].
  destruct (negb _); [apply preserves_orders_read; intros ? ? ? ? H; injection H; auto|].
  apply preserves_bind;
    [apply preserves_orders_read; intros ? ? ? ? H; injection H; auto|intros d].
  apply preserves_bind.
  { apply preserves_orders_read. intros env s r s' H.
    repeat case_match; injection H; auto. }
  intros _. apply preserves_bind; [apply preserves_orders_utcnow|intros now].
  destruct (ProductService.apply_updates upd product) as [updated|];
    [|apply preserves_orders_read; intros ? ? ? ? H; injection H; auto].
  apply preserves_bind; [apply preserves_orders_products|intros _].
  apply preserves_bind; [apply preserves_orders_commit|intros _].
  apply preserves_orders_read. intros env s r s' H. unfold bind, get_db in H.
  repeat case_match; injection H; auto.
Qed.

Lemma product_update_keeps_orders pid upd seller env d :
  let d' := snd (request (ProductService.update pid upd seller) env d) in
  orders d' = orders d /\ order_items d' = order_items d.
Proof.
  unfold request.
  destruct (ProductService.update pid upd seller env (begin d)) as [r s'] eqn:E.
  assert (HP : holds_orders (orders d) (order_items d) (begin d)) by (repeat split).
  destruct (product_update_preserves_orders _ _ pid upd seller env (begin d) r s' E HP)
    as (H1 & H2 & _).
  simpl. auto.
Qed.

Lemma product_updates_keep_orders us : forall d,
  orders (product_updates us d) = orders d /\
  order_items (product_updates us d) = order_items d.
Proof.
  induction us as [|[[[pid upd] seller] env] us IH]; intros d; simpl; [auto|].
  destruct (IH (snd (request (ProductService.update pid upd seller) env d))) as [-> ->].
  apply product_update_keeps_orders.
Qed.

Lemma get_by_id_request oid env d :
  fst (request (OrderService.get_by_id oid) env d) =
  Return (match find_by Order.id oid (orders d) with
          | Some o => Some (o, items_of d oid)
          | None => None
          end).
Proof. unfold request. rewrite get_by_id_run. reflexivity. Qed.

(** C2 (total and price snapshot).  For the order [o] with items [its]
    that a successful checkout returns: [o.total_amount] is the sum over
    [its] of [price_at_purchase * quantity] (Python's left-to-right float
    sum from 0); item by item, [its] carries the cart's quantity and the
    price the product had in the database checkout started from; the
    order read back from the database is [o] with [its]; and it still is
    after any sequence of later product updates (the only operation that
    changes a price), whatever they set. *)
Theorem order_total_is_sum_of_price_snapshots :
  forall checkout_data user env d o its d',
    order_items_reference_orders d ->
    request (OrderService.checkout checkout_data user) env d = (Return (o, its), d') ->
    Order.total_amount o = sum_of_lines its /\
    Forall2 (fun c it =>
               exists p,
                 find_by Product.id (CartItem.product_id c) (products d) = Some p /\
                 OrderItem.product_id it = CartItem.product_id c /\
                 OrderItem.quantity it = CartItem.quantity c /\
                 OrderItem.price_at_purchase it = Product.price p)
            (cart_items_of d (User.id user)) its /\
    forall us env',
      fst (request (OrderService.get_by_id (Order.id o)) env' (product_updates us d')) =
      Return (Some (o, its)).
Proof.
  intros data user env d o its d' Hfk H.
  apply checkout_success in H
    as (ds & _ & Hacc & Ho & Hits & _ & _ & _ & HO & HI & Hitems & Hfind & _);
    [|exact Hfk].
  pose proof (created_items_data env (Order.id o) ds 1) as Hdata.
  rewrite <- Hits in Hdata.
  split; [|split].
  - rewrite Ho at 1. simpl. unfold sum_of_lines.
    apply (total_of_data_items (Order.id o)). exact Hdata.
  - eapply Forall2_trans; [|exact Hacc|exact Hdata].
    intros c x it (p & Ep & _ & _ & ->) (Hq & Hp & _ & Hpid). simpl in *.
    exists p. auto.
  - intros us env'. rewrite get_by_id_request.
    destruct (product_updates_keep_orders us d') as [EO EI].
    unfold items_of in *. rewrite EO, EI, Hfind, Hitems. reflexivity.
Qed.

(** ** Stock conservation *)

Lemma same_stock_stock_of d d' :
  Forall2 (fun p p' => Product.id p' = Product.id p /\ Product.stock p' = Product.stock p)
          (products d) (products d') ->
  forall pid, stock_of d' pid = stock_of d pid.
Proof.
  intros H pid. unfold stock_of.
  pose proof (find_by_Forall2 Product.id _ pid _ _ (fun x y Hxy => proj1 Hxy) H) as Hf.
  destruct Hf as [p p' (_ & Hs)|]; simpl; [rewrite Hs|]; reflexivity.
Qed.

(** C3 (stock conservation).  A successful checkout followed by a
    successful cancellation of the order it created.  The items of the
    order carry, product by product, the quantities of the buyer's cart;
    row by row of the products table, checkout takes the quantity in the
    cart off the stock, cancellation puts the same quantity back, and
    the stock after the cancellation is the stock before the checkout. *)
Theorem checkout_then_cancel_restores_stock :
  forall checkout_data buyer env d o its d1 canceller env' o' d2,
    order_items_reference_orders d ->
    request (OrderService.checkout checkout_data buyer) env d = (Return (o, its), d1) ->
    request (OrderService.cancel_order (Order.id o) canceller) env' d1 = (Return o', d2) ->
    (forall pid, purchased pid its = in_cart d (User.id buyer) pid) /\
    Forall2 (fun p p1 => Product.id p1 = Product.id p /\
                         Product.stock p1 =
                         Product.stock p - in_cart d (User.id buyer) (Product.id p))
            (products d) (products d1) /\
    Forall2 (fun p1 p2 => Product.id p2 = Product.id p1 /\
                          Product.stock p2 =
                          Product.stock p1 + in_cart d (User.id buyer) (Product.id p1))
            (products d1) (products d2) /\
    Forall2 (fun p p1 => Product.id p1 = Product.id p /\
                         Product.stock p1 = Product.stock p - purchased (Product.id p) its)
            (products d) (products d1) /\
    Forall2 (fun p1 p2 => Product.id p2 = Product.id p1 /\
                          Product.stock p2 = Product.stock p1 + purchased (Product.id p1) its)
            (products d1) (products d2) /\
    Forall2 (fun p p2 => Product.id p2 = Product.id p /\ Product.stock p2 = Product.stock p)
            (products d) (products d2) /\
    forall pid, stock_of d2 pid = stock_of d pid.
Proof.
  intros data buyer env d o its d1 canceller env' o' d2 Hfk H1 H2.
  apply checkout_success in H1
    as (ds & _ & Hacc & _ & Hits & _ & _ & _ & _ & _ & Hitems & _ & M1); [|exact Hfk].
  apply request_Return in H2 as (s2 & H2 & <-).
  apply cancel_order_run in H2
    as (o0 & _ & _ & _ & _ & _ & Hc & _ & _ & _ & _ & _ & M2).
  simpl in M2. fold (items_of d1 (Order.id o)) in M2. rewrite Hitems in M2.
  rewrite Hc.
  pose proof (created_items_data env (Order.id o) ds 1) as Hdata.
  rewrite <- Hits in Hdata.
  assert (Hcart : forall pid, purchased pid its = in_cart d (User.id buyer) pid).
  { intros pid. unfold purchased, in_cart.
    rewrite (quantity_for_items _ _ _ _ Hdata).
    apply (quantity_for_accepts d). exact Hacc. }
  assert (A1 : Forall2 (fun p p1 => Product.id p1 = Product.id p /\
                 Product.stock p1 = Product.stock p - purchased (Product.id p) its)
               (products d) (products d1)).
  { eapply Forall2_impl; [exact M1|]. intros p p1 (F & S & _). split; [apply F|].
    unfold purchased. rewrite (quantity_for_items _ _ _ _ Hdata). lia. }
  assert (A2 : Forall2 (fun p1 p2 => Product.id p2 = Product.id p1 /\
                 Product.stock p2 = Product.stock p1 + purchased (Product.id p1) its)
               (products d1) (products (working s2))).
  { eapply Forall2_impl; [exact M2|]. intros p p1 (F & S & _). split; [apply F|exact S]. }
  assert (A3 : Forall2 (fun p p2 => Product.id p2 = Product.id p /\
                 Product.stock p2 = Product.stock p) (products d) (products (working s2))).
  { eapply Forall2_trans; [|exact A1|exact A2].
    intros p p1 p2 (I1 & S1) (I2 & S2). split; [congruence|]. rewrite S2, S1, I1. lia. }
  split; [exact Hcart|]. split.
  { eapply Forall2_impl; [exact A1|]. intros p p1 (I & S). rewrite <- Hcart. auto. }
  split.
  { eapply Forall2_impl; [exact A2|]. intros p p1 (I & S). rewrite <- Hcart. auto. }
  split; [exact A1|]. split; [exact A2|]. split; [exact A3|].
  apply same_stock_stock_of. exact A3.
Qed.

(** ** cancel_order and update_status, case by case *)

Lemma cannot_cancel_spec st :
  OrderService.cannot_cancel st = true <-> In st [SHIPPED; DELIVERED; CANCELLED].
Proof. destruct st; simpl; split; intros H; try discriminate; intuition discriminate. Qed.

Lemma cancel_order_NotFound oid user env s :
  find_by Order.id oid (orders (working s)) = None ->
  OrderService.cancel_order oid user env s = (Raise (NotFound "Order not found"), s).
Proof.
  intros E. unfold OrderService.cancel_order.
  rewrite (bind_run _ _ _ _ _ _ (get_by_id_run oid env s)), E. reflexivity.
Qed.

Lemma cancel_order_Forbidden oid user env s o :
  find_by Order.id oid (orders (working s)) = Some o ->
  Order.buyer_id o <> User.id user ->
  OrderService.cancel_order oid user env s = (Raise (Forbidden "Not your order"), s).
Proof.
  intros E Hb. unfold OrderService.cancel_order.
  rewrite (bind_run _ _ _ _ _ _ (get_by_id_run oid env s)), E.
  destruct (Z.eqb_spec (Order.buyer_id o) (User.id user)); [contradiction|reflexivity].
Qed.

Lemma cancel_order_InvalidState oid user env s o :
  find_by Order.id oid (orders (working s)) = Some o ->
  Order.buyer_id o = User.id user ->
  OrderService.cannot_cancel (Order.status o) = true ->
  OrderService.cancel_order oid user env s = (Raise (InvalidState (Order.status o)), s).
Proof.
  intros E Hb Hc. unfold OrderService.cancel_order.
  rewrite (bind_run _ _ _ _ _ _ (get_by_id_run oid env s)), E.
  destruct (Z.eqb_spec (Order.buyer_id o) (User.id user)); [|contradiction].
  simpl. rewrite Hc. reflexivity.
Qed.

Lemma restore_stock_raises_internal item :
  raises_only internal (OrderService.restore_stock item).
Proof.
  intros env s e s'. unfold OrderService.restore_stock.
  unfold bind, get_db, modify_db, utcnow, raise; simpl.
  case_match; intros; simplify_eq. exact I.
Qed.

(** Past its three guards, cancel_order raises nothing of its own. *)
Lemma cancel_order_allowed_raises_internal oid user env s o e s' :
  find_by Order.id oid (orders (working s)) = Some o ->
  Order.buyer_id o = User.id user ->
  OrderService.cannot_cancel (Order.status o) = false ->
  OrderService.cancel_order oid user env s = (Raise e, s') ->
  internal e.
Proof.
  intros E Hb Hc. unfold OrderService.cancel_order.
  rewrite (bind_run _ _ _ _ _ _ (get_by_id_run oid env s)), E.
  destruct (Z.eqb_spec (Order.buyer_id o) (User.id user)) as [_|Hne]; [|contradiction].
  simpl. rewrite Hc. intros H.
  refine ((_ : raises_only internal _) env s e s' H).
  apply raises_only_bind;
    [apply raises_only_for_each, restore_stock_raises_internal|intros _].
  apply raises_only_bind; [intros ? ? ? ? ?; discriminate|intros _].
  apply raises_only_bind; [intros ? ? ? ? ?; discriminate|intros now].
  apply raises_only_bind; [intros ? ? ? ? ?; discriminate|intros _].
  apply raises_only_bind; [apply commit_raises_internal|intros _].
  apply raises_only_bind; [intros ? ? ? ? ?; discriminate|intros d].
  intros env1 s1 e1 s1'. case_match; unfold ret, raise; intros; simplify_eq. exact I.
Qed.

Lemma stock_moved_find delta named ps ps' pid :
  stock_moved delta named ps ps' ->
  find_by Product.id pid ps <> None -> find_by Product.id pid ps' <> None.
Proof.
  intros H.
  pose proof (find_by_Forall2 Product.id _ pid ps ps'
                (fun x y Hxy => proj1 (proj1 Hxy)) H) as Hf.
  destruct Hf; [discriminate | contradiction].
Qed.

Lemma restore_all_ok items : forall env sa,
  (forall it, In it items ->
     find_by Product.id (OrderItem.product_id it) (products (working sa)) <> None) ->
  exists sb, for_each items OrderService.restore_stock env sa = (Return tt, sb).
Proof.
  induction items as [|x items IH]; intros env sa Hex; simpl.
  - eexists. reflexivity.
  - assert (H1 : exists s1, OrderService.restore_stock x env sa = (Return tt, s1)).
    { unfold OrderService.restore_stock, bind, get_db, modify_db, utcnow, raise; simpl.
      destruct (find_by Product.id (OrderItem.product_id x) (products (working sa)))
        eqn:E; [eexists; reflexivity|].
      exfalso. apply (Hex x); [left; reflexivity | exact E]. }
    destruct H1 as (s1 & H1). rewrite (bind_run _ _ _ _ _ _ H1).
    apply IH. intros it Hin.
    apply restore_stock_run in H1 as (_ & _ & _ & _ & M).
    eapply stock_moved_find; [exact M|]. apply Hex. right. exact Hin.
Qed.

Lemma map_alter_by {A B} (key : A -> Z) (proj : A -> B) f k l :
  (forall x, proj (f x) = proj x) ->
  List.map proj (alter_by key f k l) = List.map proj l.
Proof.
  intros Hf. unfold alter_by. rewrite List.map_map. apply List.map_ext.
  intros x. destruct (key x =? k); [apply Hf | reflexivity].
Qed.

Lemma integrity_ext d d' :
  List.map Order.id (orders d') = List.map Order.id (orders d) ->
  List.map Order.order_number (orders d') = List.map Order.order_number (orders d) ->
  List.map OrderItem.id (order_items d') = List.map OrderItem.id (order_items d) ->
  integrity d' = integrity d.
Proof. intros H1 H2 H3. unfold integrity. rewrite H1, H2, H3. reflexivity. Qed.

Lemma cancel_order_ok oid user env s o :
  find_by Order.id oid (orders (working s)) = Some o ->
  Order.buyer_id o = User.id user ->
  OrderService.cannot_cancel (Order.status o) = false ->
  integrity (working s) = true ->
  (forall it, In it (items_of (working s) oid) ->
     find_by Product.id (OrderItem.product_id it) (products (working s)) <> None) ->
  exists o' s', OrderService.cancel_order oid user env s = (Return o', s').
Proof.
  intros E Hb Hc Hint Hex. unfold OrderService.cancel_order.
  rewrite (bind_run _ _ _ _ _ _ (get_by_id_run oid env s)), E.
  destruct (Z.eqb_spec (Order.buyer_id o) (User.id user)) as [_|Hne]; [|contradiction].
  simpl. rewrite Hc.
  destruct (restore_all_ok _ env s Hex) as (s1 & Hloop).
  rewrite (bind_run _ _ _ _ _ _ Hloop).
  apply restore_all_run in Hloop as (_ & (_ & _ & _ & O1) & I1 & _ & _).
  unfold bind at 1 2 3. unfold modify_db, utcnow. simpl.
  pose proof (find_by_key _ _ _ _ E) as Hid. rewrite Hid, O1.
  erewrite bind_run; [|apply commit_ok]; simpl.
  - unfold bind, get_db. simpl.
    erewrite find_by_alter_order; [| reflexivity |
      apply find_by_alter_order; [reflexivity | exact E]].
    eexists _, _. reflexivity.
  - rewrite <- Hint. apply integrity_ext; simpl.
    + rewrite !(map_alter_by Order.id Order.id); reflexivity.
    + rewrite !(map_alter_by Order.id Order.order_number); reflexivity.
    + rewrite I1. reflexivity.
Qed.

(** C9 (precedence of cancel_order's failures).  An absent order is
    NotFound whoever calls; an existing order that is not the caller's is
    Forbidden whatever its status (a shipped one too); only the owner of
    an order whose status is shipped, delivered or cancelled gets
    InvalidState.  In each case nothing is written. *)
Theorem cancel_order_failure_precedence :
  forall oid user env d,
    (find_by Order.id oid (orders d) = None ->
     request (OrderService.cancel_order oid user) env d =
     (Raise (NotFound "Order not found"), d)) /\
    (forall o,
       find_by Order.id oid (orders d) = Some o ->
       Order.buyer_id o <> User.id user ->
       request (OrderService.cancel_order oid user) env d =
       (Raise (Forbidden "Not your order"), d)) /\
    (forall o,
       find_by Order.id oid (orders d) = Some o ->
       Order.buyer_id o = User.id user ->
       In (Order.status o) [SHIPPED; DELIVERED; CANCELLED] ->
       request (OrderService.cancel_order oid user) env d =
       (Raise (InvalidState (Order.status o)), d)).
Proof.
  intros oid user env d. unfold request. split; [|split].
  - intros E. rewrite cancel_order_NotFound; [reflexivity|exact E].
  - intros o E Hb. rewrite (cancel_order_Forbidden _ _ _ _ o); auto.
  - intros o E Hb Hst. rewrite (cancel_order_InvalidState _ _ _ _ o); auto.
    apply cannot_cancel_spec. exact Hst.
Qed.

(** What a cancellation commits fits the INTEGER column when the
    restored stocks do. *)
Lemma restock_fits_after d its named ps' :
  restock_fits d its ->
  stock_moved (fun pid => purchased pid its) named (products d) ps' ->
  Forall (fun p' => int32 (Product.stock p')) ps'.
Proof.
  unfold restock_fits, stock_moved. intros Hfits M.
  induction M as [|p p' ps ps' (_ & Hs & _) _ IH]; [constructor|].
  apply Forall_cons in Hfits as [Hp Hfits].
  constructor; [rewrite Hs; exact Hp | apply IH; exact Hfits].
Qed.

(** C4 (cancel_order by the owner of an existing order).  It fails with
    InvalidState exactly when the status is shipped, delivered or
    cancelled.  Otherwise it succeeds, on a database that satisfies its
    constraints, holds the product of every item, and whose stocks, once
    restored, are values of their INTEGER column, which is what it then
    commits.  When it succeeds,
    every product's stock has grown by the quantity of the order's items
    that reference it, the order's status is cancelled, and its
    updated_at is the reading of the clock taken after the stock loop. *)
Theorem cancel_order_by_owner :
  forall oid user env d o,
    find_by Order.id oid (orders d) = Some o ->
    Order.buyer_id o = User.id user ->
    ((exists st d', request (OrderService.cancel_order oid user) env d =
                    (Raise (InvalidState st), d')) <->
     In (Order.status o) [SHIPPED; DELIVERED; CANCELLED]) /\
    (~ In (Order.status o) [SHIPPED; DELIVERED; CANCELLED] ->
     integrity d = true ->
     (forall it, In it (items_of d oid) ->
        find_by Product.id (OrderItem.product_id it) (products d) <> None) ->
     restock_fits d (items_of d oid) ->
     exists o' d',
       request (OrderService.cancel_order oid user) env d = (Return o', d') /\
       Forall (fun p' => int32 (Product.stock p')) (products d')) /\
    (forall o' d',
       request (OrderService.cancel_order oid user) env d = (Return o', d') ->
       Forall2 (fun p p' => Product.id p' = Product.id p /\
                  Product.stock p' = Product.stock p + purchased (Product.id p) (items_of d oid))
               (products d) (products d') /\
       find_by Order.id oid (orders d') = Some o' /\
       Order.status o' = CANCELLED /\
       Order.updated_at o' = utcnow_at env (length (items_of d oid))).
Proof.
  intros oid user env d o E Hb. split; [|split].
  - split.
    + intros (st & d' & H). apply request_Raise in H as (s' & H & _).
      apply cannot_cancel_spec.
      destruct (OrderService.cannot_cancel (Order.status o)) eqn:Hc; [reflexivity|].
      exfalso.
      apply (cancel_order_allowed_raises_internal _ _ _ _ o) in H; auto.
    + intros Hst. exists (Order.status o), d. unfold request.
      rewrite (cancel_order_InvalidState _ _ _ _ o); auto.
      apply cannot_cancel_spec. exact Hst.
  - intros Hst Hint Hex Hfits.
    destruct (cancel_order_ok oid user env (begin d) o) as (o' & s' & H); auto.
    + destruct (OrderService.cannot_cancel (Order.status o)) eqn:Hc; [|reflexivity].
      exfalso. apply Hst, cannot_cancel_spec. exact Hc.
    + exists o', (committed s'). unfold request. rewrite H. split; [reflexivity|].
      apply cancel_order_run in H
        as (_ & _ & _ & _ & _ & _ & Hc & _ & _ & _ & _ & _ & M).
      rewrite Hc. exact (restock_fits_after d _ _ _ Hfits M).
  - intros o' d' H. apply request_Return in H as (s' & H & <-).
    apply cancel_order_run in H
      as (o0 & E0 & _ & _ & Ho' & _ & Hc & _ & _ & _ & _ & HO & M).
    simpl in *. rewrite Hc. assert (o0 = o) by congruence. subst o0.
    split; [|split; [|split]].
    + eapply Forall2_impl; [exact M|]. intros p p' (F & S & _).
      split; [apply F | exact S].
    + rewrite HO, Ho'.
      apply find_by_alter_order; [reflexivity|].
      apply find_by_alter_order; [reflexivity | exact E].
    + rewrite Ho'. reflexivity.
    + rewrite Ho'. simpl. rewrite Nat.add_0_r. reflexivity.
Qed.

(** C10 (frame of a successful cancel_order).  The order keeps every
    field but status and updated_at, and every other order row is
    untouched; every product row keeps every field but stock and
    updated_at, and a product that no item of the order references is
    untouched; the order_items table (so every item's quantity and
    price_at_purchase), the cart and the users are untouched. *)
Theorem cancel_order_frame :
  forall oid user env d o' d',
    request (OrderService.cancel_order oid user) env d = (Return o', d') ->
    exists o,
      find_by Order.id oid (orders d) = Some o /\
      same_but_status o o' /\
      Forall2 (fun x x' => if Order.id x =? oid then same_but_status x x' else x' = x)
              (orders d) (orders d') /\
      Forall2 (fun p p' =>
                 same_but_stock p p' /\
                 (~ In (Product.id p) (List.map OrderItem.product_id (items_of d oid)) ->
                  p' = p))
              (products d) (products d') /\
      order_items d' = order_items d /\
      cart_items d' = cart_items d /\
      users d' = users d /\
      categories d' = categories d.
Proof.
  intros oid user env d o' d' H. apply request_Return in H as (s' & H & <-).
  apply cancel_order_run in H
    as (o & E & _ & _ & Ho' & _ & Hc & HU & HG & HK & HI & HO & M).
  simpl in *. rewrite Hc. exists o.
  split; [exact E|]. split; [rewrite Ho'; repeat split|]. split; [|split].
  - rewrite HO. unfold alter_by. rewrite List.map_map.
    apply Forall2_map_same. intros x.
    destruct (Z.eqb_spec (Order.id x) oid) as [Ex|Ex]; simpl.
    + rewrite Ex, Z.eqb_refl. repeat split.
    + destruct (Z.eqb_spec (Order.id x) oid); [contradiction|reflexivity].
  - eapply Forall2_impl; [exact M|]. intros p p' (F & _ & U). auto.
  - auto.
Qed.

Lemma set_orders_twice a b d : set_orders a (set_orders b d) = set_orders a d.
Proof. reflexivity. Qed.

Lemma update_status_NotFound oid upd user env s :
  find_by Order.id oid (orders (working s)) = None ->
  OrderService.update_status oid upd user env s =
  (Raise (NotFound "Order not found"), s).
Proof.
  intros E. unfold OrderService.update_status.
  rewrite (bind_run _ _ _ _ _ _ (get_by_id_run oid env s)), E. reflexivity.
Qed.

Lemma update_status_ok oid upd user env s o :
  find_by Order.id oid (orders (working s)) = Some o ->
  integrity (working s) = true ->
  let o' := Order.set_updated_at (utcnow_at env (n_utcnow s))
              (Order.set_status (OrderStatusUpdate.status upd) o) in
  let w := set_orders
             (alter_by Order.id (Order.set_updated_at (utcnow_at env (n_utcnow s))) oid
                (alter_by Order.id (Order.set_status (OrderStatusUpdate.status upd)) oid
                   (orders (working s))))
             (working s) in
  OrderService.update_status oid upd user env s =
  (Return (o', items_of (working s) oid),
   mk_Session w w (S (n_utcnow s)) (n_uuid4 s) (n_token_bytes s)) /\
  find_by Order.id oid (orders w) = Some o'.
Proof.
  intros E Hint o' w.
  assert (Hfind : find_by Order.id oid (orders w) = Some o').
  { apply find_by_alter_order; [reflexivity|].
    apply find_by_alter_order; [reflexivity | exact E]. }
  split; [|exact Hfind].
  unfold OrderService.update_status.
  rewrite (bind_run _ _ _ _ _ _ (get_by_id_run oid env s)), E.
  pose proof (find_by_key _ _ _ _ E) as Hid. rewrite Hid.
  unfold bind at 1 2 3. unfold modify_db, utcnow. simpl.
  erewrite bind_run; [|apply commit_ok]; simpl.
  - unfold bind, get_db. simpl. rewrite !set_orders_twice. fold w.
    simpl in Hfind. rewrite Hfind.
    unfold ret, items_of. simpl. rewrite Hid. reflexivity.
  - rewrite <- Hint. apply integrity_ext; simpl.
    + rewrite !(map_alter_by Order.id Order.id); reflexivity.
    + rewrite !(map_alter_by Order.id Order.order_number); reflexivity.
    + reflexivity.
Qed.

(** C5 (update_status validates no transition).  On a database that
    satisfies its constraints: for an absent order the request fails with
    NotFound and writes nothing; for an existing order, whatever its
    current status and whatever the target status, it succeeds, the order
    returned and stored has the target status and differs from the old
    row in status and updated_at only; hence NotFound, for an absent
    order, is the only failure. *)
Theorem update_status_accepts_any_transition :
  forall oid status_update user env d,
    integrity d = true ->
    (find_by Order.id oid (orders d) = None ->
     request (OrderService.update_status oid status_update user) env d =
     (Raise (NotFound "Order not found"), d)) /\
    (forall o,
       find_by Order.id oid (orders d) = Some o ->
       exists o' d',
         request (OrderService.update_status oid status_update user) env d =
         (Return (o', items_of d oid), d') /\
         Order.status o' = OrderStatusUpdate.status status_update /\
         same_but_status o o' /\
         find_by Order.id oid (orders d') = Some o') /\
    (forall e d',
       request (OrderService.update_status oid status_update user) env d = (Raise e, d') ->
       e = NotFound "Order not found" /\ find_by Order.id oid (orders d) = None /\ d' = d).
Proof.
  intros oid upd user env d Hint. split; [|split].
  - intros E. unfold request. rewrite update_status_NotFound; [reflexivity|exact E].
  - intros o E.
    destruct (update_status_ok oid upd user env (begin d) o E Hint) as [H Hfind].
    eexists _, _. unfold request. rewrite H. simpl.
    split; [reflexivity|]. split; [reflexivity|]. split; [repeat split|exact Hfind].
  - intros e d' H. destruct (find_by Order.id oid (orders d)) as [o|] eqn:E.
    + destruct (update_status_ok oid upd user env (begin d) o E Hint) as [H' _].
      unfold request in H. rewrite H' in H. discriminate.
    + unfold request in H. rewrite update_status_NotFound in H; [|exact E].
      injection H as <- <-. auto.
Qed.

(** C6, as the code has it.  Of the two states only cancelled is closed,
    and only to cancel_order: on an order whose status is cancelled,
    cancel_order writes nothing and fails, with InvalidState for the
    order's owner and with Forbidden for anyone else.  A refunded order
    is not in cancel_order's guard: its owner cancels it (status
    cancelled) whenever the database satisfies its constraints, holds
    the items' products, and its stocks, once restored, are values of
    their INTEGER column, which is what it then commits.  And update_status moves an order out of
    cancelled or refunded to any status. *)
Theorem cancelled_closed_to_cancel_order_only :
  forall oid env d o,
    find_by Order.id oid (orders d) = Some o ->
    (Order.status o = CANCELLED ->
     forall user,
       (Order.buyer_id o = User.id user ->
        request (OrderService.cancel_order oid user) env d =
        (Raise (InvalidState CANCELLED), d)) /\
       (Order.buyer_id o <> User.id user ->
        request (OrderService.cancel_order oid user) env d =
        (Raise (Forbidden "Not your order"), d))) /\
    (Order.status o = REFUNDED ->
     forall user,
       Order.buyer_id o = User.id user ->
       integrity d = true ->
       (forall it, In it (items_of d oid) ->
          find_by Product.id (OrderItem.product_id it) (products d) <> None) ->
       restock_fits d (items_of d oid) ->
       exists o' d',
         request (OrderService.cancel_order oid user) env d = (Return o', d') /\
         Order.status o' = CANCELLED /\
         find_by Order.id oid (orders d') = Some o' /\
         Forall (fun p' => int32 (Product.stock p')) (products d')) /\
    (Order.status o = CANCELLED \/ Order.status o = REFUNDED ->
     forall status_update user,
       integrity d = true ->
       exists o' d',
         request (OrderService.update_status oid status_update user) env d =
         (Return (o', items_of d oid), d') /\
         Order.status o' = OrderStatusUpdate.status status_update /\
         find_by Order.id oid (orders d') = Some o').
Proof.
  intros oid env d o E. split; [|split].
  - intros Hst user. split.
    + intros Hb. unfold request.
      rewrite (cancel_order_InvalidState _ _ _ _ o); auto.
      * rewrite Hst. reflexivity.
      * rewrite Hst. reflexivity.
    + intros Hb. unfold request.
      rewrite (cancel_order_Forbidden _ _ _ _ o); auto.
  - intros Hst user Hb Hint Hex Hfits.
    destruct (cancel_order_ok oid user env (begin d) o) as (o' & s' & H); auto.
    { rewrite Hst. reflexivity. }
    exists o', (committed s'). unfold request. rewrite H. split; [reflexivity|].
    apply cancel_order_run in H
      as (o0 & E0 & _ & _ & Ho' & _ & Hc & _ & _ & _ & _ & HO & M).
    pose proof (restock_fits_after d _ _ _ Hfits M) as Hafter.
    simpl in *. assert (o0 = o) by congruence. subst o0.
    split; [rewrite Ho'; reflexivity|]. rewrite Hc. split; [|exact Hafter].
    rewrite HO, Ho'.
    apply find_by_alter_order; [reflexivity|].
    apply find_by_alter_order; [reflexivity | exact E].
  - intros _ upd user Hint.
    destruct (update_status_ok oid upd user env (begin d) o E Hint) as [H Hfind].
    eexists _, _. unfold request. rewrite H. simpl.
    split; [reflexivity|]. split; [reflexivity|exact Hfind].
Qed.

(** ** Checkout, run forward *)

Lemma integrity_collision d o :
  In (Order.order_number o) (List.map Order.order_number (orders d)) ->
  integrity (set_orders (orders d ++ [o]) d) = false.
Proof.
  intros Hin. destruct (integrity (set_orders (orders d ++ [o]) d)) eqn:E; [|reflexivity].
  exfalso. eapply integrity_fresh_number; eauto.
Qed.

Lemma acceptable_all_accepts d cart :
  Forall (acceptable d) cart -> exists ds, Forall2 (accepts d) cart ds.
Proof.
  induction 1 as [|c cart Hc _ (ds & IH)].
  - exists []. constructor.
  - apply acceptable_accepts in Hc as (x & Hx). exists (x :: ds). constructor; auto.
Qed.

(** Checkout up to its flush: with a known buyer and a cart that passes
    validation, what remains to run is the flush and what follows it, in
    the session that holds the new order. *)
Lemma checkout_to_flush checkout_data user env s u ds :
  find_by User.id (User.id user) (users (working s)) = Some u ->
  cart_items_of (working s) (User.id user) <> [] ->
  Forall2 (accepts (working s)) (cart_items_of (working s) (User.id user)) ds ->
  let order :=
    new_order env s checkout_data (User.id user) (total_of_data 0%float ds) in
  OrderService.checkout checkout_data user env s =
  (flush ;;
   for_each ds (OrderService.create_item (Order.id order)) ;;
   for_each (cart_items_of (working s) (User.id user)) OrderService.delete_cart_item ;;
   commit ;;
   let! d := get_db in
   match find_by Order.id (Order.id order) (orders d) with
   | None => raise NoResultFound
   | Some order => ret (order, items_of d (Order.id order))
   end)
    env
    (mk_Session (committed s) (set_orders (orders (working s) ++ [order]) (working s))
       (S (S (S (n_utcnow s)))) (S (n_uuid4 s)) (S (n_token_bytes s))).
Proof.
  intros Eu Hne Hacc order. unfold OrderService.checkout.
  unfold bind at 1. unfold get_db at 1. rewrite Eu.
  rewrite (find_by_key _ _ _ _ Eu).
  destruct (cart_items_of (working s) (User.id user)) as [|c cart] eqn:Ecart;
    [contradiction|].
  erewrite bind_run; [|apply check_cart_accepts; exact Hacc].
  reflexivity.
Qed.

Lemma integrity_true d :
  integrity d = true <->
  NoDup (List.map Order.id (orders d)) /\
  NoDup (List.map Order.order_number (orders d)) /\
  NoDup (List.map OrderItem.id (order_items d)).
Proof.
  unfold integrity. rewrite !andb_true_iff, !bool_decide_eq_true. tauto.
Qed.

Lemma NoDup_snoc {A} (l : list A) (a : A) : NoDup l -> ~ In a l -> NoDup (l ++ [a]).
Proof.
  intros Hl Ha. apply NoDup_app. split; [exact Hl|]. split.
  - intros x Hx Hx'. apply list_elem_of_In in Hx, Hx'.
    destruct Hx' as [<-|[]]. contradiction.
  - apply NoDup_singleton.
Qed.

Lemma flush_ok env s : integrity (working s) = true -> flush env s = (Return tt, s).
Proof. intros Hi. unfold flush, bind, get_db, ret. rewrite Hi. reflexivity. Qed.

Lemma created_items_ids env oid ds : forall k,
  List.map OrderItem.id (created_items env oid k ds) =
  List.map (uuid4_at env) (seq k (length ds)).
Proof.
  induction ds as [|x ds IH]; intros k; simpl; [reflexivity|].
  rewrite IH. reflexivity.
Qed.

Lemma create_items_ok oid ds : forall env sa,
  (forall x, In x ds ->
     find_by Product.id (product_id x) (products (working sa)) <> None) ->
  exists sb, for_each ds (OrderService.create_item oid) env sa = (Return tt, sb).
Proof.
  induction ds as [|x ds IH]; intros env sa Hex; simpl.
  - eexists. reflexivity.
  - assert (H1 : exists s1, OrderService.create_item oid x env sa = (Return tt, s1)).
    { unfold OrderService.create_item, bind, get_db, uuid4, modify_db, utcnow, raise; simpl.
      destruct (find_by Product.id (product_id x) (products (working sa))) eqn:E;
        [eexists; reflexivity|].
      exfalso. apply (Hex x); [left; reflexivity | exact E]. }
    destruct H1 as (s1 & H1). rewrite (bind_run _ _ _ _ _ _ H1).
    apply IH. intros x' Hin.
    apply create_item_run in H1 as (_ & _ & _ & _ & _ & _ & M).
    eapply stock_moved_find; [exact M|]. apply Hex. right. exact Hin.
Qed.

Lemma accepts_products_exist d cart ds :
  Forall2 (accepts d) cart ds ->
  forall x, In x ds -> find_by Product.id (product_id x) (products d) <> None.
Proof.
  induction 1 as [|c x cart ds (p & Ep & _ & _ & ->) _ IH]; intros x' Hin;
    [destruct Hin|].
  destruct Hin as [<-|Hin]; [|auto]. simpl. rewrite Ep. discriminate.
Qed.

(** A checkout whose cart passes validation succeeds as soon as the ids
    and the order number the environment hands out are not taken. *)
Lemma checkout_ok checkout_data user env d u ds :
  find_by User.id (User.id user) (users d) = Some u ->
  cart_items_of d (User.id user) <> [] ->
  Forall2 (accepts d) (cart_items_of d (User.id user)) ds ->
  integrity d = true ->
  ~ In (uuid4_at env 0) (List.map Order.id (orders d)) ->
  ~ In (generated_order_number env (begin d)) (List.map Order.order_number (orders d)) ->
  NoDup (List.map OrderItem.id (order_items d) ++
         List.map (uuid4_at env) (seq 1 (length (cart_items_of d (User.id user))))) ->
  exists o its d',
    request (OrderService.checkout checkout_data user) env d = (Return (o, its), d').
Proof.
  intros Eu Hne Hacc Hint Hid Hnum Hitems.
  apply integrity_true in Hint as (N1 & N2 & N3).
  unfold request.
  rewrite (checkout_to_flush checkout_data user env (begin d) u ds Eu Hne Hacc).
  set (order := new_order env (begin d) checkout_data (User.id user)
                  (total_of_data 0%float ds)).
  simpl committed. simpl working. simpl n_utcnow. simpl n_uuid4. simpl n_token_bytes.
  erewrite bind_run; [|apply flush_ok].
  2:{ apply integrity_true. simpl. rewrite !List.map_app. simpl.
      split; [apply NoDup_snoc; assumption|]. split; [apply NoDup_snoc; assumption|].
      exact N3. }
  destruct (create_items_ok (Order.id order) ds env
              (mk_Session d (set_orders (orders d ++ [order]) d) 3 1 1))
    as (sb & Hcreate).
  { simpl. eapply accepts_products_exist. exact Hacc. }
  rewrite (bind_run _ _ _ _ _ _ Hcreate).
  apply create_items_run in Hcreate as (_ & (_ & _ & _ & O1) & _ & _ & _ & I1 & _).
  simpl in O1, I1.
  destruct (delete_cart_run (cart_items_of d (User.id user)) env sb)
    as (sc & Hdel & _ & _ & _ & _ & O2 & I2 & _).
  rewrite (bind_run _ _ _ _ _ _ Hdel).
  erewrite bind_run; [|apply commit_ok].
  2:{ apply integrity_true. rewrite O2, O1, I2, I1, !List.map_app. simpl.
      split; [apply NoDup_snoc; assumption|]. split; [apply NoDup_snoc; assumption|].
      rewrite created_items_ids, <- (Forall2_length _ _ _ Hacc). exact Hitems. }
  unfold bind, get_db. simpl. rewrite O2, O1, find_by_app.
  destruct (find_by Order.id (uuid4_at env 0) (orders d)) as [o|].
  - eexists _, _, _. reflexivity.
  - unfold find_by. simpl. rewrite Z.eqb_refl. eexists _, _, _. reflexivity.
Qed.

(** C7, as the code has it.  Checkout generates one order number and
    never a second: when a cart that passes validation meets a generated
    number that an existing order already carries, the flush of the new
    order raises IntegrityError, which ends the request (nothing is
    committed), whatever numbers the environment would have handed out
    next; one token has been drawn. *)
Theorem colliding_order_number_fails_checkout :
  forall checkout_data user env d u,
    find_by User.id (User.id user) (users d) = Some u ->
    cart_items_of d (User.id user) <> [] ->
    Forall (acceptable d) (cart_items_of d (User.id user)) ->
    In (generated_order_number env (begin d)) (List.map Order.order_number (orders d)) ->
    request (OrderService.checkout checkout_data user) env d = (Raise IntegrityError, d) /\
    n_token_bytes (snd (OrderService.checkout checkout_data user env (begin d))) = 1%nat.
Proof.
  intros data user env d u Eu Hne Hacc Hin.
  apply acceptable_all_accepts in Hacc as (ds & Hacc).
  unfold request.
  rewrite (checkout_to_flush data user env (begin d) u ds Eu Hne Hacc).
  unfold bind at 1. unfold flush, bind, get_db, ret, raise. simpl.
  rewrite integrity_collision; [|exact Hin]. split; reflexivity.
Qed.

(** ** Checkout's rejections *)

Lemma checkout_rejected checkout_data user env s e s' :
  OrderService.checkout checkout_data user env s = (Raise e, s') ->
  rejection e ->
  (e = EmptyCart /\ cart_items_of (working s) (User.id user) = []) \/
  (exists pre c post,
     cart_items_of (working s) (User.id user) = pre ++ c :: post /\
     Forall (acceptable (working s)) pre /\ rejects (working s) c e).
Proof.
  intros H Hrej.
  pose proof (checkout_rejection_mutates_nothing _ _ _ _ _ _ H Hrej) as ->.
  unfold OrderService.checkout in H.
  apply bind_Raise in H as [H | (d & s1 & Hd & H)]; [discriminate|].
  unfold get_db in Hd. injection Hd as <- <-.
  destruct (find_by User.id (User.id user) (users (working s))) as [u|] eqn:Eu;
    [|unfold raise in H; injection H as <-; destruct Hrej].
  rewrite (find_by_key _ _ _ _ Eu) in H.
  destruct (cart_items_of (working s) (User.id user)) as [|c cart] eqn:Ecart.
  - left. unfold raise in H. injection H as <-. auto.
  - right. apply bind_Raise in H as [H | ([total ds] & s1 & Hcheck & H)].
    + apply check_cart_Raise in H as (_ & pre & c' & post & Hsplit & Hpre & Hr).
      exists pre, c', post. auto.
    + exfalso. apply check_cart_read_only in Hcheck. subst s1.
      assert (Hint : internal e); [|destruct e; simpl in *; tauto].
      refine ((_ : raises_only internal _) env s e s H).
      apply raises_only_bind; [intros ? ? ? ? ?; discriminate|intros order_number].
      apply raises_only_bind; [intros ? ? ? ? ?; discriminate|intros id].
      apply raises_only_bind; [intros ? ? ? ? ?; discriminate|intros created].
      apply raises_only_bind; [intros ? ? ? ? ?; discriminate|intros updated].
      apply raises_only_bind; [intros ? ? ? ? ?; discriminate|intros _].
      apply raises_only_bind; [apply flush_raises_internal|intros _].
      apply raises_only_bind;
        [apply raises_only_for_each, create_item_raises_internal|intros _].
      apply raises_only_bind;
        [apply raises_only_for_each, delete_cart_item_raises_internal|intros _].
      apply raises_only_bind; [apply commit_raises_internal|intros _].
      apply raises_only_bind; [intros ? ? ? ? ?; discriminate|intros d].
      intros env1 s1 e1 s1'. case_match; unfold ret, raise; intros; simplify_eq. exact I.
Qed.

Lemma checkout_EmptyCart checkout_data user env s u :
  find_by User.id (User.id user) (users (working s)) = Some u ->
  cart_items_of (working s) (User.id user) = [] ->
  OrderService.checkout checkout_data user env s = (Raise EmptyCart, s).
Proof.
  intros Eu Ecart. unfold OrderService.checkout.
  unfold bind at 1. unfold get_db at 1. rewrite Eu, (find_by_key _ _ _ _ Eu), Ecart.
  reflexivity.
Qed.

Lemma checkout_rejects checkout_data user env s u pre c post e :
  find_by User.id (User.id user) (users (working s)) = Some u ->
  cart_items_of (working s) (User.id user) = pre ++ c :: post ->
  Forall (acceptable (working s)) pre ->
  rejects (working s) c e ->
  OrderService.checkout checkout_data user env s = (Raise e, s).
Proof.
  intros Eu Ecart Hpre Hr. unfold OrderService.checkout.
  unfold bind at 1. unfold get_db at 1. rewrite Eu, (find_by_key _ _ _ _ Eu), Ecart.
  destruct (pre ++ c :: post) as [|c0 l] eqn:E; [destruct pre; discriminate|].
  rewrite <- E. unfold bind. rewrite (check_cart_rejects _ _ _ _ _ _ _ Hpre Hr).
  reflexivity.
Qed.

Lemma stock_moved_stock_of delta named d d' pid :
  stock_moved delta named (products d) (products d') ->
  stock_of d' pid = (fun z => z + delta pid) <$> stock_of d pid.
Proof.
  intros H. unfold stock_of.
  pose proof (find_by_Forall2 Product.id _ pid _ _
                (fun x y Hxy => proj1 (proj1 Hxy)) H) as Hf.
  destruct (find_by Product.id pid (products d)) as [p|] eqn:E;
    inversion Hf as [p0 p' (_ & Hs & _)|]; subst; simpl; [|reflexivity].
  rewrite Hs, (find_by_key _ _ _ _ E). reflexivity.
Qed.

(** With one cart line per product (the constraint
    unique_user_product_cart), the quantity for a line's product is the
    line's. *)
Lemma quantity_for_unique cart c :
  NoDup (List.map CartItem.product_id cart) ->
  In c cart ->
  quantity_for CartItem.product_id CartItem.quantity (CartItem.product_id c) cart =
  CartItem.quantity c.
Proof.
  induction cart as [|c0 cart IH]; simpl; intros Hnd Hin; [destruct Hin|].
  apply NoDup_cons in Hnd as [Hc0 Hnd].
  destruct Hin as [->|Hin].
  - rewrite Z.eqb_refl, quantity_for_absent; [lia|].
    intros H. apply Hc0, list_elem_of_In. exact H.
  - destruct (Z.eqb_spec (CartItem.product_id c0) (CartItem.product_id c)) as [E|_].
    + exfalso. apply Hc0. rewrite E. apply list_elem_of_In, List.in_map. exact Hin.
    + rewrite IH; auto.
Qed.

(** C8 (what checkout rejects, and in which order).  For a known buyer:
    EmptyCart exactly when the buyer has no cart item; ProductUnavailable
    exactly when the first cart item (in cart order) that fails a check
    has an inactive product; InsufficientStock exactly when the first
    item that fails has an active product whose stock is strictly below
    the quantity.  A cart whose items all have an active product and a
    quantity at most the stock (equal to it included) is accepted: once
    the generated ids and number are free the checkout succeeds, and a
    product with one cart line ends with its stock less the quantity,
    so with stock 0 when the quantity was the whole stock. *)
Theorem checkout_rejections_in_cart_order :
  forall checkout_data user env d u,
    find_by User.id (User.id user) (users d) = Some u ->
    let cart := cart_items_of d (User.id user) in
    let result := fst (request (OrderService.checkout checkout_data user) env d) in
    (result = Raise EmptyCart <-> cart = []) /\
    ((exists name, result = Raise (ProductUnavailable name)) <->
     (exists pre c post p,
        cart = pre ++ c :: post /\ Forall (acceptable d) pre /\
        find_by Product.id (CartItem.product_id c) (products d) = Some p /\
        Product.is_active p = false)) /\
    ((exists name stock, result = Raise (InsufficientStock name stock)) <->
     (exists pre c post p,
        cart = pre ++ c :: post /\ Forall (acceptable d) pre /\
        find_by Product.id (CartItem.product_id c) (products d) = Some p /\
        Product.is_active p = true /\
        Product.stock p < CartItem.quantity c)) /\
    (cart <> [] ->
     (forall c, In c cart ->
        exists p, find_by Product.id (CartItem.product_id c) (products d) = Some p /\
                  Product.is_active p = true /\
                  CartItem.quantity c <= Product.stock p) ->
     integrity d = true ->
     ~ In (uuid4_at env 0) (List.map Order.id (orders d)) ->
     ~ In (generated_order_number env (begin d)) (List.map Order.order_number (orders d)) ->
     NoDup (List.map OrderItem.id (order_items d) ++
            List.map (uuid4_at env) (seq 1 (length cart))) ->
     exists o its d',
       request (OrderService.checkout checkout_data user) env d = (Return (o, its), d') /\
       forall c p,
         In c cart ->
         NoDup (List.map CartItem.product_id cart) ->
         find_by Product.id (CartItem.product_id c) (products d) = Some p ->
         stock_of d' (CartItem.product_id c) =
           Some (Product.stock p - CartItem.quantity c) /\
         (CartItem.quantity c = Product.stock p ->
          stock_of d' (CartItem.product_id c) = Some 0)).
Proof.
  intros data user env d u Eu cart result.
  assert (Hrun : forall e, result = Raise e ->
            exists s', OrderService.checkout data user env (begin d) = (Raise e, s')).
  { intros e H. subst result. unfold request in H.
    destruct (OrderService.checkout data user env (begin d)) as [r s'].
    simpl in H. subst r. eauto. }
  assert (Hres : forall e,
            OrderService.checkout data user env (begin d) = (Raise e, begin d) ->
            result = Raise e).
  { intros e H. subst result. unfold request. rewrite H. reflexivity. }
  split; [|split; [|split]].
  - split.
    + intros H. apply Hrun in H as (s' & H).
      apply checkout_rejected in H as [[_ H] | (pre & c & post & _ & _ & Hr)];
        [exact H | | exact I].
      exfalso. unfold rejects in Hr. simpl in Hr.
      destruct (find_by Product.id (CartItem.product_id c) (products d));
        [destruct Hr as [[_ Hr]|(_ & _ & Hr)]|]; discriminate.
    + intros H. apply Hres. apply (checkout_EmptyCart _ _ _ _ u); assumption.
  - split.
    + intros (name & H). apply Hrun in H as (s' & H).
      apply checkout_rejected in H as [[H _] | (pre & c & post & Hs & Hpre & Hr)];
        [discriminate | | exact I].
      unfold rejects in Hr. simpl in Hr, Hs, Hpre.
      destruct (find_by Product.id (CartItem.product_id c) (products d)) as [p|] eqn:Ep;
        [|discriminate].
      destruct Hr as [[Ha _]|(_ & _ & Hr)]; [|discriminate].
      exists pre, c, post, p. auto.
    + intros (pre & c & post & p & Hs & Hpre & Ep & Ha).
      exists (Product.name p). apply Hres.
      apply (checkout_rejects _ _ _ _ u pre c post); auto.
      unfold rejects. simpl. rewrite Ep. left. auto.
  - split.
    + intros (name & k & H). apply Hrun in H as (s' & H).
      apply checkout_rejected in H as [[H _] | (pre & c & post & Hs & Hpre & Hr)];
        [discriminate | | exact I].
      unfold rejects in Hr. simpl in Hr, Hs, Hpre.
      destruct (find_by Product.id (CartItem.product_id c) (products d)) as [p|] eqn:Ep;
        [|discriminate].
      destruct Hr as [[_ Hr]|(Ha & Hlt & _)]; [discriminate|].
      exists pre, c, post, p. auto.
    + intros (pre & c & post & p & Hs & Hpre & Ep & Ha & Hlt).
      exists (Product.name p), (Product.stock p). apply Hres.
      apply (checkout_rejects _ _ _ _ u pre c post); auto.
      unfold rejects. simpl. rewrite Ep. right. auto.
  - intros Hne Hall Hint Hid Hnum Hitems.
    assert (Hacc : Forall (acceptable d) cart).
    { apply List.Forall_forall. intros c Hc. apply Hall. exact Hc. }
    apply acceptable_all_accepts in Hacc as (ds & Hacc).
    destruct (checkout_ok data user env d u ds Eu Hne Hacc Hint Hid Hnum Hitems)
      as (o & its & d' & H).
    exists o, its, d'. split; [exact H|].
    intros c p Hc Hnd Ep.
    apply request_Return in H as (s' & H & <-).
    apply checkout_run in H
      as (_ & ds' & _ & _ & Hacc' & _ & _ & Hcm & _ & _ & _ & _ & M & _).
    simpl in Hacc', M. rewrite Hcm.
    assert (Hstock : stock_of (working s') (CartItem.product_id c) =
                     Some (Product.stock p - CartItem.quantity c)).
    { rewrite (stock_moved_stock_of _ _ d (working s') _ M).
      unfold stock_of. rewrite Ep. simpl.
      rewrite (quantity_for_accepts d cart ds' _ Hacc').
      rewrite (quantity_for_unique cart c Hnd Hc). reflexivity. }
    split; [exact Hstock|]. intros Heq. rewrite Hstock, Heq. f_equal. lia.
Qed.

(** ** The constraints are invariants

    What a successful checkout or cancel_order commits satisfies the
    constraints again: the hypotheses of the theorems above hold of every
    database these requests produce from one that satisfies them. *)

Lemma created_items_order_id env oid ds : forall k it,
  In it (created_items env oid k ds) -> OrderItem.order_id it = oid.
Proof.
  induction ds as [|x ds IH]; intros k it Hin; simpl in Hin; [destruct Hin|].
  destruct Hin as [<-|Hin]; [reflexivity | eapply IH; exact Hin].
Qed.

Lemma checkout_keeps_constraints checkout_data user env d o its d' :
  order_items_reference_orders d ->
  request (OrderService.checkout checkout_data user) env d = (Return (o, its), d') ->
  order_items_reference_orders d' /\ integrity d' = true.
Proof.
  intros Hfk H.
  apply checkout_success in H
    as (ds & _ & _ & _ & Hits & _ & Hint & _ & HO & HI & _); [|exact Hfk].
  split; [|exact Hint].
  intros it Hin. rewrite HI in Hin. rewrite HO, List.map_app.
  apply List.in_app_iff in Hin as [Hin|Hin]; apply List.in_app_iff.
  - left. apply Hfk. exact Hin.
  - right. rewrite Hits in Hin. apply created_items_order_id in Hin.
    rewrite Hin. left. reflexivity.
Qed.

Lemma cancel_order_keeps_constraints oid user env d o' d' :
  order_items_reference_orders d ->
  request (OrderService.cancel_order oid user) env d = (Return o', d') ->
  order_items_reference_orders d' /\ integrity d' = true.
Proof.
  intros Hfk H. apply request_Return in H as (s' & H & <-).
  apply cancel_order_run in H
    as (o & _ & _ & _ & _ & Hint & Hc & _ & _ & _ & HI & HO & _).
  simpl in *. rewrite Hc. split; [|exact Hint].
  intros it Hin. rewrite HI in Hin. rewrite HO.
  rewrite !(map_alter_by Order.id Order.id); [|reflexivity|reflexivity].
  apply Hfk. exact Hin.
Qed.

(** * The scenarios, run *)

Import Scenario.

(** Spec scenario: two A and two B in the cart, B has stock 1. *)
Lemma checkout_rejection_mutates_nothing_witness :
  rejection (InsufficientStock "B" 1) /\
  snd (OrderService.checkout shipping alice env (begin (shop [line_A 2; line_B]))) =
  begin (shop [line_A 2; line_B]).
Proof.
  split; [exact I|].
  apply (checkout_rejection_mutates_nothing shipping alice env
           (begin (shop [line_A 2; line_B])) (InsufficientStock "B" 1));
    [vm_compute; reflexivity | exact I].
Defined.

Lemma no_order_items_reference_orders cart : order_items_reference_orders (shop cart).
Proof. intros it []. Qed.

Lemma checkout_of_two_A :
  request (OrderService.checkout shipping alice) env (shop [line_A 2]) =
  (Return (placed_order PENDING (noon 2), placed_items), shop_after_checkout).
Proof. vm_compute. reflexivity. Qed.

Lemma cancel_of_placed_order :
  request (OrderService.cancel_order 1000 alice) env shop_after_checkout =
  (Return (placed_order CANCELLED (noon 1)), shop_after_cancel).
Proof. vm_compute. reflexivity. Qed.

(** Spec scenario: two A in the cart; the total is 20, and stays 20 when
    the price of A goes from 10 to 99. *)
Lemma order_total_is_sum_of_price_snapshots_witness :
  Order.total_amount (placed_order PENDING (noon 2)) = sum_of_lines placed_items /\
  Product.price <$>
    find_by Product.id 10 (products (product_updates price_rise shop_after_checkout)) =
    Some 99%float /\
  fst (request (OrderService.get_by_id 1000) env
         (product_updates price_rise shop_after_checkout)) =
  Return (Some (placed_order PENDING (noon 2), placed_items)).
Proof.
  destruct (order_total_is_sum_of_price_snapshots shipping alice env (shop [line_A 2])
              (placed_order PENDING (noon 2)) placed_items shop_after_checkout
              (no_order_items_reference_orders _) checkout_of_two_A)
    as (Htotal & _ & Hlater).
  split; [exact Htotal|]. split; [vm_compute; reflexivity | apply Hlater].
Defined.

(** Spec scenarios: checkout takes A from 5 to 3, cancel brings it back. *)
Lemma checkout_then_cancel_restores_stock_witness :
  in_cart (shop [line_A 2]) (User.id alice) 10 = 2 /\
  purchased 10 placed_items = 2 /\
  stock_of (shop [line_A 2]) 10 = Some 5 /\
  stock_of shop_after_checkout 10 = Some (5 - 2) /\
  stock_of shop_after_cancel 10 = stock_of (shop [line_A 2]) 10.
Proof.
  destruct (checkout_then_cancel_restores_stock shipping alice env (shop [line_A 2])
              (placed_order PENDING (noon 2)) placed_items shop_after_checkout
              alice env (placed_order CANCELLED (noon 1)) shop_after_cancel
              (no_order_items_reference_orders _) checkout_of_two_A cancel_of_placed_order)
    as (Hcart & Hdown & _ & _ & _ & _ & Hback).
  split; [reflexivity|]. split; [rewrite Hcart; reflexivity|]. split; [reflexivity|].
  split; [|apply Hback].
  apply List.Forall2_cons_iff in Hdown as [[_ Hs] _].
  unfold stock_of. simpl. simpl in Hs. rewrite Hs. reflexivity.
Defined.

Lemma products_of_order_1000 :
  forall it, In it (items_of shop_after_checkout 1000) ->
    find_by Product.id (OrderItem.product_id it) (products shop_after_checkout) <> None.
Proof. intros it [<-|[]]. discriminate. Qed.

(** Spec scenario: a pending order is cancelled by its owner. *)
Lemma cancel_order_by_owner_witness :
  find_by Order.id 1000 (orders shop_after_checkout) = Some (placed_order PENDING (noon 2)) /\
  Order.buyer_id (placed_order PENDING (noon 2)) = User.id alice /\
  restock_fits shop_after_checkout (items_of shop_after_checkout 1000) /\
  (exists o' d',
     request (OrderService.cancel_order 1000 alice) env shop_after_checkout =
     (Return o', d') /\
     Forall (fun p' => int32 (Product.stock p')) (products d')) /\
  Order.status (placed_order CANCELLED (noon 1)) = CANCELLED /\
  Order.updated_at (placed_order CANCELLED (noon 1)) =
    utcnow_at env (length (items_of shop_after_checkout 1000)).
Proof.
  split; [reflexivity|]. split; [reflexivity|].
  assert (Hfits : restock_fits shop_after_checkout (items_of shop_after_checkout 1000)).
  { repeat constructor; vm_compute; discriminate. }
  split; [exact Hfits|].
  destruct (cancel_order_by_owner 1000 alice env shop_after_checkout
              (placed_order PENDING (noon 2)) eq_refl eq_refl) as (_ & Hok & H).
  split.
  - apply Hok; [|reflexivity|exact products_of_order_1000|exact Hfits].
    simpl. intros [E|[E|[E|[]]]]; discriminate.
  - destruct (H _ _ cancel_of_placed_order) as (_ & _ & Hst & Hup).
    split; [exact Hst | exact Hup].
Defined.

(** A delivered order is put back to pending. *)
Lemma update_status_accepts_any_transition_witness :
  integrity (shop_with_order DELIVERED []) = true /\
  exists o' d',
    request (OrderService.update_status 100 (OrderStatusUpdate.mk PENDING) admin) env
      (shop_with_order DELIVERED []) =
    (Return (o', items_of (shop_with_order DELIVERED []) 100), d') /\
    Order.status o' = PENDING.
Proof.
  assert (Hint : integrity (shop_with_order DELIVERED []) = true) by reflexivity.
  split; [exact Hint|].
  destruct (update_status_accepts_any_transition 100 (OrderStatusUpdate.mk PENDING) admin
              env (shop_with_order DELIVERED []) Hint) as (_ & H & _).
  destruct (H (order_100 DELIVERED) eq_refl) as (o' & d' & Hreq & Hst & _).
  exists o', d'. split; [exact Hreq | exact Hst].
Defined.

(** update_status takes a cancelled order back to pending; cancel_order
    takes a refunded order to cancelled. *)
Lemma terminal_states_counterexample :
  Order.status <$> find_by Order.id 100 (orders (shop_with_order CANCELLED [])) =
    Some CANCELLED /\
  Order.status <$>
    find_by Order.id 100
      (orders (snd (request
                      (OrderService.update_status 100 (OrderStatusUpdate.mk PENDING) admin)
                      env (shop_with_order CANCELLED [])))) =
    Some PENDING /\
  Order.status <$> find_by Order.id 100 (orders (shop_with_order REFUNDED [])) =
    Some REFUNDED /\
  Order.status <$>
    find_by Order.id 100
      (orders (snd (request (OrderService.cancel_order 100 alice)
                      env (shop_with_order REFUNDED [])))) =
    Some CANCELLED.
Proof. repeat split; vm_compute; reflexivity. Qed.

Lemma products_of_order_100 st :
  forall it, In it (items_of (shop_with_order st []) 100) ->
    find_by Product.id (OrderItem.product_id it) (products (shop_with_order st [])) <> None.
Proof. intros it Hin. simpl in Hin. destruct Hin as [<-|[]]. discriminate. Qed.

Lemma cancelled_closed_to_cancel_order_only_witness :
  find_by Order.id 100 (orders (shop_with_order CANCELLED [])) =
    Some (order_100 CANCELLED) /\
  request (OrderService.cancel_order 100 alice) env (shop_with_order CANCELLED []) =
  (Raise (InvalidState CANCELLED), shop_with_order CANCELLED []) /\
  request (OrderService.cancel_order 100 bob) env (shop_with_order CANCELLED []) =
  (Raise (Forbidden "Not your order"), shop_with_order CANCELLED []) /\
  restock_fits (shop_with_order REFUNDED []) (items_of (shop_with_order REFUNDED []) 100) /\
  (exists o' d',
     request (OrderService.cancel_order 100 alice) env (shop_with_order REFUNDED []) =
     (Return o', d') /\
     Order.status o' = CANCELLED /\ find_by Order.id 100 (orders d') = Some o' /\
     Forall (fun p' => int32 (Product.stock p')) (products d')) /\
  (exists o' d',
     request (OrderService.update_status 100 (OrderStatusUpdate.mk PAID) admin) env
       (shop_with_order REFUNDED []) =
     (Return (o', items_of (shop_with_order REFUNDED []) 100), d') /\
     Order.status o' = PAID /\ find_by Order.id 100 (orders d') = Some o').
Proof.
  split; [reflexivity|].
  destruct (cancelled_closed_to_cancel_order_only 100 env (shop_with_order CANCELLED [])
              (order_100 CANCELLED) eq_refl) as (Hc & _).
  destruct (cancelled_closed_to_cancel_order_only 100 env (shop_with_order REFUNDED [])
              (order_100 REFUNDED) eq_refl) as (_ & Hr & Hu).
  assert (Hfits : restock_fits (shop_with_order REFUNDED [])
                    (items_of (shop_with_order REFUNDED []) 100)).
  { repeat constructor; vm_compute; discriminate. }
  split; [exact (proj1 (Hc eq_refl alice) eq_refl)|].
  split; [apply (proj2 (Hc eq_refl bob)); discriminate|].
  split; [exact Hfits|]. split.
  - exact (Hr eq_refl alice eq_refl eq_refl (products_of_order_100 REFUNDED) Hfits).
  - exact (Hu (or_intror eq_refl) (OrderStatusUpdate.mk PAID) admin eq_refl).
Defined.

(** alice already has an order numbered ORD-20240101-DEADBEEF; her next
    checkout draws the same number, although the number after it,
    ORD-20240101-00000001, is free. *)
Lemma order_number_collision_counterexample :
  request (OrderService.checkout shipping alice) env (shop_with_order PENDING [line_A 2]) =
  (Raise IntegrityError, shop_with_order PENDING [line_A 2]) /\
  upper (hexlify (token_bytes_at env 1 4)) = "00000001" /\
  ~ In ("ORD-20240101-00000001")
       (List.map Order.order_number (orders (shop_with_order PENDING [line_A 2]))).
Proof.
  split; [vm_compute; reflexivity|]. split; [vm_compute; reflexivity|].
  simpl. intros [H|[]]. discriminate.
Qed.

Lemma colliding_order_number_fails_checkout_witness :
  In (generated_order_number env (begin (shop_with_order PENDING [line_A 2])))
     (List.map Order.order_number (orders (shop_with_order PENDING [line_A 2]))) /\
  request (OrderService.checkout shipping alice) env (shop_with_order PENDING [line_A 2]) =
  (Raise IntegrityError, shop_with_order PENDING [line_A 2]).
Proof.
  assert (Hin : In (generated_order_number env (begin (shop_with_order PENDING [line_A 2])))
                   (List.map Order.order_number
                      (orders (shop_with_order PENDING [line_A 2]))))
    by (left; vm_compute; reflexivity).
  split; [exact Hin|].
  apply (colliding_order_number_fails_checkout shipping alice env
           (shop_with_order PENDING [line_A 2]) alice).
  - reflexivity.
  - discriminate.
  - constructor; [|constructor].
    exists (product_A 3 (noon 0)). split; [reflexivity|]. split; [reflexivity|].
    simpl. lia.
  - exact Hin.
Defined.

(** Spec scenario: an empty cart; and the whole stock of A in the cart,
    which is accepted and leaves A at 0. *)
Lemma checkout_rejections_in_cart_order_witness :
  find_by User.id (User.id alice) (users (shop [])) = Some alice /\
  fst (request (OrderService.checkout shipping alice) env (shop [])) = Raise EmptyCart /\
  exists o its d',
    request (OrderService.checkout shipping alice) env (shop [line_A 5]) =
    (Return (o, its), d') /\
    stock_of d' 10 = Some 0.
Proof.
  split; [reflexivity|].
  destruct (checkout_rejections_in_cart_order shipping alice env (shop []) alice eq_refl)
    as ((_ & Hempty) & _).
  split; [apply Hempty; reflexivity|].
  destruct (checkout_rejections_in_cart_order shipping alice env (shop [line_A 5]) alice
              eq_refl) as (_ & _ & _ & Hok).
  destruct Hok as (o & its & d' & Hreq & Hstock).
  - discriminate.
  - intros c [<-|[]]. exists (product_A 5 (noon 0)).
    split; [reflexivity|]. split; [reflexivity|]. simpl. lia.
  - reflexivity.
  - simpl. tauto.
  - simpl. tauto.
  - simpl. apply NoDup_singleton.
  - exists o, its, d'. split; [exact Hreq|].
    destruct (Hstock (line_A 5) (product_A 5 (noon 0))) as (_ & Hzero).
    + left. reflexivity.
    + simpl. apply NoDup_singleton.
    + reflexivity.
    + apply Hzero. reflexivity.
Defined.

(** The whole stock of A in the cart: accepted, and A ends at 0. *)
Example checkout_of_whole_stock :
  exists o its d',
    request (OrderService.checkout shipping alice) env (shop [line_A 5]) =
    (Return (o, its), d') /\
    stock_of d' 10 = Some 0.
Proof. eexists _, _, _. split; vm_compute; reflexivity. Qed.

(** One more than the stock of A in the cart: rejected. *)
Example checkout_of_more_than_stock :
  request (OrderService.checkout shipping alice) env (shop [line_A 6]) =
  (Raise (InsufficientStock "A" 5), shop [line_A 6]).
Proof. vm_compute. reflexivity. Qed.

(** bob calls cancel_order on the shipped order of alice. *)
Lemma cancel_order_failure_precedence_witness :
  Order.buyer_id (order_100 SHIPPED) <> User.id bob /\
  request (OrderService.cancel_order 100 bob) env (shop_with_order SHIPPED []) =
  (Raise (Forbidden "Not your order"), shop_with_order SHIPPED []).
Proof.
  assert (Hb : Order.buyer_id (order_100 SHIPPED) <> User.id bob) by discriminate.
  split; [exact Hb|].
  destruct (cancel_order_failure_precedence 100 bob env (shop_with_order SHIPPED []))
    as (_ & H & _).
  exact (H (order_100 SHIPPED) eq_refl Hb).
Defined.

(** Spec scenario: alice cannot cancel her shipped order; nothing moves. *)
Example cancel_of_shipped_order :
  request (OrderService.cancel_order 100 alice) env (shop_with_order SHIPPED []) =
  (Raise (InvalidState SHIPPED), shop_with_order SHIPPED []).
Proof. vm_compute. reflexivity. Qed.

Lemma cancel_order_frame_witness :
  order_items shop_after_cancel = order_items shop_after_checkout /\
  same_but_status (placed_order PENDING (noon 2)) (placed_order CANCELLED (noon 1)).
Proof.
  destruct (cancel_order_frame 1000 alice env shop_after_checkout
              (placed_order CANCELLED (noon 1)) shop_after_cancel cancel_of_placed_order)
    as (o & Ho & Hsame & _ & _ & HI & _).
  split; [exact HI|].
  assert (o = placed_order PENDING (noon 2)) as <-; [|exact Hsame].
  vm_compute in Ho. injection Ho as <-. reflexivity.
Defined.

(** * More of the workflow *)

(** ** Failures commit nothing *)

Lemma flush_Raise env s e s' : flush env s = (Raise e, s') -> s' = s.
Proof.
  unfold flush, bind, get_db, ret, raise.
  destruct (integrity (working s)); intros H; [discriminate|].
  injection H as _ <-. reflexivity.
Qed.

Lemma commit_Raise env s e s' : commit env s = (Raise e, s') -> s' = s.
Proof.
  unfold commit. intros H. apply bind_Raise in H as [H | ([] & s1 & _ & H)].
  - eapply flush_Raise; eauto.
  - discriminate.
Qed.

Lemma preserves_for_each P {A} (body : A -> M unit) l :
  (forall x, preserves P (body x)) -> preserves P (for_each l body).
Proof.
  intros Hb. induction l as [|x l IH]; simpl.
  - intros env s r s' H HP. injection H as <- <-. exact HP.
  - apply preserves_bind; auto.
Qed.

Lemma create_item_keeps_committed c oid x :
  preserves (fun s => committed s = c) (OrderService.create_item oid x).
Proof.
  intros env s r s'. unfold OrderService.create_item.
  unfold bind, get_db, uuid4, modify_db, utcnow, raise; simpl.
  destruct (find_by Product.id (product_id x) (products (working s)));
    intros H Hc; injection H as <- <-; exact Hc.
Qed.

Lemma restore_stock_keeps_committed c item :
  preserves (fun s => committed s = c) (OrderService.restore_stock item).
Proof.
  intros env s r s'. unfold OrderService.restore_stock.
  unfold bind, get_db, modify_db, utcnow, raise; simpl.
  destruct (find_by Product.id (OrderItem.product_id item) (products (working s)));
    intros H Hc; injection H as <- <-; exact Hc.
Qed.

Lemma checkout_NoResultFound checkout_data user env s :
  find_by User.id (User.id user) (users (working s)) = None ->
  OrderService.checkout checkout_data user env s = (Raise NoResultFound, s).
Proof.
  intros Eu. unfold OrderService.checkout.
  unfold bind at 1. unfold get_db at 1. rewrite Eu. reflexivity.
Qed.

Lemma checkout_check_Raise checkout_data user env s u e s1 :
  find_by User.id (User.id user) (users (working s)) = Some u ->
  OrderService.check_cart (cart_items_of (working s) (User.id user)) (0%float, []) env s =
    (Raise e, s1) ->
  OrderService.checkout checkout_data user env s = (Raise e, s).
Proof.
  intros Eu Hc. pose proof (check_cart_read_only _ _ _ _ _ _ Hc) as ->.
  unfold OrderService.checkout.
  unfold bind at 1. unfold get_db at 1. rewrite Eu, (find_by_key _ _ _ _ Eu).
  destruct (cart_items_of (working s) (User.id user)) as [|c cart] eqn:Ecart;
    [discriminate|].
  unfold bind at 1. rewrite Hc. reflexivity.
Qed.

(** Session level: whatever checkout raises, and wherever, the committed
    database is the one the session started from. *)
Lemma checkout_Raise_committed checkout_data user env s e s' :
  OrderService.checkout checkout_data user env s = (Raise e, s') ->
  committed s' = committed s.
Proof.
  intros H.
  destruct (find_by User.id (User.id user) (users (working s))) as [u|] eqn:Eu.
  2:{ rewrite checkout_NoResultFound in H; [|exact Eu]. injection H as _ <-. reflexivity. }
  destruct (cart_items_of (working s) (User.id user)) as [|c0 cart0] eqn:Ecart.
  { rewrite (checkout_EmptyCart _ _ _ _ u Eu Ecart) in H. injection H as _ <-.
    reflexivity. }
  destruct (OrderService.check_cart (cart_items_of (working s) (User.id user))
              (0%float, []) env s) as [[[total ds]|e0] s1] eqn:Ec.
  2:{ rewrite (checkout_check_Raise _ _ _ _ u e0 s1 Eu Ec) in H. injection H as _ <-.
      reflexivity. }
  apply check_cart_Return in Ec as (-> & new & Hacc & Hds & Htot).
  simpl in Hds. subst ds.
  rewrite (checkout_to_flush checkout_data user env s u new Eu) in H;
    [|rewrite Ecart; discriminate|exact Hacc].
  set (order := new_order env s checkout_data (User.id user) (total_of_data 0%float new))
    in H.
  apply bind_Raise in H as [H | ([] & s2 & Hf & H)].
  { apply flush_Raise in H. subst s'. reflexivity. }
  apply flush_run in Hf as (_ & ->).
  apply bind_Raise in H as [H | ([] & s3 & Hcreate & H)].
  { eapply (preserves_for_each (fun s0 => committed s0 = committed s)) in H;
      [apply H; reflexivity | intros x; apply create_item_keeps_committed]. }
  apply create_items_run in Hcreate as (C3 & (_ & _ & _ & O3) & _).
  simpl in C3, O3.
  destruct (delete_cart_run (cart_items_of (working s) (User.id user)) env s3)
    as (s4 & Hdel & C4 & _ & _ & _ & O4 & _).
  apply bind_Raise in H as [H | ([] & s4' & Hdel' & H)];
    [rewrite Hdel in H; discriminate|].
  rewrite Hdel in Hdel'. injection Hdel' as <-.
  apply bind_Raise in H as [H | ([] & s5 & Hcommit & H)].
  { apply commit_Raise in H. subst s'. congruence. }
  exfalso. apply commit_run in Hcommit as (_ & ->).
  unfold bind, get_db in H. simpl in H. rewrite O4, O3, find_by_app in H.
  destruct (find_by Order.id (uuid4_at env (n_uuid4 s)) (orders (working s)));
    [unfold ret in H; discriminate|].
  unfold find_by in H. simpl in H. rewrite Z.eqb_refl in H.
  unfold ret in H. discriminate.
Qed.

(** X1.  A checkout that fails, with whatever exception (a rejected cart,
    a taken order number or id, a cart line whose product is gone),
    leaves the database exactly as it was. *)
Theorem checkout_failure_commits_nothing :
  forall checkout_data user env d e d',
    request (OrderService.checkout checkout_data user) env d = (Raise e, d') ->
    d' = d.
Proof.
  intros data user env d e d' H. apply request_Raise in H as (s' & H & <-).
  apply checkout_Raise_committed in H. exact H.
Qed.

Lemma checkout_failure_commits_nothing_witness :
  snd (request (OrderService.checkout shipping alice) env
         (shop_with_order PENDING [line_A 2])) =
  shop_with_order PENDING [line_A 2].
Proof.
  apply (checkout_failure_commits_nothing shipping alice env
           (shop_with_order PENDING [line_A 2]) IntegrityError).
  vm_compute. reflexivity.
Defined.

Lemma cancel_order_Raise_committed oid user env s e s' :
  OrderService.cancel_order oid user env s = (Raise e, s') ->
  committed s' = committed s.
Proof.
  intros H. unfold OrderService.cancel_order in H.
  rewrite (bind_run _ _ _ _ _ _ (get_by_id_run oid env s)) in H.
  destruct (find_by Order.id oid (orders (working s))) as [o|] eqn:Eo;
    [|injection H as _ <-; reflexivity].
  pose proof (find_by_key _ _ _ _ Eo) as Hid.
  destruct (negb (Order.buyer_id o =? User.id user));
    [injection H as _ <-; reflexivity|].
  destruct (OrderService.cannot_cancel (Order.status o));
    [injection H as _ <-; reflexivity|].
  apply bind_Raise in H as [H | ([] & s1 & Hloop & H)].
  { eapply (preserves_for_each (fun s0 => committed s0 = committed s)) in H;
      [apply H; reflexivity | intros x; apply restore_stock_keeps_committed]. }
  apply restore_all_run in Hloop as (C1 & (_ & _ & _ & O1) & _).
  unfold bind at 1 2 3 in H. unfold modify_db, utcnow in H. simpl in H.
  apply bind_Raise in H as [H | ([] & s2 & Hcommit & H)].
  { apply commit_Raise in H. subst s'. exact C1. }
  exfalso. apply commit_run in Hcommit as (_ & ->).
  unfold bind, get_db in H. simpl in H. rewrite Hid, O1 in H.
  erewrite find_by_alter_order in H; [| reflexivity |
    apply find_by_alter_order; [reflexivity | exact Eo]].
  unfold ret in H. discriminate.
Qed.

Lemma update_status_Raise_committed oid upd user env s e s' :
  OrderService.update_status oid upd user env s = (Raise e, s') ->
  committed s' = committed s.
Proof.
  intros H. unfold OrderService.update_status in H.
  rewrite (bind_run _ _ _ _ _ _ (get_by_id_run oid env s)) in H.
  destruct (find_by Order.id oid (orders (working s))) as [o|] eqn:Eo;
    [|injection H as _ <-; reflexivity].
  pose proof (find_by_key _ _ _ _ Eo) as Hid.
  unfold bind at 1 2 3 in H. unfold modify_db, utcnow in H. simpl in H.
  apply bind_Raise in H as [H | ([] & s2 & Hcommit & H)].
  { apply commit_Raise in H. subst s'. reflexivity. }
  exfalso. apply commit_run in Hcommit as (_ & ->).
  unfold bind, get_db in H. simpl in H. rewrite Hid in H.
  erewrite find_by_alter_order in H; [| reflexivity |
    apply find_by_alter_order; [reflexivity | exact Eo]].
  unfold ret in H. discriminate.
Qed.

(** X2.  cancel_order and update_status that fail, with whatever
    exception, leave the database exactly as it was: a cancellation whose
    stock loop stops at an item without product restores no stock at all. *)
Theorem cancel_and_update_status_failures_commit_nothing :
  forall oid user env d e d',
    (request (OrderService.cancel_order oid user) env d = (Raise e, d') -> d' = d) /\
    (forall status_update,
       request (OrderService.update_status oid status_update user) env d = (Raise e, d') ->
       d' = d).
Proof.
  intros oid user env d e d'. split.
  - intros H. apply request_Raise in H as (s' & H & <-).
    apply cancel_order_Raise_committed in H. exact H.
  - intros upd H. apply request_Raise in H as (s' & H & <-).
    apply update_status_Raise_committed in H. exact H.
Qed.

(** X3.  A cancellation is not repeatable: once cancel_order has
    succeeded, the same call again fails with InvalidState and writes
    nothing, so the stock is restored once. *)
Theorem cancel_order_twice :
  forall oid user env d o' d' env',
    request (OrderService.cancel_order oid user) env d = (Return o', d') ->
    request (OrderService.cancel_order oid user) env' d' =
    (Raise (InvalidState CANCELLED), d').
Proof.
  intros oid user env d o' d' env' H. apply request_Return in H as (s' & H & <-).
  apply cancel_order_run in H
    as (o & Eo & Hb & _ & Ho' & _ & Hc & _ & _ & _ & _ & HO & _).
  simpl in *. rewrite Hc.
  assert (Hfind : find_by Order.id oid (orders (working s')) = Some o').
  { rewrite HO, Ho'. apply find_by_alter_order; [reflexivity|].
    apply find_by_alter_order; [reflexivity | exact Eo]. }
  unfold request.
  rewrite (cancel_order_InvalidState oid user env' (begin (working s')) o' Hfind).
  - rewrite Ho'. reflexivity.
  - rewrite Ho'. exact Hb.
  - rewrite Ho'. reflexivity.
Qed.

Lemma cancel_order_twice_witness :
  request (OrderService.cancel_order 1000 alice) env shop_after_cancel =
  (Raise (InvalidState CANCELLED), shop_after_cancel).
Proof.
  exact (cancel_order_twice 1000 alice env shop_after_checkout
           (placed_order CANCELLED (noon 1)) shop_after_cancel env
           cancel_of_placed_order).
Defined.

Lemma update_status_run oid upd user env s r s' :
  OrderService.update_status oid upd user env s = (Return r, s') ->
  exists o,
    find_by Order.id oid (orders (working s)) = Some o /\
    integrity (working s) = true /\
    committed s' = working s' /\
    working s' =
      set_orders
        (alter_by Order.id (Order.set_updated_at (utcnow_at env (n_utcnow s))) oid
           (alter_by Order.id (Order.set_status (OrderStatusUpdate.status upd)) oid
              (orders (working s))))
        (working s) /\
    r = (Order.set_updated_at (utcnow_at env (n_utcnow s))
           (Order.set_status (OrderStatusUpdate.status upd) o),
         items_of (working s) oid).
Proof.
  intros H.
  destruct (find_by Order.id oid (orders (working s))) as [o|] eqn:Eo.
  2:{ rewrite update_status_NotFound in H; [discriminate | exact Eo]. }
  exists o. split; [reflexivity|].
  destruct (integrity (working s)) eqn:Hint.
  - destruct (update_status_ok oid upd user env s o Eo Hint) as [H' _].
    rewrite H' in H. injection H as <- <-. simpl. auto.
  - exfalso. unfold OrderService.update_status in H.
    rewrite (bind_run _ _ _ _ _ _ (get_by_id_run oid env s)), Eo in H.
    unfold bind at 1 2 3 in H. unfold modify_db, utcnow in H. simpl in H.
    apply bind_Return in H as ([] & s2 & Hcommit & _).
    apply commit_run in Hcommit as (Hint' & _). simpl in Hint'.
    rewrite (find_by_key _ _ _ _ Eo) in Hint'.
    erewrite integrity_ext in Hint'; [rewrite Hint in Hint'; discriminate | | | ];
      simpl.
    + rewrite !(map_alter_by Order.id Order.id); reflexivity.
    + rewrite !(map_alter_by Order.id Order.order_number); reflexivity.
    + reflexivity.
Qed.

(** X4.  update_status writes the orders table only: products (so every
    stock), order items, carts and users are as before, every other order
    is untouched, and the order itself changes in status and updated_at
    only.  In particular an order set to cancelled through update_status
    gets no stock back, unlike one cancelled through cancel_order. *)
Theorem update_status_frame :
  forall oid status_update user env d r d',
    request (OrderService.update_status oid status_update user) env d = (Return r, d') ->
    products d' = products d /\
    order_items d' = order_items d /\
    cart_items d' = cart_items d /\
    users d' = users d /\
    categories d' = categories d /\
    Forall2 (fun x x' => if Order.id x =? oid then same_but_status x x' else x' = x)
            (orders d) (orders d').
Proof.
  intros oid upd user env d r d' H. apply request_Return in H as (s' & H & <-).
  apply update_status_run in H as (o & _ & _ & Hc & Hw & _).
  rewrite Hc, Hw. simpl. repeat (split; [reflexivity|]).
  unfold alter_by. rewrite List.map_map. apply Forall2_map_same. intros x.
  destruct (Z.eqb_spec (Order.id x) oid) as [Ex|Ex]; simpl.
  - rewrite Ex, Z.eqb_refl. repeat split.
  - destruct (Z.eqb_spec (Order.id x) oid); [contradiction|reflexivity].
Qed.

Lemma update_status_frame_witness :
  stock_of (snd (request
                   (OrderService.update_status 100 (OrderStatusUpdate.mk CANCELLED) admin)
                   env (shop_with_order PAID []))) 10 =
  stock_of (shop_with_order PAID []) 10.
Proof.
  destruct (update_status_frame 100 (OrderStatusUpdate.mk CANCELLED) admin env
              (shop_with_order PAID [])
              (fst (Order.set_updated_at (noon 0) (Order.set_status CANCELLED (order_100 PAID)),
                    [item_200]), [item_200])
              (snd (request
                      (OrderService.update_status 100 (OrderStatusUpdate.mk CANCELLED) admin)
                      env (shop_with_order PAID []))))
    as (Hp & _).
  - vm_compute. reflexivity.
  - unfold stock_of. rewrite Hp. reflexivity.
Defined.

(** ** What a successful checkout leaves behind *)

Lemma filter_filter {A} (f g : A -> bool) l :
  List.filter f (List.filter g l) = List.filter (fun x => g x && f x) l.
Proof.
  induction l as [|x l IH]; simpl; [reflexivity|].
  destruct (g x); simpl; [destruct (f x)|]; rewrite IH; reflexivity.
Qed.

Lemma filter_none {A} (f : A -> bool) l :
  (forall x, In x l -> f x = false) -> List.filter f l = [].
Proof.
  induction l as [|x l IH]; simpl; intros H; [reflexivity|].
  rewrite (H x); [|left; reflexivity]. apply IH. intros y Hy. apply H. right. exact Hy.
Qed.

Lemma fold_delete_by cart : forall l,
  fold_left (fun l c => delete_by CartItem.id (CartItem.id c) l) cart l =
  List.filter (fun r => negb (existsb (fun c => CartItem.id r =? CartItem.id c) cart)) l.
Proof.
  induction cart as [|c cart IH]; intros l; simpl.
  - induction l as [|x l IHl]; simpl; [reflexivity|]. rewrite <- IHl. reflexivity.
  - rewrite IH. unfold delete_by. rewrite filter_filter.
    apply List.filter_ext. intros r. rewrite negb_orb. reflexivity.
Qed.

Lemma NoDup_map_inj {A B} (f : A -> B) l a b :
  NoDup (List.map f l) -> In a l -> In b l -> f a = f b -> a = b.
Proof.
  induction l as [|x l IH]; simpl; intros Hnd Ha Hb Hf; [destruct Ha|].
  apply NoDup_cons in Hnd as [Hx Hnd].
  destruct Ha as [->|Ha], Hb as [->|Hb]; auto.
  - exfalso. apply Hx. rewrite Hf. apply list_elem_of_In, List.in_map. exact Hb.
  - exfalso. apply Hx. rewrite <- Hf. apply list_elem_of_In, List.in_map. exact Ha.
Qed.

(** The cart table after a successful checkout: the session's view of it
    with the rows of the buyer's cart deleted, one by one, by primary key. *)
Lemma checkout_cart_after checkout_data user env d r d' :
  request (OrderService.checkout checkout_data user) env d = (Return r, d') ->
  cart_items d' =
  fold_left (fun l c => delete_by CartItem.id (CartItem.id c) l)
            (cart_items_of d (User.id user)) (cart_items d).
Proof.
  intros H. apply request_Return in H as (s' & H & <-). destruct r as [o its].
  pose proof H as H0.
  apply checkout_run in H0 as (u & ds & Eu & Hne & Hacc & _).
  rewrite (checkout_to_flush checkout_data user env (begin d) u ds Eu Hne Hacc) in H.
  apply bind_Return in H as ([] & s2 & Hf & H). apply flush_run in Hf as (_ & ->).
  apply bind_Return in H as ([] & s3 & Hcreate & H).
  apply create_items_run in Hcreate as (_ & (_ & _ & K3 & _) & _).
  apply bind_Return in H as ([] & s4 & Hdel & H).
  destruct (delete_cart_run (cart_items_of (working (begin d)) (User.id user)) env s3)
    as (sb & Hrun & _ & _ & _ & _ & _ & _ & K4).
  rewrite Hrun in Hdel. injection Hdel as <-.
  apply bind_Return in H as ([] & s5 & Hcommit & H).
  apply commit_run in Hcommit as (_ & ->).
  unfold bind, get_db in H. simpl in H.
  destruct (find_by Order.id _ (orders (working sb))); [|discriminate].
  unfold ret in H. injection H as _ _ <-. simpl.
  rewrite K4, K3. reflexivity.
Qed.

(** The cart table once the lines of user [uid] are deleted. *)
Lemma without_cart_of (l : list CartItem.t) uid :
  let l' := fold_left (fun l c => delete_by CartItem.id (CartItem.id c) l)
              (List.filter (fun c => CartItem.user_id c =? uid) l) l in
  List.filter (fun c => CartItem.user_id c =? uid) l' = [] /\
  (forall c, In c l' -> In c l) /\
  (NoDup (List.map CartItem.id l) ->
   forall other, other <> uid ->
     List.filter (fun c => CartItem.user_id c =? other) l' =
     List.filter (fun c => CartItem.user_id c =? other) l).
Proof.
  cbv zeta. rewrite fold_delete_by. split; [|split].
  - rewrite filter_filter. apply filter_none. intros x Hx.
    destruct (Z.eqb_spec (CartItem.user_id x) uid) as [E|E];
      [|apply andb_false_r].
    rewrite andb_true_r. apply negb_false_iff, List.existsb_exists.
    exists x. split; [|apply Z.eqb_refl].
    apply List.filter_In. split; [exact Hx | apply Z.eqb_eq; exact E].
  - intros c Hc. apply List.filter_In in Hc as [Hc _]. exact Hc.
  - intros Hnd other Hother. rewrite filter_filter.
    apply List.filter_ext_in. intros x Hx.
    destruct (Z.eqb_spec (CartItem.user_id x) other) as [E|E];
      [|rewrite andb_false_r; reflexivity].
    rewrite andb_true_r. apply negb_true_iff.
    destruct (existsb _ _) eqn:Ex; [|reflexivity]. exfalso.
    apply List.existsb_exists in Ex as (c & Hc & Hid).
    apply List.filter_In in Hc as [Hc Hu].
    apply Z.eqb_eq in Hid, Hu.
    assert (x = c) by (eapply (NoDup_map_inj CartItem.id); eauto).
    subst c. congruence.
Qed.

(** X5.  A successful checkout drains the buyer's cart: no cart line of
    the buyer is left, no cart line appears, and (cart lines having
    distinct primary keys) every other buyer's cart is as it was. *)
Theorem checkout_drains_the_cart :
  forall checkout_data user env d r d',
    request (OrderService.checkout checkout_data user) env d = (Return r, d') ->
    cart_items_of d' (User.id user) = [] /\
    (forall c, In c (cart_items d') -> In c (cart_items d)) /\
    (NoDup (List.map CartItem.id (cart_items d)) ->
     forall other, other <> User.id user ->
       cart_items_of d' other = cart_items_of d other).
Proof.
  intros data user env d r d' H. apply checkout_cart_after in H.
  unfold cart_items_of. rewrite H. apply without_cart_of.
Qed.

(** X6.  A successful checkout adds exactly one order and one item per
    cart line, after the rows already there: the order is pending,
    belongs to the buyer, carries the request's shipping fields and the
    generated number; every new item belongs to it. *)
Theorem checkout_places_one_pending_order :
  forall checkout_data user env d o its d',
    order_items_reference_orders d ->
    request (OrderService.checkout checkout_data user) env d = (Return (o, its), d') ->
    Order.status o = PENDING /\
    Order.buyer_id o = User.id user /\
    Order.order_number o = generated_order_number env (begin d) /\
    Order.shipping_address o = CheckoutRequest.shipping_address checkout_data /\
    Order.shipping_city o = CheckoutRequest.shipping_city checkout_data /\
    Order.shipping_zip o = CheckoutRequest.shipping_zip checkout_data /\
    Order.shipping_phone o = CheckoutRequest.shipping_phone checkout_data /\
    orders d' = orders d ++ [o] /\
    order_items d' = order_items d ++ its /\
    length its = length (cart_items_of d (User.id user)) /\
    Forall (fun it => OrderItem.order_id it = Order.id o) its /\
    users d' = users d.
Proof.
  intros data user env d o its d' Hfk H.
  apply checkout_success in H
    as (ds & _ & Hacc & Ho & Hits & _ & _ & HU & HO & HI & _); [|exact Hfk].
  pose proof (created_items_data env (Order.id o) ds 1) as Hdata.
  rewrite <- Hits in Hdata.
  rewrite Ho at 1 2 3 4 5 6 7. simpl.
  repeat (split; [reflexivity|]).
  split; [exact HO|]. split; [exact HI|]. split; [|split; [|exact HU]].
  - rewrite <- (Forall2_length _ _ _ Hdata). symmetry. eapply Forall2_length. exact Hacc.
  - apply List.Forall_forall. intros it Hin. rewrite Hits in Hin.
    eapply created_items_order_id. exact Hin.
Qed.

Lemma checkout_places_one_pending_order_witness :
  orders shop_after_checkout = orders (shop [line_A 2]) ++ [placed_order PENDING (noon 2)] /\
  length placed_items = length (cart_items_of (shop [line_A 2]) (User.id alice)).
Proof.
  destruct (checkout_places_one_pending_order shipping alice env (shop [line_A 2])
              (placed_order PENDING (noon 2)) placed_items shop_after_checkout
              (no_order_items_reference_orders _) checkout_of_two_A)
    as (_ & _ & _ & _ & _ & _ & _ & HO & _ & Hlen & _).
  split; [exact HO | exact Hlen].
Defined.

(** ** The order number *)

Lemma generate_order_number_run env s :
  OrderService._generate_order_number env s =
  (Return (generated_order_number env s),
   mk_Session (committed s) (working s) (S (n_utcnow s)) (n_uuid4 s) (S (n_token_bytes s))).
Proof. reflexivity. Qed.

Lemma length_append_string (a b : string) :
  String.length (a +:+ b) = (String.length a + String.length b)%nat.
Proof. induction a as [|c a IH]; simpl; [reflexivity|]. rewrite IH. reflexivity. Qed.

Lemma string_forall_append P (a b : string) :
  string_forall P (a +:+ b) = string_forall P a && string_forall P b.
Proof.
  induction a as [|c a IH]; simpl; [reflexivity|]. rewrite IH, andb_assoc. reflexivity.
Qed.

Lemma append_inj (a a' b b' : string) :
  String.length a = String.length a' ->
  (a +:+ b = a' +:+ b')%string -> a = a' /\ b = b'.
Proof.
  revert a'. induction a as [|c a IH]; intros [|c' a'] Hlen H; simpl in *;
    try discriminate; [auto|].
  injection H as -> H. injection Hlen as Hlen.
  destruct (IH a' Hlen H) as [-> ->]. auto.
Qed.

Lemma length_dec_digits k n : String.length (dec_digits k n) = k.
Proof. induction k as [|k IH]; simpl; [reflexivity|]. rewrite IH. reflexivity. Qed.

Lemma dec_digit_ascii x :
  N_of_ascii (ascii_of_N (48 + Z.to_N (x mod 10))) = (48 + Z.to_N (x mod 10))%N.
Proof.
  apply N_ascii_embedding.
  pose proof (Z.mod_pos_bound x 10 ltac:(lia)). lia.
Qed.

Lemma dec_digits_are_digits k n : string_forall is_digit (dec_digits k n) = true.
Proof.
  induction k as [|k IH]; simpl; [reflexivity|]. rewrite IH, andb_true_r.
  unfold is_digit. rewrite dec_digit_ascii.
  pose proof (Z.mod_pos_bound (n / 10 ^ Z.of_nat k) 10 ltac:(lia)).
  apply andb_true_iff. split; apply N.leb_le; lia.
Qed.

Lemma dec_digits_inj k : forall n m,
  dec_digits k n = dec_digits k m -> n mod 10 ^ Z.of_nat k = m mod 10 ^ Z.of_nat k.
Proof.
  induction k as [|k IH]; intros n m H.
  - simpl. rewrite !Z.mod_1_r. reflexivity.
  - simpl in H. injection H as Hc Ht. apply IH in Ht.
    assert (Hd : (n / 10 ^ Z.of_nat k) mod 10 = (m / 10 ^ Z.of_nat k) mod 10).
    { apply (f_equal N_of_ascii) in Hc. rewrite !dec_digit_ascii in Hc.
      pose proof (Z.mod_pos_bound (n / 10 ^ Z.of_nat k) 10 ltac:(lia)).
      pose proof (Z.mod_pos_bound (m / 10 ^ Z.of_nat k) 10 ltac:(lia)).
      lia. }
    rewrite Nat2Z.inj_succ, Z.pow_succ_r by lia.
    rewrite (Z.mul_comm 10).
    assert (0 < 10 ^ Z.of_nat k) by (apply Z.pow_pos_nonneg; lia).
    rewrite !Z.rem_mul_r by lia. rewrite Ht, Hd. reflexivity.
Qed.

Lemma length_hexlify bs : String.length (hexlify bs) = (2 * length bs)%nat.
Proof. induction bs as [|b bs IH]; simpl; [reflexivity|]. rewrite IH. lia. Qed.

Lemma length_upper s : String.length (upper s) = String.length s.
Proof. induction s as [|c s IH]; simpl; [reflexivity|]. rewrite IH. reflexivity. Qed.

Lemma upper_hexlify_cons b bs :
  upper (hexlify (b :: bs)) =
  String (upper_ascii (hex_digit (Byte.to_N b / 16)))
    (String (upper_ascii (hex_digit (Byte.to_N b mod 16))) (upper (hexlify bs))).
Proof. reflexivity. Qed.

Lemma upper_hex_byte b :
  is_upper_hex (upper_ascii (hex_digit (Byte.to_N b / 16))) = true /\
  is_upper_hex (upper_ascii (hex_digit (Byte.to_N b mod 16))) = true /\
  Byte.of_N (16 * upper_hex_value (upper_ascii (hex_digit (Byte.to_N b / 16))) +
             upper_hex_value (upper_ascii (hex_digit (Byte.to_N b mod 16)))) = Some b.
Proof. destruct b; vm_compute; auto. Qed.

Lemma upper_hexlify_is_upper_hex bs :
  string_forall is_upper_hex (upper (hexlify bs)) = true.
Proof.
  induction bs as [|b bs IH]; [reflexivity|]. rewrite upper_hexlify_cons. simpl.
  destruct (upper_hex_byte b) as (-> & -> & _). exact IH.
Qed.

(** Reading the uppercase hexadecimal of a token back gives the token. *)
Lemma unhexlify_upper_hexlify bs : unhexlify (upper (hexlify bs)) = Some bs.
Proof.
  induction bs as [|b bs IH]; [reflexivity|]. rewrite upper_hexlify_cons. simpl.
  destruct (upper_hex_byte b) as (_ & _ & ->). rewrite IH. reflexivity.
Qed.

Lemma strftime_Ymd_inj dt dt' :
  date_in_range dt -> date_in_range dt' ->
  strftime_Ymd dt = strftime_Ymd dt' ->
  year dt = year dt' /\ month dt = month dt' /\ day dt = day dt'.
Proof.
  unfold date_in_range, strftime_Ymd. intros (Hy & Hm & Hd) (Hy' & Hm' & Hd') H.
  apply append_inj in H as [H1 H]; [|rewrite !length_dec_digits; reflexivity].
  apply append_inj in H as [H2 H3]; [|rewrite !length_dec_digits; reflexivity].
  apply dec_digits_inj in H1, H2, H3.
  change (10 ^ Z.of_nat 4) with 10000 in H1.
  change (10 ^ Z.of_nat 2) with 100 in H2, H3.
  rewrite !Z.mod_small in H1, H2, H3 by lia. auto.
Qed.

Lemma digits_from_append a b : forall acc,
  digits_from acc (a +:+ b) = digits_from (digits_from acc a) b.
Proof. induction a as [|c a IH]; intros acc; simpl; [reflexivity | apply IH]. Qed.

Lemma digits_from_dec_digits k : forall n acc,
  digits_from acc (dec_digits k n) = acc * 10 ^ Z.of_nat k + n mod 10 ^ Z.of_nat k.
Proof.
  induction k as [|k IH]; intros n acc.
  - simpl. rewrite Z.mod_1_r. lia.
  - cbn [dec_digits digits_from]. rewrite dec_digit_ascii, IH.
    pose proof (Z.mod_pos_bound (n / 10 ^ Z.of_nat k) 10 ltac:(lia)).
    rewrite N2Z.inj_add, Z2N.id by lia.
    rewrite Nat2Z.inj_succ, Z.pow_succ_r by lia.
    rewrite (Z.mul_comm 10 (10 ^ Z.of_nat k)).
    assert (0 < 10 ^ Z.of_nat k) by (apply Z.pow_pos_nonneg; lia).
    rewrite (Z.rem_mul_r n (10 ^ Z.of_nat k) 10) by lia.
    change (Z.of_N 48) with 48. nia.
Qed.

(** The digits of the date spell the date. *)
Lemma digits_value_strftime_Ymd dt :
  four_digit_date dt ->
  digits_value (strftime_Ymd dt) = year dt * 10000 + month dt * 100 + day dt.
Proof.
  intros (Hy & Hm & Hd). unfold digits_value, strftime_Ymd.
  rewrite !digits_from_append, !digits_from_dec_digits.
  change (10 ^ Z.of_nat 4) with 10000. change (10 ^ Z.of_nat 2) with 100.
  rewrite !Z.mod_small by lia. lia.
Qed.

(** X8.  On a date whose year has four digits (1000..9999, where strftime
    prints the year as the model does), the order number is ORD-, eight
    digits that spell the UTC date (year, month, day), a dash and, for a
    token of four bytes, eight uppercase hexadecimal digits: 21
    characters; generating it touches neither the database nor the
    session's pending changes. *)
Theorem order_number_format :
  forall env s,
    four_digit_date (utcnow_at env (n_utcnow s)) ->
    length (token_bytes_at env (n_token_bytes s) 4) = 4%nat ->
    exists date suffix s',
      OrderService._generate_order_number env s =
      (Return ("ORD-" +:+ date +:+ "-" +:+ suffix), s') /\
      String.length date = 8%nat /\ string_forall is_digit date = true /\
      digits_value date =
        year (utcnow_at env (n_utcnow s)) * 10000 +
        month (utcnow_at env (n_utcnow s)) * 100 +
        day (utcnow_at env (n_utcnow s)) /\
      String.length suffix = 8%nat /\ string_forall is_upper_hex suffix = true /\
      String.length ("ORD-" +:+ date +:+ "-" +:+ suffix) = 21%nat /\
      working s' = working s /\ committed s' = committed s.
Proof.
  intros env s Hdate Hlen.
  exists (strftime_Ymd (utcnow_at env (n_utcnow s))),
         (upper (hexlify (token_bytes_at env (n_token_bytes s) 4))).
  eexists. split; [apply generate_order_number_run|].
  assert (Hd : String.length (strftime_Ymd (utcnow_at env (n_utcnow s))) = 8%nat).
  { unfold strftime_Ymd. rewrite !length_append_string, !length_dec_digits. reflexivity. }
  assert (Hs : String.length (upper (hexlify (token_bytes_at env (n_token_bytes s) 4)))
               = 8%nat).
  { rewrite length_upper, length_hexlify, Hlen. reflexivity. }
  split; [exact Hd|]. split.
  { unfold strftime_Ymd. rewrite !string_forall_append, !dec_digits_are_digits.
    reflexivity. }
  split; [apply digits_value_strftime_Ymd; exact Hdate|].
  split; [exact Hs|]. split; [apply upper_hexlify_is_upper_hex|].
  split; [|split; reflexivity].
  rewrite !length_append_string, Hd, Hs. reflexivity.
Qed.

Lemma order_number_format_witness :
  four_digit_date (utcnow_at env 0) /\
  length (token_bytes_at env 0 4) = 4%nat /\
  exists date suffix s',
    OrderService._generate_order_number env (begin (shop [])) =
    (Return ("ORD-" +:+ date +:+ "-" +:+ suffix), s') /\
    digits_value date = 20240101 /\
    String.length ("ORD-" +:+ date +:+ "-" +:+ suffix) = 21%nat.
Proof.
  assert (Hy : four_digit_date (utcnow_at env 0)) by (unfold four_digit_date; simpl; lia).
  split; [exact Hy|]. split; [reflexivity|].
  destruct (order_number_format env (begin (shop [])) Hy eq_refl)
    as (date & suffix & s' & H & _ & _ & Hv & _ & _ & Hlen & _).
  exists date, suffix, s'. split; [exact H|]. split; [exact Hv | exact Hlen].
Defined.

(** X9.  Two generated order numbers are equal exactly when they were
    generated on the same UTC date from the same random token: the date
    digits and the hexadecimal suffix lose nothing. *)
Theorem order_numbers_equal_iff :
  forall env s env' s',
    date_in_range (utcnow_at env (n_utcnow s)) ->
    date_in_range (utcnow_at env' (n_utcnow s')) ->
    (generated_order_number env s = generated_order_number env' s' <->
     year (utcnow_at env (n_utcnow s)) = year (utcnow_at env' (n_utcnow s')) /\
     month (utcnow_at env (n_utcnow s)) = month (utcnow_at env' (n_utcnow s')) /\
     day (utcnow_at env (n_utcnow s)) = day (utcnow_at env' (n_utcnow s')) /\
     token_bytes_at env (n_token_bytes s) 4 = token_bytes_at env' (n_token_bytes s') 4).
Proof.
  intros env s env' s' Hr Hr'. unfold generated_order_number. split.
  - intros H.
    apply append_inj in H as [_ H]; [|reflexivity].
    apply append_inj in H as [Hdate H].
    2:{ unfold strftime_Ymd. rewrite !length_append_string, !length_dec_digits.
        reflexivity. }
    apply append_inj in H as [_ H]; [|reflexivity].
    destruct (strftime_Ymd_inj _ _ Hr Hr' Hdate) as (Hy & Hm & Hd).
    repeat (split; [assumption|]).
    apply (f_equal unhexlify) in H. rewrite !unhexlify_upper_hexlify in H.
    injection H as H. exact H.
  - intros (Hy & Hm & Hd & Ht). unfold strftime_Ymd. rewrite Hy, Hm, Hd, Ht. reflexivity.
Qed.

Lemma order_numbers_equal_iff_witness :
  date_in_range (utcnow_at env 0) /\
  generated_order_number env (begin (shop [])) <>
  generated_order_number env (mk_Session (shop []) (shop []) 0 0 1).
Proof.
  assert (Hr : date_in_range (utcnow_at env 0)) by (vm_compute; intuition discriminate).
  split; [exact Hr|]. intros H.
  apply (order_numbers_equal_iff env (begin (shop [])) env
           (mk_Session (shop []) (shop []) 0 0 1) Hr Hr) in H
    as (_ & _ & _ & H).
  discriminate H.
Defined.

(** ** The order listings *)

Lemma lex_compare_antisym a : forall b, lex_compare b a = CompOpp (lex_compare a b).
Proof.
  induction a as [|x a IH]; intros [|y b]; simpl; try reflexivity.
  rewrite (Z.compare_antisym x y). destruct (x ?= y); simpl; auto.
Qed.

Lemma lex_compare_Eq a : forall b, lex_compare a b = Eq -> a = b.
Proof.
  induction a as [|x a IH]; intros [|y b]; simpl; try discriminate; auto.
  destruct (Z.compare_spec x y) as [Exy| |]; try discriminate.
  intros H. f_equal; auto.
Qed.

Lemma lex_compare_trans a :
  forall b c, lex_compare a b <> Gt -> lex_compare b c <> Gt -> lex_compare a c <> Gt.
Proof.
  induction a as [|x a IH]; intros [|y b] [|z c]; simpl; try congruence.
  destruct (Z.compare_spec x y), (Z.compare_spec y z), (Z.compare_spec x z);
    intros Hab Hbc; try congruence; try lia.
  eapply IH; eassumption.
Qed.

Lemma datetime_fields_inj a b : datetime_fields a = datetime_fields b -> a = b.
Proof. destruct a, b. unfold datetime_fields. simpl. intros H. congruence. Qed.

Lemma datetime_leb_trans a b c :
  datetime_leb a b = true -> datetime_leb b c = true -> datetime_leb a c = true.
Proof.
  unfold datetime_leb, datetime_compare.
  pose proof (lex_compare_trans (datetime_fields a) (datetime_fields b) (datetime_fields c)) as H.
  destruct (lex_compare (datetime_fields a) (datetime_fields b)),
           (lex_compare (datetime_fields b) (datetime_fields c)),
           (lex_compare (datetime_fields a) (datetime_fields c));
    intros; try reflexivity; try discriminate; exfalso; apply H; congruence.
Qed.

Lemma datetime_leb_total a b : datetime_leb a b = false -> datetime_leb b a = true.
Proof.
  unfold datetime_leb, datetime_compare.
  rewrite (lex_compare_antisym (datetime_fields a) (datetime_fields b)).
  destruct (lex_compare (datetime_fields a) (datetime_fields b)); simpl; congruence.
Qed.

Lemma datetime_leb_antisym a b :
  datetime_leb a b = true -> datetime_leb b a = true -> a = b.
Proof.
  unfold datetime_leb, datetime_compare.
  rewrite (lex_compare_antisym (datetime_fields a) (datetime_fields b)).
  destruct (lex_compare (datetime_fields a) (datetime_fields b)) eqn:E; simpl;
    try discriminate.
  intros _ _. apply datetime_fields_inj, lex_compare_Eq. exact E.
Qed.

Lemma insert_newest_first_Permutation o l :
  Permutation (insert_newest_first o l) (o :: l).
Proof.
  induction l as [|o' l IH]; simpl; [reflexivity|].
  destruct (datetime_leb _ _); [reflexivity|].
  etransitivity; [apply perm_skip; exact IH | apply perm_swap].
Qed.

Lemma insert_newest_first_sorted o l :
  newest_first l -> newest_first (insert_newest_first o l).
Proof.
  unfold newest_first. induction 1 as [|o' l Hs IH Hall]; simpl.
  { constructor; constructor. }
  destruct (datetime_leb (Order.created_at o') (Order.created_at o)) eqn:E.
  - constructor; [constructor; assumption|].
    constructor; [exact E|].
    eapply Forall_impl; [exact Hall|]. intros x Hx. simpl in Hx.
    eapply datetime_leb_trans; eassumption.
  - constructor; [exact IH|].
    eapply Permutation_Forall;
      [symmetry; apply insert_newest_first_Permutation|].
    constructor; [apply datetime_leb_total; exact E | exact Hall].
Qed.

(** Insertion is an answer the database may give. *)
Lemma sort_newest_first_spec : orders_by_created_at_desc sort_newest_first.
Proof.
  intros l. induction l as [|o l [IHp IHs]]; simpl.
  { split; [reflexivity | constructor]. }
  split.
  - etransitivity; [apply insert_newest_first_Permutation|].
    apply perm_skip. exact IHp.
  - apply insert_newest_first_sorted. exact IHs.
Qed.

Lemma filter_all {A} (l : list A) : List.filter (fun _ => true) l = l.
Proof. induction l as [|x l IH]; simpl; [reflexivity | rewrite IH; reflexivity]. Qed.

Lemma sublist_List_filter {A} (f : A -> bool) l : List.filter f l `sublist_of` l.
Proof.
  induction l as [|x l IH]; simpl; [constructor|].
  destruct (f x); [apply sublist_skip | apply sublist_cons]; exact IH.
Qed.

Lemma StronglySorted_take_drop {A} (R : A -> A -> Prop) skip limit l :
  StronglySorted R l -> StronglySorted R (take limit (drop skip l)).
Proof.
  intros H. rewrite <- (take_drop skip l) in H.
  apply StronglySorted_app in H as (_ & _ & H).
  rewrite <- (take_drop limit (drop skip l)) in H.
  apply StronglySorted_app in H as (_ & H & _). exact H.
Qed.

Lemma In_take_drop {A} skip limit (l : list A) x :
  In x (take limit (drop skip l)) -> In x l.
Proof.
  intros H. rewrite <- (take_drop skip l). apply List.in_or_app. right.
  rewrite <- (take_drop limit (drop skip l)). apply List.in_or_app. left. exact H.
Qed.

Lemma select_orders_fst order_by where_ skip limit d :
  List.map fst (OrderService.select_orders order_by where_ skip limit d) =
  take limit (drop skip (order_by (List.filter where_ (orders d)))).
Proof.
  unfold OrderService.select_orders. rewrite List.map_map. simpl. apply List.map_id.
Qed.

(** What the query gives, whatever the database's choice among rows of
    one [created_at]. *)
Lemma select_orders_spec order_by where_ skip limit d :
  orders_by_created_at_desc order_by ->
  length (OrderService.select_orders order_by where_ skip limit d) =
    Nat.min limit (length (List.filter where_ (orders d)) - skip) /\
  newest_first (List.map fst (OrderService.select_orders order_by where_ skip limit d)) /\
  (forall o its,
     In (o, its) (OrderService.select_orders order_by where_ skip limit d) ->
     In o (List.filter where_ (orders d)) /\ its = items_of d (Order.id o)) /\
  (NoDup (List.map Order.id (orders d)) ->
   NoDup (List.map (fun p => Order.id (fst p))
            (OrderService.select_orders order_by where_ skip limit d))).
Proof.
  intros Hob. destruct (Hob (List.filter where_ (orders d))) as [Hp Hs].
  split; [|split; [|split]].
  - unfold OrderService.select_orders.
    rewrite List.length_map, length_take, length_drop.
    rewrite (Permutation_length Hp). reflexivity.
  - rewrite select_orders_fst. apply StronglySorted_take_drop. exact Hs.
  - intros o its Hin. unfold OrderService.select_orders in Hin.
    apply List.in_map_iff in Hin as (o' & E & Hin). injection E as -> <-.
    split; [|reflexivity].
    apply In_take_drop in Hin. eapply Permutation_in; eassumption.
  - intros Hnd. rewrite <- (List.map_map fst Order.id), select_orders_fst.
    change (NoDup (Order.id <$>
              take limit (drop skip (order_by (List.filter where_ (orders d)))))).
    eapply sublist_NoDup;
      [|apply fmap_sublist; etransitivity; [apply sublist_take | apply sublist_drop]].
    rewrite Hp.
    eapply sublist_NoDup; [exact Hnd | apply fmap_sublist, sublist_List_filter].
Qed.

Lemma get_user_orders_run order_by uid skip limit env s :
  OrderService.get_user_orders order_by uid skip limit env s =
  (Return (OrderService.select_orders order_by (fun o => Order.buyer_id o =? uid)
             skip limit (working s),
           length (orders_of (working s) uid)), s).
Proof. reflexivity. Qed.

Lemma get_all_orders_run order_by skip limit status env s :
  OrderService.get_all_orders order_by skip limit status env s =
  (Return (OrderService.select_orders order_by
             (match status with
              | Some st => fun o => bool_decide (Order.status o = st)
              | None => fun _ => true
              end) skip limit (working s),
           length (orders_matching (working s) status)), s).
Proof.
  destruct status as [st|]; [reflexivity|].
  unfold OrderService.get_all_orders, bind, get_db, ret. simpl.
  rewrite filter_all. reflexivity.
Qed.

(** X10.  get_user_orders always answers, and writes nothing.  The total
    is the number of the buyer's orders, whatever skip and limit; the
    page holds min(limit, total - skip) orders, all of them the buyer's,
    each with its own items, the newest first, and none twice. *)
Theorem get_user_orders_page :
  forall order_by uid skip limit env d,
    orders_by_created_at_desc order_by ->
    exists page,
      request (OrderService.get_user_orders order_by uid skip limit) env d =
      (Return (page, length (orders_of d uid)), d) /\
      length page = Nat.min limit (length (orders_of d uid) - skip) /\
      newest_first (List.map fst page) /\
      (forall o its, In (o, its) page ->
         In o (orders d) /\ Order.buyer_id o = uid /\ its = items_of d (Order.id o)) /\
      (NoDup (List.map Order.id (orders d)) ->
       NoDup (List.map (fun p => Order.id (fst p)) page)).
Proof.
  intros order_by uid skip limit env d Hob.
  eexists. split; [unfold request; rewrite get_user_orders_run; reflexivity|].
  destruct (select_orders_spec order_by (fun o => Order.buyer_id o =? uid) skip limit d Hob)
    as (Hlen & Hs & Hin & Hnd).
  simpl. split; [exact Hlen|]. split; [exact Hs|]. split; [|exact Hnd].
  intros o its Ho. apply Hin in Ho as [Ho ->].
  apply List.filter_In in Ho as [Ho Hb]. apply Z.eqb_eq in Hb. auto.
Qed.

(** Two answers to ORDER BY agree on rows of distinct [created_at]. *)
Lemma order_by_determined ob1 ob2 rows :
  orders_by_created_at_desc ob1 -> orders_by_created_at_desc ob2 ->
  NoDup (List.map Order.created_at rows) ->
  ob1 rows = ob2 rows.
Proof.
  intros H1 H2 Hnd. destruct (H1 rows) as [Hp1 Hs1], (H2 rows) as [Hp2 Hs2].
  eapply StronglySorted_unique_strong; [|exact Hs1|exact Hs2|].
  - intros x1 x2 Hx1 Hx2 R12 R21.
    apply list_elem_of_In in Hx1, Hx2.
    apply (NoDup_map_inj Order.created_at rows); [exact Hnd | | |].
    + exact (Permutation_in _ Hp1 Hx1).
    + exact (Permutation_in _ Hp2 Hx2).
    + apply datetime_leb_antisym; assumption.
  - rewrite Hp1, Hp2. reflexivity.
Qed.

(** X11.  When the buyer's orders have distinct created_at, the pages of
    get_user_orders do not depend on the database's choice, and they
    tile: the page of l1 orders after skip, followed by the page of l2
    orders after skip + l1, is the page of l1 + l2 orders after skip. *)
Theorem get_user_orders_pages_tile :
  forall ob1 ob2 ob3 uid skip l1 l2 env1 env2 env3 d,
    orders_by_created_at_desc ob1 ->
    orders_by_created_at_desc ob2 ->
    orders_by_created_at_desc ob3 ->
    NoDup (List.map Order.created_at (orders_of d uid)) ->
    exists p1 p2 total,
      request (OrderService.get_user_orders ob1 uid skip l1) env1 d =
      (Return (p1, total), d) /\
      request (OrderService.get_user_orders ob2 uid (skip + l1) l2) env2 d =
      (Return (p2, total), d) /\
      request (OrderService.get_user_orders ob3 uid skip (l1 + l2)) env3 d =
      (Return (p1 ++ p2, total), d).
Proof.
  intros ob1 ob2 ob3 uid skip l1 l2 env1 env2 env3 d H1 H2 H3 Hnd.
  do 3 eexists. unfold request. rewrite !get_user_orders_run. simpl.
  split; [reflexivity|]. split; [reflexivity|].
  do 2 f_equal. f_equal. unfold OrderService.select_orders.
  rewrite <- List.map_app. f_equal. fold (orders_of d uid).
  rewrite (order_by_determined ob3 ob1 _ H3 H1 Hnd),
          (order_by_determined ob2 ob1 _ H2 H1 Hnd).
  rewrite <- take_take_drop, drop_drop. reflexivity.
Qed.

(** X12.  get_all_orders always answers, and writes nothing.  With a
    status filter the total counts, and the page holds, orders in that
    status only; without one the total is the number of all orders.  The
    page holds min(limit, total - skip) orders, each with its own items,
    the newest first. *)
Theorem get_all_orders_page :
  forall order_by skip limit status env d,
    orders_by_created_at_desc order_by ->
    exists page,
      request (OrderService.get_all_orders order_by skip limit status) env d =
      (Return (page, length (orders_matching d status)), d) /\
      length page = Nat.min limit (length (orders_matching d status) - skip) /\
      newest_first (List.map fst page) /\
      (forall o its, In (o, its) page ->
         In o (orders d) /\ its = items_of d (Order.id o) /\
         forall st, status = Some st -> Order.status o = st).
Proof.
  intros order_by skip limit status env d Hob.
  eexists. split; [unfold request; rewrite get_all_orders_run; reflexivity|].
  simpl.
  destruct (select_orders_spec order_by
              (match status with
               | Some st => fun o => bool_decide (Order.status o = st)
               | None => fun _ => true
               end) skip limit d Hob) as (Hlen & Hs & Hin & _).
  assert (E : List.filter
                (match status with
                 | Some st => fun o => bool_decide (Order.status o = st)
                 | None => fun _ => true
                 end) (orders d) = orders_matching d status).
  { destruct status; [reflexivity | apply filter_all]. }
  rewrite E in Hlen. split; [exact Hlen|]. split; [exact Hs|].
  intros o its Ho. apply Hin in Ho as [Ho ->].
  apply List.filter_In in Ho as [Ho Hst]. split; [exact Ho|]. split; [reflexivity|].
  intros st ->. apply bool_decide_eq_true in Hst. exact Hst.
Qed.

(** ** Products: update and soft delete *)

Lemma apply_updates_Some u p p' :
  ProductService.apply_updates u p = Some p' ->
  Product.id p' = Product.id p /\
  Product.seller_id p' = Product.seller_id p /\
  Product.created_at p' = Product.created_at p /\
  Product.updated_at p' = Product.updated_at p /\
  updated_required (ProductUpdate.name u) (Product.name p) (Product.name p') /\
  updated_required (ProductUpdate.description u) (Product.description p)
    (Product.description p') /\
  updated_required (ProductUpdate.price u) (Product.price p) (Product.price p') /\
  updated_required (ProductUpdate.stock u) (Product.stock p) (Product.stock p') /\
  updated_nullable (ProductUpdate.category_id u) (Product.category_id p)
    (Product.category_id p') /\
  updated_nullable (ProductUpdate.image_urls u) (Product.image_urls p)
    (Product.image_urls p') /\
  updated_required (ProductUpdate.is_active u) (Product.is_active p)
    (Product.is_active p').
Proof.
  destruct u as [n de pr st ca im ac]. unfold ProductService.apply_updates. simpl.
  destruct n as [[n|]|], de as [[de|]|], pr as [[pr|]|], st as [[st|]|],
           ca as [ca|], im as [im|], ac as [[ac|]|]; simpl;
    intros H; try discriminate H; injection H as <-; simpl; repeat split.
Qed.

Lemma apply_updates_None u p :
  ProductService.apply_updates u p = None <-> nulls_required u.
Proof.
  destruct u as [n de pr st ca im ac]. unfold ProductService.apply_updates, nulls_required.
  simpl.
  destruct n as [[n|]|], de as [[de|]|], pr as [[pr|]|], st as [[st|]|],
           ca as [ca|], im as [im|], ac as [[ac|]|]; simpl;
    split; intros H; try discriminate H; try reflexivity; try tauto;
    repeat (destruct H as [H|H]; try discriminate H).
Qed.

Lemma find_by_alter_product f pid ps p :
  (forall x, Product.id x = pid -> Product.id (f x) = pid) ->
  find_by Product.id pid ps = Some p ->
  find_by Product.id pid (alter_by Product.id f pid ps) = Some (f p).
Proof.
  intros Hf H. unfold alter_by.
  rewrite (find_by_map Product.id (fun r => if Product.id r =? pid then f r else r) pid ps).
  - rewrite H. simpl. rewrite (find_by_key _ _ _ _ H), Z.eqb_refl. reflexivity.
  - intros r. destruct (Z.eqb_spec (Product.id r) pid) as [E|E]; [|reflexivity].
    rewrite E. apply Hf. exact E.
Qed.

Lemma product_update_eval pid upd seller env s :
  ProductService.update pid upd seller env s =
  match find_by Product.id pid (products (working s)) with
  | None => (Raise (NotFound "Product not found"), s)
  | Some p =>
      if negb (Product.seller_id p =? User.id seller) then
        (Raise (Forbidden "You can only update your own products"), s)
      else if match ProductUpdate.category_id upd with
              | Some (Some c) =>
                  if find_by Category.id c (categories (working s)) is None
                  then true else false
              | _ => false
              end
      then (Raise (NotFound "Category not found"), s)
      else
        let now := utcnow_at env (n_utcnow s) in
        match ProductService.apply_updates upd p with
        | None =>
            (Raise IntegrityError,
             mk_Session (committed s) (working s) (S (n_utcnow s)) (n_uuid4 s)
               (n_token_bytes s))
        | Some u =>
            let w := set_products
                       (alter_by Product.id (fun _ => Product.set_updated_at now u) pid
                          (products (working s))) (working s) in
            if integrity (working s) then
              (Return (Product.set_updated_at now u),
               mk_Session w w (S (n_utcnow s)) (n_uuid4 s) (n_token_bytes s))
            else
              (Raise IntegrityError,
               mk_Session (committed s) w (S (n_utcnow s)) (n_uuid4 s) (n_token_bytes s))
        end
  end.
Proof.
  unfold ProductService.update, ProductService.get_by_id.
  unfold bind at 1 2. unfold get_db at 1. unfold ret at 1.
  destruct (find_by Product.id pid (products (working s))) as [p|] eqn:Ep; [|reflexivity].
  pose proof (find_by_key _ _ _ _ Ep) as Hid.
  destruct (negb (Product.seller_id p =? User.id seller)); [reflexivity|].
  unfold bind at 1. unfold get_db at 1.
  unfold bind at 1.
  assert (Hc :
    (match ProductUpdate.category_id upd with
     | Some (Some category_id) =>
         if find_by Category.id category_id (categories (working s)) is None
         then raise (NotFound "Category not found") else ret tt
     | _ => ret tt
     end) env s =
    if match ProductUpdate.category_id upd with
       | Some (Some c) =>
           if find_by Category.id c (categories (working s)) is None then true else false
       | _ => false
       end
    then (Raise (NotFound "Category not found"), s) else (Return tt, s)).
  { destruct (ProductUpdate.category_id upd) as [[c|]|]; try reflexivity.
    destruct (find_by Category.id c (categories (working s))); reflexivity. }
  rewrite Hc. clear Hc.
  destruct (match ProductUpdate.category_id upd with
            | Some (Some c) =>
                if find_by Category.id c (categories (working s)) is None
                then true else false
            | _ => false
            end); [reflexivity|].
  unfold bind at 1. unfold utcnow at 1.
  destruct (ProductService.apply_updates upd p) as [u|] eqn:Eu; [|reflexivity].
  destruct (apply_updates_Some _ _ _ Eu) as (Hu & _).
  unfold bind at 1. unfold modify_db at 1. rewrite Hid.
  unfold bind at 1. unfold commit, flush.
  unfold bind at 1 2 3. unfold get_db at 1. cbn [working].
  assert (Hi : integrity
                 (set_products
                    (alter_by Product.id
                       (fun _ => Product.set_updated_at (utcnow_at env (n_utcnow s)) u) pid
                       (products (working s))) (working s)) = integrity (working s))
    by (apply integrity_ext; reflexivity).
  rewrite Hi. destruct (integrity (working s)); [|reflexivity].
  unfold ret at 1. cbn [working committed n_utcnow n_uuid4 n_token_bytes].
  unfold bind, get_db. cbn [working products set_products].
  rewrite (find_by_alter_product _ pid _ p); [reflexivity | | exact Ep].
  intros x _. simpl. rewrite Hu. exact Hid.
Qed.

Lemma product_delete_eval pid seller env s :
  ProductService.delete pid seller env s =
  match find_by Product.id pid (products (working s)) with
  | None => (Raise (NotFound "Product not found"), s)
  | Some p =>
      if negb (Product.seller_id p =? User.id seller) then
        (Raise (Forbidden "You can only delete your own products"), s)
      else
        let w := set_products
                   (alter_by Product.id
                      (Product.set_updated_at (utcnow_at env (n_utcnow s))) pid
                      (alter_by Product.id (Product.set_is_active false) pid
                         (products (working s)))) (working s) in
        if integrity (working s) then
          (Return true, mk_Session w w (S (n_utcnow s)) (n_uuid4 s) (n_token_bytes s))
        else
          (Raise IntegrityError,
           mk_Session (committed s) w (S (n_utcnow s)) (n_uuid4 s) (n_token_bytes s))
  end.
Proof.
  unfold ProductService.delete, ProductService.get_by_id.
  unfold bind at 1 2. unfold get_db at 1. unfold ret at 1.
  destruct (find_by Product.id pid (products (working s))) as [p|] eqn:Ep; [|reflexivity].
  rewrite (find_by_key _ _ _ _ Ep).
  destruct (negb (Product.seller_id p =? User.id seller)); [reflexivity|].
  unfold commit, flush. unfold bind, modify_db, utcnow, get_db, ret, raise.
  cbn [n_utcnow committed working n_uuid4 n_token_bytes].
  match goal with |- context [integrity (set_products ?x ?y)] =>
    assert (Hi : integrity (set_products x y) = integrity (working s))
      by (apply integrity_ext; reflexivity);
    rewrite Hi
  end.
  destruct (integrity (working s)); reflexivity.
Qed.

(** X13.  The failures of a product update come in this order: an
    unknown product (404), a product of another seller (403), a category
    that does not exist (404), and a null sent for a NOT NULL column,
    which the database refuses at the commit; each leaves the database as
    it was. *)
Theorem product_update_failure_precedence :
  forall pid upd seller env d,
    (find_by Product.id pid (products d) = None ->
     request (ProductService.update pid upd seller) env d =
     (Raise (NotFound "Product not found"), d)) /\
    (forall p,
       find_by Product.id pid (products d) = Some p ->
       Product.seller_id p <> User.id seller ->
       request (ProductService.update pid upd seller) env d =
       (Raise (Forbidden "You can only update your own products"), d)) /\
    (forall p,
       find_by Product.id pid (products d) = Some p ->
       Product.seller_id p = User.id seller ->
       ~ category_known d upd ->
       request (ProductService.update pid upd seller) env d =
       (Raise (NotFound "Category not found"), d)) /\
    (forall p,
       find_by Product.id pid (products d) = Some p ->
       Product.seller_id p = User.id seller ->
       category_known d upd ->
       nulls_required upd ->
       request (ProductService.update pid upd seller) env d = (Raise IntegrityError, d)).
Proof.
  intros pid upd seller env d. unfold request. rewrite product_update_eval.
  cbn [begin working committed n_utcnow n_uuid4 n_token_bytes].
  split; [|split; [|split]].
  - intros ->. reflexivity.
  - intros p -> Hs. apply Z.eqb_neq in Hs. rewrite Hs. reflexivity.
  - intros p -> Hs Hc. apply Z.eqb_eq in Hs. rewrite Hs. simpl.
    unfold category_known in Hc.
    destruct (ProductUpdate.category_id upd) as [[c|]|]; try (exfalso; apply Hc; exact I).
    destruct (find_by Category.id c (categories d)); [|reflexivity].
    exfalso. apply Hc. discriminate.
  - intros p -> Hs Hc Hn. apply Z.eqb_eq in Hs. rewrite Hs. simpl.
    unfold category_known in Hc.
    apply (apply_updates_None upd p) in Hn. rewrite Hn.
    destruct (ProductUpdate.category_id upd) as [[c|]|]; try reflexivity.
    destruct (find_by Category.id c (categories d)); [reflexivity|].
    exfalso. apply Hc. reflexivity.
Qed.

(** X14.  A successful product update is the owner's, changes one
    product and of it only the fields the request names and updated_at:
    id, seller_id and created_at are kept, an unset field keeps its
    value, and every other product and every other table is as it was. *)
Theorem product_update_changes_named_fields :
  forall pid upd seller env d p' d',
    request (ProductService.update pid upd seller) env d = (Return p', d') ->
    exists p,
      find_by Product.id pid (products d) = Some p /\
      Product.seller_id p = User.id seller /\
      category_known d upd /\
      Product.id p' = pid /\
      Product.seller_id p' = Product.seller_id p /\
      Product.created_at p' = Product.created_at p /\
      Product.updated_at p' = utcnow_at env 0 /\
      updated_required (ProductUpdate.name upd) (Product.name p) (Product.name p') /\
      updated_required (ProductUpdate.description upd) (Product.description p)
        (Product.description p') /\
      updated_required (ProductUpdate.price upd) (Product.price p) (Product.price p') /\
      updated_required (ProductUpdate.stock upd) (Product.stock p) (Product.stock p') /\
      updated_nullable (ProductUpdate.category_id upd) (Product.category_id p)
        (Product.category_id p') /\
      updated_nullable (ProductUpdate.image_urls upd) (Product.image_urls p)
        (Product.image_urls p') /\
      updated_required (ProductUpdate.is_active upd) (Product.is_active p)
        (Product.is_active p') /\
      find_by Product.id pid (products d') = Some p' /\
      Forall2 (fun q q' => if Product.id q =? pid then q' = p' else q' = q)
        (products d) (products d') /\
      same_but_products d d'.
Proof.
  intros pid upd seller env d p' d' H. unfold request in H.
  rewrite product_update_eval in H.
  cbn [begin working committed n_utcnow n_uuid4 n_token_bytes] in H.
  destruct (find_by Product.id pid (products d)) as [p|] eqn:Ep; [|discriminate H].
  destruct (Z.eqb_spec (Product.seller_id p) (User.id seller)) as [Hs|Hs];
    [|discriminate H].
  simpl negb in H. cbv iota in H.
  assert (Hc : category_known d upd).
  { unfold category_known.
    destruct (ProductUpdate.category_id upd) as [[c|]|]; try exact I.
    destruct (find_by Category.id c (categories d)); [discriminate | discriminate H]. }
  destruct (match ProductUpdate.category_id upd with
            | Some (Some c) =>
                if find_by Category.id c (categories d) is None then true else false
            | _ => false
            end); [discriminate H|].
  destruct (ProductService.apply_updates upd p) as [u|] eqn:Eu; [|discriminate H].
  cbv zeta in H.
  destruct (integrity d); [|discriminate H].
  injection H as <- <-.
  destruct (apply_updates_Some _ _ _ Eu)
    as (Hid & Hse & Hcr & _ & Hn & Hde & Hpr & Hst & Hca & Him & Hac).
  pose proof (find_by_key _ _ _ _ Ep) as Hp.
  exists p. simpl.
  split; [reflexivity|]. split; [exact Hs|]. split; [exact Hc|].
  split; [congruence|]. split; [exact Hse|]. split; [exact Hcr|].
  split; [reflexivity|].
  split; [exact Hn|]. split; [exact Hde|]. split; [exact Hpr|]. split; [exact Hst|].
  split; [exact Hca|]. split; [exact Him|]. split; [exact Hac|].
  split; [|split].
  - apply (find_by_alter_product
             (fun _ => Product.set_updated_at (utcnow_at env 0) u) pid (products d) p);
      [|exact Ep].
    intros x _. simpl. congruence.
  - unfold alter_by. apply Forall2_map_same. intros x.
    destruct (Product.id x =? pid); reflexivity.
  - repeat split.
Qed.

(** X15.  A product update or delete that fails, with whatever
    exception, leaves the database exactly as it was. *)
Theorem product_update_and_delete_failures_commit_nothing :
  forall pid seller env d e d',
    (forall upd,
       request (ProductService.update pid upd seller) env d = (Raise e, d') -> d' = d) /\
    (request (ProductService.delete pid seller) env d = (Raise e, d') -> d' = d).
Proof.
  intros pid seller env d e d'. split.
  - intros upd H. apply request_Raise in H as (s' & H & <-).
    rewrite product_update_eval in H.
    cbn [begin working committed n_utcnow n_uuid4 n_token_bytes] in H.
    repeat case_match; try discriminate H; injection H as _ <-; reflexivity.
  - intros H. apply request_Raise in H as (s' & H & <-).
    rewrite product_delete_eval in H.
    cbn [begin working committed n_utcnow n_uuid4 n_token_bytes] in H.
    repeat case_match; try discriminate H; injection H as _ <-; reflexivity.
Qed.

(** The order response reads the products for their names only. *)
Lemma build_order_response_names d d' :
  (forall k, Product.name <$> find_by Product.id k (products d') =
             Product.name <$> find_by Product.id k (products d)) ->
  forall order, OrdersAPI.build_order_response d' order =
                OrdersAPI.build_order_response d order.
Proof.
  intros Hn [o its]. unfold OrdersAPI.build_order_response.
  assert (E : OrdersAPI.items_responses d' its = OrdersAPI.items_responses d its).
  { induction its as [|it its IH]; simpl; [reflexivity|]. rewrite IH.
    unfold OrdersAPI.item_response. specialize (Hn (OrderItem.product_id it)).
    destruct (find_by Product.id (OrderItem.product_id it) (products d')),
             (find_by Product.id (OrderItem.product_id it) (products d));
      simpl in Hn; try discriminate Hn; [|reflexivity].
    injection Hn as ->. reflexivity. }
  rewrite E. reflexivity.
Qed.

(** X16.  delete is a soft delete by the owner: the row stays, with
    is_active false and a new updated_at and nothing else changed; every
    other product and every other table is as it was, so every order
    still shows the deleted product by its name. *)
Theorem product_delete_is_soft :
  forall pid seller env d b d',
    request (ProductService.delete pid seller) env d = (Return b, d') ->
    b = true /\
    (exists p,
       find_by Product.id pid (products d) = Some p /\
       Product.seller_id p = User.id seller /\
       find_by Product.id pid (products d') =
       Some (Product.set_updated_at (utcnow_at env 0) (Product.set_is_active false p))) /\
    Forall2 (fun q q' =>
               if Product.id q =? pid
               then same_but_active q q' /\ Product.is_active q' = false /\
                    Product.updated_at q' = utcnow_at env 0
               else q' = q)
      (products d) (products d') /\
    same_but_products d d' /\
    (forall order, OrdersAPI.build_order_response d' order =
                   OrdersAPI.build_order_response d order).
Proof.
  intros pid seller env d b d' H. unfold request in H.
  rewrite product_delete_eval in H.
  cbn [begin working committed n_utcnow n_uuid4 n_token_bytes] in H.
  destruct (find_by Product.id pid (products d)) as [p|] eqn:Ep; [|discriminate H].
  destruct (Z.eqb_spec (Product.seller_id p) (User.id seller)) as [Hs|Hs];
    [|discriminate H].
  simpl negb in H. cbv iota zeta in H.
  destruct (integrity d); [|discriminate H].
  injection H as <- <-. split; [reflexivity|]. split; [|split; [|split]].
  - exists p. split; [reflexivity|]. split; [exact Hs|]. simpl.
    apply (find_by_alter_product (Product.set_updated_at (utcnow_at env 0)));
      [intros x Hx; exact Hx|].
    apply (find_by_alter_product (Product.set_is_active false));
      [intros x Hx; exact Hx | exact Ep].
  - simpl. unfold alter_by. rewrite List.map_map. apply Forall2_map_same. intros x.
    destruct (Z.eqb_spec (Product.id x) pid) as [E|E].
    + simpl. rewrite E, Z.eqb_refl. simpl. repeat split.
    + apply Z.eqb_neq in E. rewrite E. reflexivity.
  - repeat split.
  - apply build_order_response_names. intros k. simpl. unfold alter_by.
    rewrite List.map_map.
    rewrite (find_by_map Product.id).
    + destruct (find_by Product.id k (products d)) as [q|]; [|reflexivity]. simpl.
      destruct (Product.id q =? pid) eqn:E; simpl; rewrite ?E; reflexivity.
    + intros r. destruct (Product.id r =? pid) eqn:E; simpl; rewrite ?E; reflexivity.
Qed.

(** X17.  A deleted product blocks the checkout of every cart that holds
    it: when the lines before it pass, checkout raises the
    product-unavailable rejection, by the product's name, and writes
    nothing. *)
Theorem deleted_product_blocks_checkout :
  forall pid seller env d b d' checkout_data user env' u pre c post,
    request (ProductService.delete pid seller) env d = (Return b, d') ->
    find_by User.id (User.id user) (users d') = Some u ->
    cart_items_of d' (User.id user) = pre ++ c :: post ->
    CartItem.product_id c = pid ->
    Forall (acceptable d') pre ->
    exists p,
      find_by Product.id pid (products d) = Some p /\
      request (OrderService.checkout checkout_data user) env' d' =
      (Raise (ProductUnavailable (Product.name p)), d').
Proof.
  intros pid seller env d b d' data user env' u pre c post H Hu Hcart Hc Hpre.
  apply product_delete_is_soft in H as (_ & (p & Ep & _ & Ep') & _).
  exists p. split; [exact Ep|].
  unfold request.
  rewrite (checkout_rejects data user env' (begin d') u pre c post
             (ProductUnavailable (Product.name p))); [reflexivity | exact Hu | exact Hcart
             | exact Hpre |].
  unfold rejects. simpl. rewrite Hc, Ep'. left. split; reflexivity.
Qed.

(** X18.  The soft delete of an active product is undone by an update:
    after the delete, the owner's update that sends only is_active true
    succeeds and gives the product back as it was before the delete, but
    for updated_at.  delete does not look at is_active: after the delete
    of a product that was already inactive the same update succeeds as
    well, and leaves the product active. *)
Theorem product_delete_undone_by_update :
  forall pid seller env d b d' env',
    request (ProductService.delete pid seller) env d = (Return b, d') ->
    exists p d'',
      find_by Product.id pid (products d) = Some p /\
      request (ProductService.update pid
                 (ProductUpdate.mk None None None None None None (Some (Some true)))
                 seller) env' d' =
      (Return (Product.set_updated_at (utcnow_at env' 0) (Product.set_is_active true p)),
       d'') /\
      find_by Product.id pid (products d'') =
      Some (Product.set_updated_at (utcnow_at env' 0) (Product.set_is_active true p)) /\
      (Product.is_active p = true ->
       request (ProductService.update pid
                  (ProductUpdate.mk None None None None None None (Some (Some true)))
                  seller) env' d' =
       (Return (Product.set_updated_at (utcnow_at env' 0) p), d'') /\
       find_by Product.id pid (products d'') =
       Some (Product.set_updated_at (utcnow_at env' 0) p)).
Proof.
  intros pid seller env d b d' env' H.
  pose proof H as H0. unfold request in H0. rewrite product_delete_eval in H0.
  cbn [begin working committed n_utcnow n_uuid4 n_token_bytes] in H0.
  apply product_delete_is_soft in H as (_ & (p & Ep & Hs & Ep') & _ & Hsame & _).
  rewrite Ep in H0. apply Z.eqb_eq in Hs. rewrite Hs in H0. simpl negb in H0.
  cbv iota zeta in H0.
  destruct (integrity d) eqn:Hi; [|discriminate H0].
  injection H0 as _ Hd'.
  assert (Hi' : integrity d' = true).
  { rewrite <- Hi, <- Hd'. apply integrity_ext; reflexivity. }
  assert (Hreq :
    request (ProductService.update pid
               (ProductUpdate.mk None None None None None None (Some (Some true)))
               seller) env' d' =
    (Return (Product.set_updated_at (utcnow_at env' 0) (Product.set_is_active true p)),
     set_products
       (alter_by Product.id
          (fun _ => Product.set_updated_at (utcnow_at env' 0)
                      (Product.set_is_active true p)) pid (products d')) d')).
  { unfold request. rewrite product_update_eval.
    cbn [begin working committed n_utcnow n_uuid4 n_token_bytes].
    rewrite Ep'. simpl. rewrite Hs. simpl. rewrite Hi'. reflexivity. }
  assert (Hfind :
    find_by Product.id pid
      (alter_by Product.id
         (fun _ => Product.set_updated_at (utcnow_at env' 0)
                     (Product.set_is_active true p)) pid (products d')) =
    Some (Product.set_updated_at (utcnow_at env' 0) (Product.set_is_active true p))).
  { apply (find_by_alter_product
             (fun _ => Product.set_updated_at (utcnow_at env' 0)
                         (Product.set_is_active true p)) pid (products d')
             (Product.set_updated_at (utcnow_at env 0) (Product.set_is_active false p)));
      [|exact Ep'].
    intros x _. simpl. exact (find_by_key _ _ _ _ Ep). }
  exists p. eexists. split; [exact Ep|]. split; [exact Hreq|]. split; [exact Hfind|].
  intros Ha.
  assert (E : Product.set_updated_at (utcnow_at env' 0) (Product.set_is_active true p) =
              Product.set_updated_at (utcnow_at env' 0) p).
  { destruct p. simpl in Ha. subst. reflexivity. }
  rewrite <- E. split; [exact Hreq | exact Hfind].
Qed.

(** ** The order endpoints *)

Lemma get_current_buyer_run user env s :
  Security.get_current_buyer user env s =
  match User.role user with
  | BUYER => (Return user, s)
  | _ => (Raise (Forbidden "Only buyers can access this"), s)
  end.
Proof. unfold Security.get_current_buyer. destruct (User.role user); reflexivity. Qed.

Lemma get_current_admin_run user env s :
  Security.get_current_admin user env s =
  match User.role user with
  | ADMIN => (Return user, s)
  | _ => (Raise (Forbidden "Only admins can access this"), s)
  end.
Proof. unfold Security.get_current_admin. destruct (User.role user); reflexivity. Qed.

Lemma items_responses_Some d its rs :
  OrdersAPI.items_responses d its = Some rs -> Forall2 (shows d) its rs.
Proof.
  revert rs. induction its as [|it its IH]; simpl; intros rs H.
  { injection H as <-. constructor. }
  unfold OrdersAPI.item_response in H.
  destruct (find_by Product.id (OrderItem.product_id it) (products d)) as [p|] eqn:Ep;
    [|discriminate H].
  destruct (OrdersAPI.items_responses d its) as [rs'|]; [|discriminate H].
  injection H as <-. constructor; [|apply IH; reflexivity].
  unfold shows. rewrite Ep. simpl. repeat split.
Qed.

Lemma items_responses_None d its :
  OrdersAPI.items_responses d its = None <->
  exists it, In it its /\ find_by Product.id (OrderItem.product_id it) (products d) = None.
Proof.
  induction its as [|it its IH]; simpl.
  { split; [discriminate | intros (it & [] & _)]. }
  unfold OrdersAPI.item_response.
  destruct (find_by Product.id (OrderItem.product_id it) (products d)) as [p|] eqn:Ep.
  - destruct (OrdersAPI.items_responses d its) as [rs|].
    + split; [discriminate|]. intros (it' & [<-|Hin] & Hn); [congruence|].
      exfalso. assert (Hf : Some rs = None) by (apply IH; exists it'; auto).
      discriminate Hf.
    + split; [|reflexivity]. intros _.
      destruct IH as [IH _]. destruct (IH eq_refl) as (it' & Hin & Hn).
      exists it'. auto.
  - split; [|reflexivity]. intros _. exists it. auto.
Qed.

(** X19.  The order response is built exactly when every item of the
    order has its product row; it then repeats the order's columns and
    lists one line per item, in order: the item's quantity and price
    snapshot, their product as subtotal, and the name the product has
    now. *)
Theorem order_response_needs_every_product :
  forall d o its,
    (OrdersAPI.build_order_response d (o, its) = None <->
     exists it, In it its /\
                find_by Product.id (OrderItem.product_id it) (products d) = None) /\
    (forall r, OrdersAPI.build_order_response d (o, its) = Some r -> response_of d o its r).
Proof.
  intros d o its. unfold OrdersAPI.build_order_response. split.
  - rewrite <- items_responses_None.
    destruct (OrdersAPI.items_responses d its); split; congruence.
  - intros r H.
    destruct (OrdersAPI.items_responses d its) as [rs|] eqn:E; [|discriminate H].
    injection H as <-. unfold response_of. simpl.
    repeat (split; [reflexivity|]). apply items_responses_Some. exact E.
Qed.

Lemma get_order_eval oid user env s :
  OrdersAPI.get_order oid user env s =
  match User.role user with
  | BUYER =>
      match find_by Order.id oid (orders (working s)) with
      | None => (Raise (NotFound "Order not found"), s)
      | Some o =>
          if Order.buyer_id o =? User.id user then
            (Return (OrdersAPI.build_order_response (working s)
                       (o, items_of (working s) oid)), s)
          else (Raise (Forbidden "Not your order"), s)
      end
  | _ => (Raise (Forbidden "Only buyers can access this"), s)
  end.
Proof.
  unfold OrdersAPI.get_order. unfold bind at 1. rewrite get_current_buyer_run.
  destruct (User.role user); try reflexivity.
  unfold bind at 1. rewrite get_by_id_run.
  destruct (find_by Order.id oid (orders (working s))) as [o|]; [|reflexivity].
  simpl. destruct (Order.buyer_id o =? User.id user); reflexivity.
Qed.

(** X20.  get_order answers the owning buyer only, and writes nothing:
    whoever is not a buyer is refused first (403), then an unknown order
    is reported (404), then an order of another buyer is refused (403);
    a response is given only to a buyer, for an order of their own. *)
Theorem get_order_owner_only :
  forall oid user env d,
    (User.role user <> BUYER ->
     request (OrdersAPI.get_order oid user) env d =
     (Raise (Forbidden "Only buyers can access this"), d)) /\
    (User.role user = BUYER ->
     find_by Order.id oid (orders d) = None ->
     request (OrdersAPI.get_order oid user) env d =
     (Raise (NotFound "Order not found"), d)) /\
    (forall o,
       User.role user = BUYER ->
       find_by Order.id oid (orders d) = Some o ->
       Order.buyer_id o <> User.id user ->
       request (OrdersAPI.get_order oid user) env d =
       (Raise (Forbidden "Not your order"), d)) /\
    (forall resp d',
       request (OrdersAPI.get_order oid user) env d = (Return resp, d') ->
       d' = d /\ User.role user = BUYER /\
       exists o,
         find_by Order.id oid (orders d) = Some o /\
         Order.buyer_id o = User.id user /\
         resp = OrdersAPI.build_order_response d (o, items_of d oid)).
Proof.
  intros oid user env d. unfold request. rewrite get_order_eval.
  cbn [begin working committed].
  split; [|split; [|split]].
  - intros Hr. destruct (User.role user); [congruence | reflexivity | reflexivity].
  - intros -> ->. reflexivity.
  - intros o -> -> Hb. apply Z.eqb_neq in Hb. rewrite Hb. reflexivity.
  - intros resp d' H.
    destruct (User.role user); try discriminate H.
    destruct (find_by Order.id oid (orders d)) as [o|] eqn:Eo; [|discriminate H].
    destruct (Z.eqb_spec (Order.buyer_id o) (User.id user)) as [Hb|Hb];
      [|discriminate H].
    injection H as <- <-. split; [reflexivity|]. split; [reflexivity|].
    exists o. auto.
Qed.



Lemma Forall2_In_right {A B} (P : A -> B -> Prop) l k y :
  Forall2 P l k -> In y k -> exists x, In x l /\ P x y.
Proof.
  induction 1 as [|x y' l k HP _ IH]; intros Hin; [destruct Hin|].
  destruct Hin as [<-|Hin]; [exists x; simpl; auto|].
  destruct (IH Hin) as (x' & Hx' & HP'). exists x'. simpl. auto.
Qed.




Lemma build_order_responses_Some d page :
  (forall o its it, In (o, its) page -> In it its ->
     find_by Product.id (OrderItem.product_id it) (products d) <> None) ->
  exists rs,
    OrdersAPI.build_order_responses d page = Some rs /\
    Forall2 (fun lo r => response_of d (fst lo) (snd lo) r) page rs.
Proof.
  induction page as [|[o its] page IH]; intros Hex;
    cbn [OrdersAPI.build_order_responses].
  { exists []. split; [reflexivity | constructor]. }
  destruct (OrdersAPI.build_order_response d (o, its)) as [r|] eqn:Er.
  2:{ exfalso.
      apply (proj1 (order_response_needs_every_product d o its)) in Er
        as (it & Hin & Hn).
      exact (Hex o its it (or_introl eq_refl) Hin Hn). }
  destruct IH as (rs & -> & Hrs).
  { intros o' its' it Hin. apply (Hex o' its' it). right. exact Hin. }
  exists (r :: rs). split; [reflexivity|]. constructor; [|exact Hrs].
  simpl. apply (proj2 (order_response_needs_every_product d o its) r Er).
Qed.

(** What a listing endpoint answers with the page of a query. *)
Lemma listing_response order_by where_ skip limit d :
  orders_by_created_at_desc order_by ->
  order_items_reference_products d ->
  exists rs,
    OrdersAPI.build_order_responses d
      (OrderService.select_orders order_by where_ skip limit d) = Some rs /\
    length rs = Nat.min limit (length (List.filter where_ (orders d)) - skip) /\
    (forall r, In r rs ->
       exists o, In o (List.filter where_ (orders d)) /\
                 response_of d o (items_of d (Order.id o)) r).
Proof.
  intros Hob Hfk.
  destruct (select_orders_spec order_by where_ skip limit d Hob) as (Hlen & _ & Hin & _).
  destruct (build_order_responses_Some d
              (OrderService.select_orders order_by where_ skip limit d))
    as (rs & E & Hrs).
  { intros o its it Ho Hit. apply Hin in Ho as [_ ->].
    apply List.filter_In in Hit as [Hit _].
    rewrite find_by_None. intros Hn. apply Hn. apply Hfk. exact Hit. }
  exists rs. split; [exact E|]. split.
  - rewrite <- (Forall2_length _ _ _ Hrs). exact Hlen.
  - intros r Hr.
    destruct (Forall2_In_right _ _ _ _ Hrs Hr) as ([o its] & Ho & Hresp).
    apply Hin in Ho as [Ho ->]. exists o. split; [exact Ho | exact Hresp].
Qed.

Lemma query_out_of_bounds skip limit :
  skip < 0 \/ limit < 1 \/ 100 < limit -> OrdersAPI.query_in_bounds skip limit = false.
Proof.
  unfold OrdersAPI.query_in_bounds. intros H.
  destruct (Z.leb_spec 0 skip), (Z.leb_spec 1 limit), (Z.leb_spec limit 100);
    simpl; try reflexivity; lia.
Qed.

Lemma query_within_bounds skip limit :
  0 <= skip -> 1 <= limit <= 100 -> OrdersAPI.query_in_bounds skip limit = true.
Proof.
  unfold OrdersAPI.query_in_bounds. intros H1 [H2 H3].
  apply Z.leb_le in H1, H2, H3. rewrite H1, H2, H3. reflexivity.
Qed.

Lemma get_my_orders_eval order_by skip limit user env s :
  OrdersAPI.get_my_orders order_by skip limit user env s =
  match User.role user with
  | BUYER =>
      if OrdersAPI.query_in_bounds skip limit then
        (Return (OrdersAPI.Listed
                   (OrderListResponse.mk (length (orders_of (working s) (User.id user))) <$>
                    OrdersAPI.build_order_responses (working s)
                      (OrderService.select_orders order_by
                         (fun o => Order.buyer_id o =? User.id user)
                         (Z.to_nat skip) (Z.to_nat limit) (working s)))),
         s)
      else (Return OrdersAPI.Unprocessable, s)
  | _ => (Raise (Forbidden "Only buyers can access this"), s)
  end.
Proof.
  unfold OrdersAPI.get_my_orders. unfold bind at 1. rewrite get_current_buyer_run.
  destruct (User.role user); try reflexivity.
  destruct (OrdersAPI.query_in_bounds skip limit); reflexivity.
Qed.

Lemma get_all_orders_endpoint_eval order_by skip limit status user env s :
  OrdersAPI.get_all_orders order_by skip limit status user env s =
  match User.role user with
  | ADMIN =>
      if OrdersAPI.query_in_bounds skip limit then
        (Return (OrdersAPI.Listed
                   (OrderListResponse.mk (length (orders_matching (working s) status)) <$>
                    OrdersAPI.build_order_responses (working s)
                      (OrderService.select_orders order_by
                         (match status with
                          | Some st => fun o => bool_decide (Order.status o = st)
                          | None => fun _ => true
                          end) (Z.to_nat skip) (Z.to_nat limit) (working s)))),
         s)
      else (Return OrdersAPI.Unprocessable, s)
  | _ => (Raise (Forbidden "Only admins can access this"), s)
  end.
Proof.
  unfold OrdersAPI.get_all_orders. unfold bind at 1. rewrite get_current_admin_run.
  destruct (User.role user); try reflexivity.
  destruct (OrdersAPI.query_in_bounds skip limit); [|reflexivity].
  change (negb true) with false. cbv iota.
  unfold bind at 1. rewrite get_all_orders_run. reflexivity.
Qed.

(** X23.  get_my_orders refuses whoever is not a buyer (403), then a
    query outside its bounds (skip below 0, limit below 1 or above 100:
    422); neither writes.  To a buyer whose query is within bounds it
    shows their own orders and no one else's: the total counts them all,
    and the page lists min(limit, total - skip) of them, at most 100,
    each as the response of one of the buyer's orders with its items. *)
Theorem get_my_orders_lists_own_orders :
  forall order_by skip limit user env d,
    (User.role user <> BUYER ->
     request (OrdersAPI.get_my_orders order_by skip limit user) env d =
     (Raise (Forbidden "Only buyers can access this"), d)) /\
    (User.role user = BUYER ->
     skip < 0 \/ limit < 1 \/ 100 < limit ->
     request (OrdersAPI.get_my_orders order_by skip limit user) env d =
     (Return OrdersAPI.Unprocessable, d)) /\
    (User.role user = BUYER ->
     0 <= skip -> 1 <= limit <= 100 ->
     orders_by_created_at_desc order_by ->
     order_items_reference_products d ->
     exists rs,
       request (OrdersAPI.get_my_orders order_by skip limit user) env d =
       (Return (OrdersAPI.Listed
                  (Some (OrderListResponse.mk (length (orders_of d (User.id user))) rs))),
        d) /\
       length rs =
         Nat.min (Z.to_nat limit) (length (orders_of d (User.id user)) - Z.to_nat skip) /\
       (length rs <= 100)%nat /\
       (forall r, In r rs ->
          exists o, In o (orders d) /\ Order.buyer_id o = User.id user /\
                    response_of d o (items_of d (Order.id o)) r)).
Proof.
  intros order_by skip limit user env d. unfold request. rewrite get_my_orders_eval.
  cbn [begin working committed]. split; [|split].
  - intros Hr. destruct (User.role user); [congruence | reflexivity | reflexivity].
  - intros -> Hq. rewrite (query_out_of_bounds _ _ Hq). reflexivity.
  - intros -> Hs Hl Hob Hfk. rewrite (query_within_bounds _ _ Hs Hl).
    destruct (listing_response order_by (fun o => Order.buyer_id o =? User.id user)
                (Z.to_nat skip) (Z.to_nat limit) d Hob Hfk) as (rs & -> & Hlen & Hin).
    exists rs. split; [reflexivity|]. split; [exact Hlen|]. split.
    { rewrite Hlen. lia. }
    intros r Hr. destruct (Hin r Hr) as (o & Ho & Hresp).
    apply List.filter_In in Ho as [Ho Hb]. apply Z.eqb_eq in Hb.
    exists o. auto.
Qed.

(** X24.  The listing of all orders is the admins': anyone else is
    refused (403); then a query outside its bounds (skip below 0, limit
    below 1 or above 100) is refused (422); neither writes.  An admin
    whose query is within bounds gets the count of the orders the status
    filter selects (of all orders without a filter) and a page of
    min(limit, total - skip) of them, at most 100, each in the status
    asked for. *)
Theorem get_all_orders_admin_only :
  forall order_by skip limit status user env d,
    (User.role user <> ADMIN ->
     request (OrdersAPI.get_all_orders order_by skip limit status user) env d =
     (Raise (Forbidden "Only admins can access this"), d)) /\
    (User.role user = ADMIN ->
     skip < 0 \/ limit < 1 \/ 100 < limit ->
     request (OrdersAPI.get_all_orders order_by skip limit status user) env d =
     (Return OrdersAPI.Unprocessable, d)) /\
    (User.role user = ADMIN ->
     0 <= skip -> 1 <= limit <= 100 ->
     orders_by_created_at_desc order_by ->
     order_items_reference_products d ->
     exists rs,
       request (OrdersAPI.get_all_orders order_by skip limit status user) env d =
       (Return (OrdersAPI.Listed
                  (Some (OrderListResponse.mk (length (orders_matching d status)) rs))),
        d) /\
       length rs =
         Nat.min (Z.to_nat limit) (length (orders_matching d status) - Z.to_nat skip) /\
       (length rs <= 100)%nat /\
       (forall r, In r rs ->
          exists o, In o (orders d) /\
                    response_of d o (items_of d (Order.id o)) r /\
                    forall st, status = Some st -> OrderResponse.status r = st)).
Proof.
  intros order_by skip limit status user env d. unfold request.
  rewrite get_all_orders_endpoint_eval. cbn [begin working committed].
  split; [|split].
  - intros Hr. destruct (User.role user); [reflexivity | reflexivity | congruence].
  - intros -> Hq. rewrite (query_out_of_bounds _ _ Hq). reflexivity.
  - intros -> Hs Hl Hob Hfk. rewrite (query_within_bounds _ _ Hs Hl).
    destruct (listing_response order_by
                (match status with
                 | Some st => fun o => bool_decide (Order.status o = st)
                 | None => fun _ => true
                 end) (Z.to_nat skip) (Z.to_nat limit) d Hob Hfk)
      as (rs & -> & Hlen & Hin).
    assert (E : List.filter
                  (match status with
                   | Some st => fun o => bool_decide (Order.status o = st)
                   | None => fun _ => true
                   end) (orders d) = orders_matching d status).
    { destruct status; [reflexivity | apply filter_all]. }
    rewrite E in Hlen.
    exists rs. split; [reflexivity|]. split; [exact Hlen|]. split.
    { rewrite Hlen. lia. }
    intros r Hr. destruct (Hin r Hr) as (o & Ho & Hresp).
    apply List.filter_In in Ho as [Ho Hst].
    exists o. split; [exact Ho|]. split; [exact Hresp|].
    intros st ->. apply bool_decide_eq_true in Hst.
    destruct Hresp as (_ & _ & -> & _). exact Hst.
Qed.

(** ** The cart *)

Lemma in_cart_total_weight d uid pid :
  in_cart d uid pid = total_weight (line_weight uid pid) (cart_items d).
Proof.
  unfold in_cart, cart_items_of.
  induction (cart_items d) as [|c l IH]; simpl; [reflexivity|].
  unfold line_weight at 1.
  destruct (CartItem.user_id c =? uid); simpl; rewrite IH; reflexivity.
Qed.

Lemma total_weight_app {A} (w : A -> Z) l1 l2 :
  total_weight w (l1 ++ l2) = total_weight w l1 + total_weight w l2.
Proof. induction l1 as [|x l1 IH]; simpl; [reflexivity | rewrite IH; lia]. Qed.

Lemma total_weight_filter_none {A} (w : A -> Z) (f : A -> bool) l :
  (forall x, f x = false -> w x = 0) ->
  List.filter f l = [] -> total_weight w l = 0.
Proof.
  intros Hw. induction l as [|x l IH]; simpl; [reflexivity|].
  destruct (f x) eqn:E; [discriminate|]. intros H. rewrite (Hw x E), IH; auto.
Qed.

Lemma alter_by_fresh {A} (key : A -> Z) f k l :
  ~ In k (List.map key l) -> alter_by key f k l = l.
Proof.
  induction l as [|x l IH]; simpl; intros H; [reflexivity|].
  destruct (Z.eqb_spec (key x) k) as [E|E]; [exfalso; auto|].
  f_equal. apply IH. auto.
Qed.

(** Mutating the row of a primary key moves the sum by what that row
    gains. *)
Lemma total_weight_alter {A} (key : A -> Z) (w : A -> Z) f c l :
  NoDup (List.map key l) -> In c l ->
  total_weight w (alter_by key f (key c) l) = total_weight w l + (w (f c) - w c).
Proof.
  induction l as [|x l IH]; simpl; intros Hnd Hin; [destruct Hin|].
  apply NoDup_cons in Hnd as [Hx Hnd].
  destruct Hin as [->|Hin].
  - rewrite Z.eqb_refl.
    change (List.map (fun r => if key r =? key c then f r else r) l)
      with (alter_by key f (key c) l).
    rewrite alter_by_fresh; [lia|].
    intros H. apply Hx. apply list_elem_of_In. exact H.
  - destruct (Z.eqb_spec (key x) (key c)) as [E|E].
    + exfalso. apply Hx. rewrite E. apply list_elem_of_In, List.in_map. exact Hin.
    + change (List.map (fun r => if key r =? key c then f r else r) l)
        with (alter_by key f (key c) l).
      rewrite IH by assumption. lia.
Qed.

Lemma cart_commit_run env (w : DB) c n u t :
  commit env (mk_Session c w n u t) =
  if integrity w then (Return tt, mk_Session w w n u t)
  else (Raise IntegrityError, mk_Session c w n u t).
Proof.
  unfold commit, flush, bind, get_db, ret, raise. simpl.
  destruct (integrity w); reflexivity.
Qed.

Lemma add_to_cart_eval cart_data user env s :
  CartService.add_to_cart cart_data user env s =
  let d := working s in
  let uid := User.id user in
  let pid := CartItemCreate.product_id cart_data in
  let q := CartItemCreate.quantity cart_data in
  match find_by Product.id pid (products d) with
  | None => (Return (inl CartService.ProductNotAvailable), s)
  | Some p =>
      if negb (Product.is_active p) then (Return (inl CartService.ProductNotAvailable), s)
      else if Product.stock p <? q then
        (Return (inl (CartService.OnlyInStock (Product.stock p))), s)
      else
        match List.filter (fun c => (CartItem.user_id c =? uid) &&
                                    (CartItem.product_id c =? pid)) (cart_items d) with
        | [] =>
            let c := CartItem.mk (uuid4_at env (n_uuid4 s)) q
                       (utcnow_at env (n_utcnow s)) (utcnow_at env (S (n_utcnow s)))
                       uid pid in
            let w := set_cart_items (cart_items d ++ [c]) d in
            if CartService.cart_constraints w && integrity d then
              match find_by CartItem.id (CartItem.id c) (cart_items w) with
              | Some c' =>
                  (Return (inr c'),
                   mk_Session w w (S (S (n_utcnow s))) (S (n_uuid4 s)) (n_token_bytes s))
              | None =>
                  (Raise NoResultFound,
                   mk_Session w w (S (S (n_utcnow s))) (S (n_uuid4 s)) (n_token_bytes s))
              end
            else
              (Raise IntegrityError,
               mk_Session (committed s) w (S (S (n_utcnow s))) (S (n_uuid4 s))
                 (n_token_bytes s))
        | [c] =>
            if Product.stock p <? CartItem.quantity c + q then
              (Return (inl (CartService.CannotAddMore (Product.stock p))), s)
            else
              let w := set_cart_items
                         (alter_by CartItem.id
                            (CartItem.set_quantity (CartItem.quantity c + q))
                            (CartItem.id c) (cart_items d)) d in
              if integrity d then
                match find_by CartItem.id (CartItem.id c) (cart_items w) with
                | Some c' =>
                    (Return (inr c'),
                     mk_Session w w (n_utcnow s) (n_uuid4 s) (n_token_bytes s))
                | None =>
                    (Raise NoResultFound,
                     mk_Session w w (n_utcnow s) (n_uuid4 s) (n_token_bytes s))
                end
              else
                (Raise IntegrityError,
                 mk_Session (committed s) w (n_utcnow s) (n_uuid4 s) (n_token_bytes s))
        | _ :: _ :: _ => (Return (inl CartService.MultipleResultsFound), s)
        end
  end.
Proof.
  cbv zeta. unfold CartService.add_to_cart.
  unfold bind at 1. unfold get_db at 1.
  destruct (find_by Product.id (CartItemCreate.product_id cart_data)
              (products (working s))) as [p|]; [|reflexivity].
  destruct (negb (Product.is_active p)); [reflexivity|].
  destruct (Product.stock p <? CartItemCreate.quantity cart_data); [reflexivity|].
  unfold bind at 1. unfold CartService.get_cart_item.
  unfold bind at 1. unfold get_db at 1. unfold ret at 1.
  destruct (List.filter _ (cart_items (working s))) as [|c [|c' l]]; [| |reflexivity].
  - unfold bind at 1. unfold uuid4 at 1.
    unfold bind at 1. unfold utcnow at 1.
    unfold bind at 1. unfold utcnow at 1.
    cbn [committed working n_utcnow n_uuid4 n_token_bytes].
    unfold bind at 1. unfold modify_db at 1.
    cbn [committed working n_utcnow n_uuid4 n_token_bytes].
    unfold bind at 1. unfold bind at 1. unfold get_db at 1.
    cbn [committed working n_utcnow n_uuid4 n_token_bytes].
    destruct (CartService.cart_constraints _); [|reflexivity].
    unfold ret at 1. unfold bind at 1. rewrite cart_commit_run.
    assert (Hi : forall l, integrity (set_cart_items l (working s)) = integrity (working s))
      by (intros l; apply integrity_ext; reflexivity).
    rewrite Hi. simpl andb.
    destruct (integrity (working s)); [|reflexivity].
    unfold CartService.refresh, bind, get_db.
    cbn [committed working n_utcnow n_uuid4 n_token_bytes CartItem.id].
    destruct (find_by CartItem.id _ _); reflexivity.
  - destruct (Product.stock p <? CartItem.quantity c + CartItemCreate.quantity cart_data);
      [reflexivity|].
    unfold bind at 1. unfold modify_db at 1.
    unfold bind at 1. destruct s as [cm wk n u t].
    cbn [committed working n_utcnow n_uuid4 n_token_bytes].
    rewrite cart_commit_run.
    assert (Hi : forall l, integrity (set_cart_items l wk) = integrity wk)
      by (intros l; apply integrity_ext; reflexivity).
    rewrite Hi.
    destruct (integrity wk); [|reflexivity].
    unfold CartService.refresh, bind, get_db.
    cbn [committed working n_utcnow n_uuid4 n_token_bytes].
    destruct (find_by CartItem.id _ _); reflexivity.
Qed.

Lemma find_by_unique {A} (key : A -> Z) l c :
  NoDup (List.map key l) -> In c l -> find_by key (key c) l = Some c.
Proof.
  induction l as [|x l IH]; simpl; intros Hnd Hin; [destruct Hin|].
  apply NoDup_cons in Hnd as [Hx Hnd]. unfold find_by. simpl.
  destruct Hin as [->|Hin]; [rewrite Z.eqb_refl; reflexivity|].
  destruct (Z.eqb_spec (key x) (key c)) as [E|E].
  - exfalso. apply Hx. rewrite E. apply list_elem_of_In, List.in_map. exact Hin.
  - apply IH; assumption.
Qed.

Lemma find_by_alter {A} (key : A -> Z) f l c :
  (forall x, key (f x) = key x) ->
  find_by key (key c) l = Some c ->
  find_by key (key c) (alter_by key f (key c) l) = Some (f c).
Proof.
  intros Hf H. unfold alter_by.
  rewrite (find_by_map key (fun r => if key r =? key c then f r else r) (key c) l).
  - rewrite H. simpl. rewrite Z.eqb_refl. reflexivity.
  - intros r. destruct (key r =? key c); [apply Hf | reflexivity].
Qed.

Lemma total_weight_filter (uid pid : UUID) l :
  total_weight (line_weight uid pid) l =
  total_weight CartItem.quantity
    (List.filter (fun c => (CartItem.user_id c =? uid) && (CartItem.product_id c =? pid)) l).
Proof.
  induction l as [|x l IH]; simpl; [reflexivity|]. unfold line_weight at 1.
  destruct ((CartItem.user_id x =? uid) && (CartItem.product_id x =? pid)); simpl;
    rewrite IH; reflexivity.
Qed.

Lemma line_weight_other uid pid uid' pid' c :
  CartItem.user_id c = uid -> CartItem.product_id c = pid ->
  uid' <> uid \/ pid' <> pid -> line_weight uid' pid' c = 0.
Proof.
  intros <- <- H. unfold line_weight.
  destruct (Z.eqb_spec (CartItem.user_id c) uid'), (Z.eqb_spec (CartItem.product_id c) pid');
    simpl; try reflexivity.
  exfalso. destruct H as [H|H]; apply H; congruence.
Qed.

(** The two ways in which add_to_cart succeeds. *)
Lemma add_to_cart_Return cart_data user env d item d' :
  request (CartService.add_to_cart cart_data user) env d = (Return (inr item), d') ->
  exists p,
    find_by Product.id (CartItemCreate.product_id cart_data) (products d) = Some p /\
    Product.is_active p = true /\
    CartItemCreate.quantity cart_data <= Product.stock p /\
    ((List.filter (fun c => (CartItem.user_id c =? User.id user) &&
                            (CartItem.product_id c =? CartItemCreate.product_id cart_data))
        (cart_items d) = [] /\
      item = CartItem.mk (uuid4_at env 0) (CartItemCreate.quantity cart_data)
               (utcnow_at env 0) (utcnow_at env 1) (User.id user)
               (CartItemCreate.product_id cart_data) /\
      d' = set_cart_items (cart_items d ++ [item]) d /\
      CartService.cart_constraints d' = true) \/
     (exists c,
        List.filter (fun c => (CartItem.user_id c =? User.id user) &&
                              (CartItem.product_id c =? CartItemCreate.product_id cart_data))
          (cart_items d) = [c] /\
        CartItem.quantity c + CartItemCreate.quantity cart_data <= Product.stock p /\
        d' = set_cart_items
               (alter_by CartItem.id
                  (CartItem.set_quantity
                     (CartItem.quantity c + CartItemCreate.quantity cart_data))
                  (CartItem.id c) (cart_items d)) d /\
        find_by CartItem.id (CartItem.id c) (cart_items d') = Some item)).
Proof.
  intros H. apply request_Return in H as (s' & H & <-).
  rewrite add_to_cart_eval in H. cbv zeta in H.
  cbn [begin working committed n_utcnow n_uuid4 n_token_bytes] in H.
  destruct (find_by Product.id _ (products d)) as [p|]; [|discriminate H].
  destruct (Product.is_active p) eqn:Ha; [|discriminate H]. simpl negb in H. cbv iota in H.
  destruct (Z.ltb_spec (Product.stock p) (CartItemCreate.quantity cart_data)) as [Hq|Hq];
    [discriminate H|].
  exists p. split; [reflexivity|]. split; [exact Ha|]. split; [exact Hq|].
  destruct (List.filter _ (cart_items d)) as [|c [|c' l]]; [| |discriminate H].
  - left. split; [reflexivity|].
    destruct (CartService.cart_constraints _) eqn:Hc; [|discriminate H].
    destruct (integrity d); [|discriminate H]. simpl andb in H. cbv iota in H.
    assert (Hfind : find_by CartItem.id (uuid4_at env 0)
                      (cart_items d ++
                       [CartItem.mk (uuid4_at env 0) (CartItemCreate.quantity cart_data)
                          (utcnow_at env 0) (utcnow_at env 1) (User.id user)
                          (CartItemCreate.product_id cart_data)]) =
                    Some (CartItem.mk (uuid4_at env 0) (CartItemCreate.quantity cart_data)
                            (utcnow_at env 0) (utcnow_at env 1) (User.id user)
                            (CartItemCreate.product_id cart_data))).
    { rewrite find_by_app.
      assert (Hn : find_by CartItem.id (uuid4_at env 0) (cart_items d) = None).
      { apply find_by_None. intros Hin.
        unfold CartService.cart_constraints in Hc.
        apply andb_true_iff in Hc as [Hc _]. apply andb_true_iff in Hc as [Hc _].
        apply bool_decide_eq_true in Hc. simpl in Hc.
        rewrite List.map_app in Hc. apply NoDup_app in Hc as (_ & Hc & _).
        apply (Hc (uuid4_at env 0)); [apply list_elem_of_In; exact Hin|].
        simpl. left. }
      rewrite Hn. unfold find_by. simpl. rewrite Z.eqb_refl. reflexivity. }
    cbn [CartItem.id cart_items set_cart_items] in H. rewrite Hfind in H.
    injection H as <- <-. simpl. split; [reflexivity|]. split; [reflexivity | exact Hc].
  - right. exists c. split; [reflexivity|].
    destruct (Z.ltb_spec (Product.stock p)
                (CartItem.quantity c + CartItemCreate.quantity cart_data)) as [Hn|Hn];
      [discriminate H|].
    split; [exact Hn|].
    destruct (integrity d); [|discriminate H].
    destruct (find_by CartItem.id (CartItem.id c) _) as [c'|] eqn:Ec; [|discriminate H].
    injection H as <- <-. simpl. split; [reflexivity | exact Ec].
Qed.

(** X25.  A successful add_to_cart adds the requested quantity to what
    the buyer's cart holds of the product, in a new line or in the line
    already there, which it returns; the product is active and the line
    does not exceed its stock.  Cart lines having distinct ids, no other
    quantity in any cart changes, and no other table. *)
Theorem add_to_cart_adds_the_quantity :
  forall cart_data user env d item d',
    NoDup (List.map CartItem.id (cart_items d)) ->
    request (CartService.add_to_cart cart_data user) env d = (Return (inr item), d') ->
    CartItem.user_id item = User.id user /\
    CartItem.product_id item = CartItemCreate.product_id cart_data /\
    CartItem.quantity item =
      in_cart d (User.id user) (CartItemCreate.product_id cart_data) +
      CartItemCreate.quantity cart_data /\
    In item (cart_items d') /\
    (exists p,
       find_by Product.id (CartItemCreate.product_id cart_data) (products d) = Some p /\
       Product.is_active p = true /\ CartItem.quantity item <= Product.stock p) /\
    in_cart d' (User.id user) (CartItemCreate.product_id cart_data) =
      in_cart d (User.id user) (CartItemCreate.product_id cart_data) +
      CartItemCreate.quantity cart_data /\
    (forall uid pid,
       uid <> User.id user \/ pid <> CartItemCreate.product_id cart_data ->
       in_cart d' uid pid = in_cart d uid pid) /\
    same_but_cart_items d d'.
Proof.
  intros cart_data user env d item d' Hnd H.
  apply add_to_cart_Return in H
    as (p & Ep & Ha & Hq & [(Hf & -> & -> & Hc) | (c & Hf & Hn & -> & Ec)]).
  - assert (H0 : in_cart d (User.id user) (CartItemCreate.product_id cart_data) = 0).
    { rewrite in_cart_total_weight, total_weight_filter, Hf. reflexivity. }
    rewrite H0. simpl.
    split; [reflexivity|]. split; [reflexivity|]. split; [reflexivity|].
    split; [apply List.in_or_app; right; left; reflexivity|].
    split; [exists p; auto|].
    split; [|split; [|repeat split]].
    + rewrite in_cart_total_weight. simpl. rewrite total_weight_app. simpl.
      rewrite <- in_cart_total_weight, H0.
      unfold line_weight. simpl. rewrite !Z.eqb_refl. simpl. lia.
    + intros uid pid Hother. rewrite !in_cart_total_weight. simpl.
      rewrite total_weight_app. simpl.
      rewrite (line_weight_other (User.id user) (CartItemCreate.product_id cart_data));
        [lia | reflexivity | reflexivity | exact Hother].
  - assert (Hin : In c (cart_items d) /\ CartItem.user_id c = User.id user /\
                  CartItem.product_id c = CartItemCreate.product_id cart_data).
    { assert (Hc : In c [c]) by (left; reflexivity). rewrite <- Hf in Hc.
      apply List.filter_In in Hc as [Hc Hb]. apply andb_true_iff in Hb as [Hu Hp].
      apply Z.eqb_eq in Hu, Hp. auto. }
    destruct Hin as (Hin & Hu & Hp).
    assert (H0 : in_cart d (User.id user) (CartItemCreate.product_id cart_data) =
                 CartItem.quantity c).
    { rewrite in_cart_total_weight, total_weight_filter, Hf. simpl. lia. }
    simpl in Ec.
    rewrite (find_by_alter CartItem.id _ (cart_items d) c) in Ec;
      [|reflexivity | apply find_by_unique; assumption].
    injection Ec as <-. rewrite H0. simpl.
    split; [exact Hu|]. split; [exact Hp|]. split; [reflexivity|].
    split.
    { unfold alter_by. apply List.in_map_iff. exists c.
      rewrite Z.eqb_refl. auto. }
    split; [exists p; auto|].
    split; [|split; [|repeat split]].
    + rewrite in_cart_total_weight. simpl.
      rewrite (total_weight_alter CartItem.id _ _ c _ Hnd Hin).
      rewrite <- in_cart_total_weight, H0. unfold line_weight. simpl.
      rewrite Hu, Hp, !Z.eqb_refl. simpl. lia.
    + intros uid pid Hother. rewrite !in_cart_total_weight. simpl.
      rewrite (total_weight_alter CartItem.id _ _ c _ Hnd Hin).
      rewrite !(line_weight_other (User.id user) (CartItemCreate.product_id cart_data));
        [lia | exact Hu | exact Hp | exact Hother | exact Hu | exact Hp | exact Hother].
Qed.

Lemma request_inv {A} (m : M A) env d r d' :
  request m env d = (r, d') ->
  exists s', m env (begin d) = (r, s') /\ committed s' = d'.
Proof.
  unfold request. destruct (m env (begin d)) as [r0 s0]. intros H.
  injection H as <- <-. exists s0. auto.
Qed.

(** X26.  add_to_cart refuses, in this order, a product that is missing
    or inactive, a quantity above the stock, and a quantity that, added
    to the line already in the cart, exceeds the stock; and whenever it
    does not return a cart line, whatever it answers or raises, the
    database is left as it was. *)
Theorem add_to_cart_refusals :
  forall cart_data user env d,
    (forall r d',
       request (CartService.add_to_cart cart_data user) env d = (r, d') ->
       (forall item, r <> Return (inr item)) -> d' = d) /\
    (Product.is_active <$>
       find_by Product.id (CartItemCreate.product_id cart_data) (products d) <> Some true ->
     request (CartService.add_to_cart cart_data user) env d =
     (Return (inl CartService.ProductNotAvailable), d)) /\
    (forall p,
       find_by Product.id (CartItemCreate.product_id cart_data) (products d) = Some p ->
       Product.is_active p = true ->
       Product.stock p < CartItemCreate.quantity cart_data ->
       request (CartService.add_to_cart cart_data user) env d =
       (Return (inl (CartService.OnlyInStock (Product.stock p))), d)) /\
    (forall p c,
       find_by Product.id (CartItemCreate.product_id cart_data) (products d) = Some p ->
       Product.is_active p = true ->
       CartItemCreate.quantity cart_data <= Product.stock p ->
       List.filter (fun c => (CartItem.user_id c =? User.id user) &&
                             (CartItem.product_id c =? CartItemCreate.product_id cart_data))
         (cart_items d) = [c] ->
       Product.stock p < CartItem.quantity c + CartItemCreate.quantity cart_data ->
       request (CartService.add_to_cart cart_data user) env d =
       (Return (inl (CartService.CannotAddMore (Product.stock p))), d)).
Proof.
  intros cart_data user env d. split.
  { intros r d' H Hr. apply request_inv in H as (s' & H & <-).
    rewrite add_to_cart_eval in H. cbv zeta in H.
    cbn [begin working committed n_utcnow n_uuid4 n_token_bytes] in H.
    destruct (find_by Product.id _ (products d)) as [p|];
      [|injection H as _ <-; reflexivity].
    destruct (negb (Product.is_active p)); [injection H as _ <-; reflexivity|].
    destruct (Product.stock p <? CartItemCreate.quantity cart_data);
      [injection H as _ <-; reflexivity|].
    destruct (List.filter _ (cart_items d)) as [|c [|c' l]] eqn:Hf;
      [| |injection H as _ <-; reflexivity].
    - destruct (CartService.cart_constraints _ && integrity d);
        [|injection H as _ <-; reflexivity].
      destruct (find_by CartItem.id _ _) eqn:Ec.
      + injection H as <- _. exfalso. eapply Hr. reflexivity.
      + exfalso. apply find_by_None in Ec. apply Ec. simpl.
        rewrite List.map_app. apply List.in_or_app. right. left. reflexivity.
    - destruct (Product.stock p <? _); [injection H as _ <-; reflexivity|].
      destruct (integrity d); [|injection H as _ <-; reflexivity].
      destruct (find_by CartItem.id _ _) eqn:Ec.
      + injection H as <- _. exfalso. eapply Hr. reflexivity.
      + exfalso. apply find_by_None in Ec. apply Ec. simpl.
        rewrite map_alter_by by reflexivity. apply List.in_map.
        assert (Hc : In c [c]) by (left; reflexivity). rewrite <- Hf in Hc.
        apply List.filter_In in Hc as [Hc _]. exact Hc. }
  unfold request. rewrite add_to_cart_eval. cbv zeta.
  cbn [begin working committed n_utcnow n_uuid4 n_token_bytes].
  split; [|split].
  - intros Hp.
    destruct (find_by Product.id _ (products d)) as [p|]; [|reflexivity].
    simpl in Hp.
    destruct (Product.is_active p); [exfalso; apply Hp; reflexivity | reflexivity].
  - intros p -> -> Hq. apply Z.ltb_lt in Hq. rewrite Hq. reflexivity.
  - intros p c -> -> Hq -> Hn. apply Z.ltb_ge in Hq. apply Z.ltb_lt in Hn.
    rewrite Hq, Hn. reflexivity.
Qed.




Lemma acceptable_same_products d d' c :
  products d' = products d -> acceptable d c -> acceptable d' c.
Proof. intros E (p & Hp & H). exists p. rewrite E. auto. Qed.

Lemma acceptable_not_rejected d c e : acceptable d c -> rejects d c e -> False.
Proof.
  intros (p & Ep & Ha & Hq). unfold rejects. rewrite Ep.
  intros [[Hi _] | (_ & Hs & _)]; [congruence | lia].
Qed.

(** X28.  What add_to_cart puts in the cart passes the checks of
    checkout: if the lines of the buyer's cart were acceptable before, they
    all are after a successful add_to_cart, the cart is not empty, and a
    checkout of the database as add_to_cart left it is not rejected. *)
Theorem added_line_passes_checkout :
  forall cart_data user env d item d',
    NoDup (List.map CartItem.id (cart_items d)) ->
    Forall (acceptable d) (cart_items_of d (User.id user)) ->
    request (CartService.add_to_cart cart_data user) env d = (Return (inr item), d') ->
    Forall (acceptable d') (cart_items_of d' (User.id user)) /\
    cart_items_of d' (User.id user) <> [] /\
    forall checkout_data env' e d'',
      request (OrderService.checkout checkout_data user) env' d' = (Raise e, d'') ->
      ~ rejection e.
Proof.
  intros cart_data user env d item d' Hnd Hall H.
  pose proof (add_to_cart_adds_the_quantity _ _ _ _ _ _ Hnd H)
    as (Hu & Hp & _ & Hin & (p & Ep & Ha & Hq) & _ & _ & (_ & _ & Hprod & _)).
  assert (Hitem : acceptable d' item).
  { exists p. rewrite Hprod, Hp. auto. }
  assert (Hall' : Forall (acceptable d') (cart_items_of d' (User.id user))).
  { apply add_to_cart_Return in H
      as (_ & _ & _ & _ & [(_ & _ & -> & _) | (c & Hf & _ & -> & Ec)]).
    - unfold cart_items_of. simpl. rewrite List.filter_app.
      apply Forall_app. split.
      + eapply Forall_impl; [exact Hall|]. intros x.
        apply acceptable_same_products. reflexivity.
      + simpl. rewrite Hu, Z.eqb_refl. constructor; [exact Hitem | constructor].
    - apply List.Forall_forall. intros x Hx.
      unfold cart_items_of in Hx. simpl in Hx.
      apply List.filter_In in Hx as [Hx Hxu]. unfold alter_by in Hx.
      apply List.in_map_iff in Hx as (y & Hy & Hyin).
      destruct (Z.eqb_spec (CartItem.id y) (CartItem.id c)) as [E|E].
      + assert (Hc : In c (cart_items d)).
        { assert (Hc : In c [c]) by (left; reflexivity). rewrite <- Hf in Hc.
          apply List.filter_In in Hc as [Hc _]. exact Hc. }
        assert (y = c) by (eapply (NoDup_map_inj CartItem.id); eauto). subst y.
        assert (Hxi : x = item).
        { simpl in Ec.
          rewrite (find_by_alter CartItem.id _ (cart_items d) c) in Ec;
            [|reflexivity | apply find_by_unique; assumption].
          congruence. }
        rewrite Hxi. exact Hitem.
      + subst y. apply (acceptable_same_products d); [reflexivity|].
        rewrite List.Forall_forall in Hall. apply Hall.
        apply List.filter_In. split; assumption. }
  split; [exact Hall'|]. split.
  - intros Hempty.
    assert (Hi : In item (cart_items_of d' (User.id user))).
    { apply List.filter_In. split; [exact Hin | apply Z.eqb_eq; exact Hu]. }
    rewrite Hempty in Hi. destruct Hi.
  - intros data env' e d'' Hco Hrej.
    apply request_Raise in Hco as (s' & Hco & _).
    apply checkout_rejected in Hco; [|exact Hrej].
    cbn [begin working] in Hco.
    destruct Hco as [[_ Hempty] | (pre & c & post & Hcart & _ & Hr)].
    + assert (Hi : In item (cart_items_of d' (User.id user))).
      { apply List.filter_In. split; [exact Hin | apply Z.eqb_eq; exact Hu]. }
      rewrite Hempty in Hi. destruct Hi.
    + rewrite List.Forall_forall in Hall'.
      apply (acceptable_not_rejected d' c e); [|exact Hr].
      apply Hall'. rewrite Hcart. apply List.in_or_app. right. left. reflexivity.
Qed.

Lemma update_cart_item_eval cart_item_id update_data user env s :
  CartService.update_cart_item cart_item_id update_data user env s =
  let d := working s in
  let q := CartItemUpdate.quantity update_data in
  match find_by CartItem.id cart_item_id (cart_items d) with
  | None => (Raise (NotFound "Cart item not found"), s)
  | Some c =>
      if negb (CartItem.user_id c =? User.id user) then
        (Raise (Forbidden "Not your cart item"), s)
      else
        match find_by Product.id (CartItem.product_id c) (products d) with
        | None => (Raise AttributeError, s)
        | Some p =>
            if Product.stock p <? q then
              (Return (inl (CartService.OnlyAvailable (Product.stock p))), s)
            else
              let w := set_cart_items
                         (alter_by CartItem.id (CartItem.set_quantity q) (CartItem.id c)
                            (cart_items d)) d in
              if integrity d then
                match find_by CartItem.id (CartItem.id c) (cart_items w) with
                | Some c' =>
                    (Return (inr c'),
                     mk_Session w w (n_utcnow s) (n_uuid4 s) (n_token_bytes s))
                | None =>
                    (Raise NoResultFound,
                     mk_Session w w (n_utcnow s) (n_uuid4 s) (n_token_bytes s))
                end
              else
                (Raise IntegrityError,
                 mk_Session (committed s) w (n_utcnow s) (n_uuid4 s) (n_token_bytes s))
        end
  end.
Proof.
  cbv zeta. unfold CartService.update_cart_item.
  unfold bind at 1. unfold get_db at 1.
  destruct (find_by CartItem.id cart_item_id (cart_items (working s))) as [c|];
    [|reflexivity].
  destruct (negb (CartItem.user_id c =? User.id user)); [reflexivity|].
  destruct (find_by Product.id (CartItem.product_id c) (products (working s))) as [p|];
    [|reflexivity].
  destruct (Product.stock p <? CartItemUpdate.quantity update_data); [reflexivity|].
  unfold bind at 1. unfold modify_db at 1.
  unfold bind at 1. destruct s as [cm wk n u t].
  cbn [committed working n_utcnow n_uuid4 n_token_bytes].
  rewrite cart_commit_run.
  assert (Hi : forall l, integrity (set_cart_items l wk) = integrity wk)
    by (intros l; apply integrity_ext; reflexivity).
  rewrite Hi.
  destruct (integrity wk); [|reflexivity].
  unfold CartService.refresh, bind, get_db.
  cbn [committed working n_utcnow n_uuid4 n_token_bytes].
  destruct (find_by CartItem.id _ _); reflexivity.
Qed.

(** X29.  update_cart_item is the owner's: an unknown line is reported
    (404) and a line of another user refused (403), in this order, and
    whenever no cart line is returned the database is left as it was.
    On success the line holds the requested quantity, which the stock
    covers; cart lines having distinct ids, no other quantity in any
    cart changes, and no other table. *)
Theorem update_cart_item_owner_only :
  forall cart_item_id update_data user env d,
    (find_by CartItem.id cart_item_id (cart_items d) = None ->
     request (CartService.update_cart_item cart_item_id update_data user) env d =
     (Raise (NotFound "Cart item not found"), d)) /\
    (forall c,
       find_by CartItem.id cart_item_id (cart_items d) = Some c ->
       CartItem.user_id c <> User.id user ->
       request (CartService.update_cart_item cart_item_id update_data user) env d =
       (Raise (Forbidden "Not your cart item"), d)) /\
    (forall r d',
       request (CartService.update_cart_item cart_item_id update_data user) env d = (r, d') ->
       (forall item, r <> Return (inr item)) -> d' = d) /\
    (forall item d',
       NoDup (List.map CartItem.id (cart_items d)) ->
       request (CartService.update_cart_item cart_item_id update_data user) env d =
       (Return (inr item), d') ->
       exists c p,
         find_by CartItem.id cart_item_id (cart_items d) = Some c /\
         CartItem.user_id c = User.id user /\
         find_by Product.id (CartItem.product_id c) (products d) = Some p /\
         CartItemUpdate.quantity update_data <= Product.stock p /\
         item = CartItem.set_quantity (CartItemUpdate.quantity update_data) c /\
         in_cart d' (User.id user) (CartItem.product_id c) =
           in_cart d (User.id user) (CartItem.product_id c) +
           (CartItemUpdate.quantity update_data - CartItem.quantity c) /\
         (forall uid pid,
            uid <> User.id user \/ pid <> CartItem.product_id c ->
            in_cart d' uid pid = in_cart d uid pid) /\
         same_but_cart_items d d').
Proof.
  intros cid upd user env d. split; [|split; [|split]].
  - intros Hn. unfold request. rewrite update_cart_item_eval. cbv zeta.
    cbn [begin working]. rewrite Hn. reflexivity.
  - intros c Hc Hu. unfold request. rewrite update_cart_item_eval. cbv zeta.
    cbn [begin working]. rewrite Hc. apply Z.eqb_neq in Hu. rewrite Hu. reflexivity.
  - intros r d' H Hr. apply request_inv in H as (s' & H & <-).
    rewrite update_cart_item_eval in H. cbv zeta in H.
    cbn [begin working committed n_utcnow n_uuid4 n_token_bytes] in H.
    destruct (find_by CartItem.id cid (cart_items d)) as [c|] eqn:Ec;
      [|injection H as _ <-; reflexivity].
    destruct (negb _); [injection H as _ <-; reflexivity|].
    destruct (find_by Product.id _ (products d)) as [p|];
      [|injection H as _ <-; reflexivity].
    destruct (Product.stock p <? _); [injection H as _ <-; reflexivity|].
    destruct (integrity d); [|injection H as _ <-; reflexivity].
    destruct (find_by CartItem.id (CartItem.id c) _) eqn:Ec'.
    + injection H as <- _. exfalso. eapply Hr. reflexivity.
    + exfalso. apply find_by_None in Ec'. apply Ec'. simpl.
      rewrite map_alter_by by reflexivity. apply List.in_map.
      eapply find_by_In. exact Ec.
  - intros item d' Hnd H. apply request_Return in H as (s' & H & <-).
    rewrite update_cart_item_eval in H. cbv zeta in H.
    cbn [begin working committed n_utcnow n_uuid4 n_token_bytes] in H.
    destruct (find_by CartItem.id cid (cart_items d)) as [c|] eqn:Ec; [|discriminate H].
    destruct (Z.eqb_spec (CartItem.user_id c) (User.id user)) as [Hu|Hu];
      [|discriminate H].
    simpl negb in H. cbv iota in H.
    destruct (find_by Product.id _ (products d)) as [p|] eqn:Ep; [|discriminate H].
    destruct (Z.ltb_spec (Product.stock p) (CartItemUpdate.quantity upd)) as [Hq|Hq];
      [discriminate H|].
    destruct (integrity d); [|discriminate H].
    pose proof (find_by_In _ _ _ _ Ec) as Hin.
    cbn [cart_items set_cart_items] in H.
    rewrite (find_by_alter CartItem.id _ (cart_items d) c) in H;
      [|reflexivity | apply find_by_unique; assumption].
    injection H as <- <-.
    exists c, p. split; [reflexivity|]. split; [exact Hu|]. split; [exact Ep|].
    split; [exact Hq|]. split; [reflexivity|]. simpl.
    split; [|split; [|repeat split]].
    + rewrite !in_cart_total_weight. simpl.
      rewrite (total_weight_alter CartItem.id _ _ c _ Hnd Hin).
      unfold line_weight. simpl. rewrite Hu, !Z.eqb_refl. simpl. lia.
    + intros uid pid Hother. rewrite !in_cart_total_weight. simpl.
      rewrite (total_weight_alter CartItem.id _ _ c _ Hnd Hin).
      rewrite !(line_weight_other (User.id user) (CartItem.product_id c));
        [lia | exact Hu | reflexivity | exact Hother | exact Hu | reflexivity
         | exact Hother].
Qed.

Lemma remove_from_cart_eval cart_item_id user env s :
  CartService.remove_from_cart cart_item_id user env s =
  match find_by CartItem.id cart_item_id (cart_items (working s)) with
  | None => (Raise (NotFound "Cart item not found"), s)
  | Some c =>
      if negb (CartItem.user_id c =? User.id user) then
        (Raise (Forbidden "Not your cart item"), s)
      else
        let w := set_cart_items
                   (delete_by CartItem.id (CartItem.id c) (cart_items (working s)))
                   (working s) in
        if integrity (working s) then
          (Return true, mk_Session w w (n_utcnow s) (n_uuid4 s) (n_token_bytes s))
        else
          (Raise IntegrityError,
           mk_Session (committed s) w (n_utcnow s) (n_uuid4 s) (n_token_bytes s))
  end.
Proof.
  unfold CartService.remove_from_cart.
  unfold bind at 1. unfold get_db at 1.
  destruct (find_by CartItem.id cart_item_id (cart_items (working s))) as [c|];
    [|reflexivity].
  destruct (negb (CartItem.user_id c =? User.id user)); [reflexivity|].
  unfold bind at 1. unfold OrderService.delete_cart_item, modify_db.
  unfold bind at 1. destruct s as [cm wk n u t].
  cbn [committed working n_utcnow n_uuid4 n_token_bytes].
  rewrite cart_commit_run.
  assert (Hi : forall l, integrity (set_cart_items l wk) = integrity wk)
    by (intros l; apply integrity_ext; reflexivity).
  rewrite Hi. destruct (integrity wk); reflexivity.
Qed.

Lemma clear_cart_eval user env d :
  request (CartService.clear_cart user) env d =
  if integrity d then
    (Return true,
     set_cart_items
       (fold_left (fun l c => delete_by CartItem.id (CartItem.id c) l)
          (cart_items_of d (User.id user)) (cart_items d)) d)
  else (Raise IntegrityError, d).
Proof.
  unfold request, CartService.clear_cart, CartService.get_user_cart.
  unfold bind at 1. unfold bind at 1. unfold get_db at 1. unfold ret at 1.
  cbn [begin working].
  destruct (delete_cart_run (cart_items_of d (User.id user)) env (begin d))
    as (sb & Hrun & Hcm & Hu & Hca & Hp & Ho & Hoi & Hci).
  unfold bind at 1. rewrite Hrun.
  unfold bind at 1. destruct sb as [cm wk n u t].
  cbn [begin committed working] in *. rewrite cart_commit_run.
  assert (Hw : wk = set_cart_items
                      (fold_left (fun l c => delete_by CartItem.id (CartItem.id c) l)
                         (cart_items_of d (User.id user)) (cart_items d)) d).
  { destruct wk. cbn [users categories products cart_items orders order_items] in *.
    subst. reflexivity. }
  assert (Hi : integrity wk = integrity d).
  { apply integrity_ext; congruence. }
  rewrite Hi. destruct (integrity d); simpl; congruence.
Qed.

Lemma delete_by_fresh {A} (key : A -> Z) k l :
  ~ In k (List.map key l) -> delete_by key k l = l.
Proof.
  unfold delete_by. induction l as [|x l IH]; simpl; intros H; [reflexivity|].
  destruct (Z.eqb_spec (key x) k) as [E|E]; [exfalso; auto|].
  simpl. f_equal. apply IH. auto.
Qed.

(** Deleting the row of a primary key takes its weight off the sum. *)
Lemma total_weight_delete {A} (key : A -> Z) (w : A -> Z) c l :
  NoDup (List.map key l) -> In c l ->
  total_weight w (delete_by key (key c) l) = total_weight w l - w c.
Proof.
  induction l as [|x l IH]; intros Hnd Hin; [destruct Hin|].
  simpl in Hnd. apply NoDup_cons in Hnd as [Hx Hnd].
  change (delete_by key (key c) (x :: l))
    with (if negb (key x =? key c) then x :: delete_by key (key c) l
          else delete_by key (key c) l).
  destruct Hin as [->|Hin].
  - rewrite Z.eqb_refl. simpl.
    rewrite delete_by_fresh; [lia|].
    intros H. apply Hx. apply list_elem_of_In. exact H.
  - destruct (Z.eqb_spec (key x) (key c)) as [E|E].
    + exfalso. apply Hx. rewrite E. apply list_elem_of_In, List.in_map. exact Hin.
    + simpl. rewrite IH by assumption. lia.
Qed.

(** X30.  Emptying the cart.  remove_from_cart is the owner's: on
    success the line is gone and, cart lines having distinct ids, what
    the cart held of the line's product is less by its quantity and no
    other quantity in any cart changes.  clear_cart leaves the user no
    cart line and every other user's cart as it was; a checkout that
    follows is refused with the empty cart.  Neither touches another
    table. *)
Theorem removing_cart_lines :
  forall user env d,
    (forall cart_item_id b d',
       NoDup (List.map CartItem.id (cart_items d)) ->
       request (CartService.remove_from_cart cart_item_id user) env d = (Return b, d') ->
       b = true /\
       exists c,
         find_by CartItem.id cart_item_id (cart_items d) = Some c /\
         CartItem.user_id c = User.id user /\
         find_by CartItem.id cart_item_id (cart_items d') = None /\
         in_cart d' (User.id user) (CartItem.product_id c) =
           in_cart d (User.id user) (CartItem.product_id c) - CartItem.quantity c /\
         (forall uid pid,
            uid <> User.id user \/ pid <> CartItem.product_id c ->
            in_cart d' uid pid = in_cart d uid pid) /\
         same_but_cart_items d d') /\
    (forall b d',
       request (CartService.clear_cart user) env d = (Return b, d') ->
       b = true /\
       cart_items_of d' (User.id user) = [] /\
       (NoDup (List.map CartItem.id (cart_items d)) ->
        forall other, other <> User.id user ->
          cart_items_of d' other = cart_items_of d other) /\
       same_but_cart_items d d' /\
       (forall checkout_data env' u,
          find_by User.id (User.id user) (users d') = Some u ->
          request (OrderService.checkout checkout_data user) env' d' =
          (Raise EmptyCart, d'))).
Proof.
  intros user env d. split.
  - intros cid b d' Hnd H. apply request_Return in H as (s' & H & <-).
    rewrite remove_from_cart_eval in H.
    cbn [begin working committed n_utcnow n_uuid4 n_token_bytes] in H.
    destruct (find_by CartItem.id cid (cart_items d)) as [c|] eqn:Ec; [|discriminate H].
    destruct (Z.eqb_spec (CartItem.user_id c) (User.id user)) as [Hu|Hu];
      [|discriminate H].
    simpl negb in H. cbv iota zeta in H.
    destruct (integrity d); [|discriminate H].
    injection H as <- <-. split; [reflexivity|].
    pose proof (find_by_In _ _ _ _ Ec) as Hin.
    pose proof (find_by_key _ _ _ _ Ec) as Hid.
    exists c. split; [reflexivity|]. split; [exact Hu|]. simpl.
    assert (Hw : forall uid pid,
              total_weight (line_weight uid pid)
                (delete_by CartItem.id (CartItem.id c) (cart_items d)) =
              total_weight (line_weight uid pid) (cart_items d) - line_weight uid pid c)
      by (intros uid pid; apply total_weight_delete; assumption).
    split; [|split; [|split; [|repeat split]]].
    + apply find_by_None. rewrite <- Hid. unfold delete_by. intros H.
      apply List.in_map_iff in H as (y & Hy & Hyin).
      apply List.filter_In in Hyin as [_ Hyn].
      rewrite Hy, Z.eqb_refl in Hyn. discriminate Hyn.
    + rewrite !in_cart_total_weight. simpl. rewrite Hw.
      unfold line_weight at 2. rewrite Hu, !Z.eqb_refl. reflexivity.
    + intros uid pid Hother. rewrite !in_cart_total_weight. simpl. rewrite Hw.
      rewrite (line_weight_other (User.id user) (CartItem.product_id c));
        [lia | exact Hu | reflexivity | exact Hother].
  - intros b d' H. rewrite clear_cart_eval in H.
    destruct (integrity d); [|discriminate H]. injection H as <- <-.
    split; [reflexivity|].
    destruct (without_cart_of (cart_items d) (User.id user)) as (H1 & _ & H3).
    split; [exact H1|]. split; [exact H3|]. split; [repeat split|].
    intros data env' u Hu. unfold request.
    rewrite (checkout_EmptyCart data user env' _ u); [reflexivity | exact Hu | exact H1].
Qed.

(** ** Scenarios of this part *)

Import MoreScenarios.

Lemma checkout_beside_bob :
  request (OrderService.checkout shipping alice) env (shop [line_A 2; line_bob]) =
  (Return (placed_order PENDING (noon 2), placed_items), shop_after_checkout_beside_bob).
Proof. vm_compute. reflexivity. Qed.

Lemma cancel_and_update_status_failures_commit_nothing_witness :
  snd (request (OrderService.cancel_order 100 bob) env (shop_with_order PENDING [])) =
  shop_with_order PENDING [] /\
  snd (request (OrderService.update_status 404 (OrderStatusUpdate.mk PAID) alice) env
         (shop_with_order PENDING [])) =
  shop_with_order PENDING [].
Proof.
  destruct (cancel_and_update_status_failures_commit_nothing 100 bob env
              (shop_with_order PENDING []) (Forbidden "Not your order")
              (snd (request (OrderService.cancel_order 100 bob) env
                      (shop_with_order PENDING [])))) as [H _].
  destruct (cancel_and_update_status_failures_commit_nothing 404 alice env
              (shop_with_order PENDING []) (NotFound "Order not found")
              (snd (request (OrderService.update_status 404 (OrderStatusUpdate.mk PAID) alice)
                      env (shop_with_order PENDING [])))) as [_ H'].
  split; [apply H | apply (H' (OrderStatusUpdate.mk PAID))]; vm_compute; reflexivity.
Defined.

Lemma checkout_drains_the_cart_witness :
  cart_items_of shop_after_checkout_beside_bob (User.id alice) = [] /\
  cart_items_of shop_after_checkout_beside_bob (User.id bob) =
  cart_items_of (shop [line_A 2; line_bob]) (User.id bob).
Proof.
  destruct (checkout_drains_the_cart shipping alice env (shop [line_A 2; line_bob])
              (placed_order PENDING (noon 2), placed_items) shop_after_checkout_beside_bob
              checkout_beside_bob) as (H1 & _ & H2).
  split; [exact H1|]. apply H2.
  - apply (bool_decide_unpack _). vm_compute. exact I.
  - discriminate.
Defined.


Lemma get_user_orders_page_witness :
  exists page,
    request (OrderService.get_user_orders sort_newest_first (User.id alice) 1 5) env
      shop_with_history =
    (Return (page, 3%nat), shop_with_history) /\
    length page = 2%nat.
Proof.
  destruct (get_user_orders_page sort_newest_first (User.id alice) 1 5 env
              shop_with_history sort_newest_first_spec) as (page & H & Hlen & _).
  exists page. split; [exact H | exact Hlen].
Defined.

Lemma get_user_orders_pages_tile_witness :
  NoDup (List.map Order.created_at (orders_of shop_with_history (User.id alice))) /\
  exists p1 p2 total,
    request (OrderService.get_user_orders sort_newest_first (User.id alice) 0 1) env
      shop_with_history = (Return (p1, total), shop_with_history) /\
    request (OrderService.get_user_orders sort_newest_first (User.id alice) 1 2) env
      shop_with_history = (Return (p2, total), shop_with_history) /\
    request (OrderService.get_user_orders sort_newest_first (User.id alice) 0 3) env
      shop_with_history = (Return (p1 ++ p2, total), shop_with_history).
Proof.
  assert (Hnd : NoDup (List.map Order.created_at
                         (orders_of shop_with_history (User.id alice)))).
  { vm_compute. repeat (apply NoDup_cons; split;
      [rewrite list_elem_of_In; simpl; intuition discriminate|]). apply NoDup_nil_2. }
  split; [exact Hnd|].
  apply (get_user_orders_pages_tile sort_newest_first sort_newest_first sort_newest_first
           (User.id alice) 0 1 2 env env env shop_with_history
           sort_newest_first_spec sort_newest_first_spec sort_newest_first_spec Hnd).
Defined.

Lemma get_all_orders_page_witness :
  exists page,
    request (OrderService.get_all_orders sort_newest_first 0 20 (Some PENDING)) env
      shop_with_history =
    (Return (page, 2%nat), shop_with_history) /\
    length page = 2%nat.
Proof.
  destruct (get_all_orders_page sort_newest_first 0 20 (Some PENDING) env
              shop_with_history sort_newest_first_spec) as (page & H & Hlen & _).
  exists page. split; [exact H | exact Hlen].
Defined.

Lemma delete_of_A cart :
  request (ProductService.delete 10 seller) env (shop cart) =
  (Return true, shop_after_delete cart).
Proof. reflexivity. Qed.

Lemma product_update_failure_precedence_witness :
  request (ProductService.update 10 null_name seller) env (shop []) =
  (Raise IntegrityError, shop []) /\
  request (ProductService.update 10 restock alice) env (shop []) =
  (Raise (Forbidden "You can only update your own products"), shop []).
Proof.
  destruct (product_update_failure_precedence 10 null_name seller env (shop []))
    as (_ & _ & _ & H4).
  destruct (product_update_failure_precedence 10 restock alice env (shop []))
    as (_ & H2 & _).
  split.
  - apply (H4 (product_A 5 (noon 0))); [reflexivity | reflexivity | exact I |].
    left. reflexivity.
  - apply (H2 (product_A 5 (noon 0))); [reflexivity | discriminate].
Defined.

Lemma product_update_changes_named_fields_witness :
  exists p',
    fst (request (ProductService.update 10 restock seller) env (shop [line_A 2])) =
    Return p' /\
    Product.stock p' = 8 /\ Product.price p' = 10%float /\
    cart_items (snd (request (ProductService.update 10 restock seller) env
                       (shop [line_A 2]))) = [line_A 2].
Proof.
  destruct (product_update_changes_named_fields 10 restock seller env (shop [line_A 2])
              (Product.set_updated_at (noon 0) (Product.set_stock 8 (product_A 5 (noon 0))))
              (snd (request (ProductService.update 10 restock seller) env
                      (shop [line_A 2]))))
    as (p & Ep & _ & _ & _ & _ & _ & _ & _ & _ & Hpr & Hst & _ & _ & _ & _ & _ & Hsame).
  { vm_compute. reflexivity. }
  exists (Product.set_updated_at (noon 0) (Product.set_stock 8 (product_A 5 (noon 0)))).
  split; [vm_compute; reflexivity|].
  split; [exact Hst|]. split; [reflexivity|].
  destruct Hsame as (_ & _ & Hc & _). exact Hc.
Defined.

Lemma product_update_and_delete_failures_commit_nothing_witness :
  snd (request (ProductService.delete 10 alice) env (shop [line_A 2])) = shop [line_A 2].
Proof.
  destruct (product_update_and_delete_failures_commit_nothing 10 alice env (shop [line_A 2])
              (Forbidden "You can only delete your own products")
              (snd (request (ProductService.delete 10 alice) env (shop [line_A 2]))))
    as [_ H].
  apply H. vm_compute. reflexivity.
Defined.

Lemma product_delete_is_soft_witness :
  find_by Product.id 10 (products (shop_after_delete [line_A 2])) = Some deleted_A /\
  cart_items (shop_after_delete [line_A 2]) = cart_items (shop [line_A 2]).
Proof.
  destruct (product_delete_is_soft 10 seller env (shop [line_A 2]) true
              (shop_after_delete [line_A 2]) (delete_of_A _))
    as (_ & (p & Ep & _ & Ep') & _ & (_ & _ & Hc & _) & _).
  injection Ep as <-. split; [exact Ep' | exact Hc].
Defined.

Lemma deleted_product_blocks_checkout_witness :
  request (OrderService.checkout shipping alice) env (shop_after_delete [line_A 2]) =
  (Raise (ProductUnavailable "A"), shop_after_delete [line_A 2]).
Proof.
  destruct (deleted_product_blocks_checkout 10 seller env (shop [line_A 2]) true
              (shop_after_delete [line_A 2]) shipping alice env alice [] (line_A 2) []
              (delete_of_A _) eq_refl eq_refl eq_refl (List.Forall_nil _))
    as (p & Ep & H).
  injection Ep as <-. exact H.
Defined.

Lemma product_delete_undone_by_update_witness :
  Product.is_active (product_A 5 (noon 0)) = true /\
  exists d'',
    request (ProductService.update 10
               (ProductUpdate.mk None None None None None None (Some (Some true)))
               seller) env (shop_after_delete []) =
    (Return (Product.set_updated_at (utcnow_at env 0) (product_A 5 (noon 0))), d'') /\
    find_by Product.id 10 (products d'') =
    Some (Product.set_updated_at (utcnow_at env 0) (product_A 5 (noon 0))).
Proof.
  split; [reflexivity|].
  destruct (product_delete_undone_by_update 10 seller env (shop []) true
              (shop_after_delete []) env (delete_of_A _))
    as (p & d'' & Ep & _ & _ & H).
  injection Ep as <-. exists d''. apply H. reflexivity.
Defined.

Lemma history_references_products : order_items_reference_products shop_with_history.
Proof. intros it [<-|[]]. simpl. auto. Qed.

Lemma get_order_owner_only_witness :
  request (OrdersAPI.get_order 100 bob) env (shop_with_order PAID []) =
  (Raise (Forbidden "Not your order"), shop_with_order PAID []) /\
  request (OrdersAPI.get_order 100 admin) env (shop_with_order PAID []) =
  (Raise (Forbidden "Only buyers can access this"), shop_with_order PAID []).
Proof.
  destruct (get_order_owner_only 100 bob env (shop_with_order PAID [])) as (_ & _ & H3 & _).
  destruct (get_order_owner_only 100 admin env (shop_with_order PAID [])) as (H1 & _).
  split.
  - apply (H3 (order_100 PAID)); [reflexivity | reflexivity | discriminate].
  - apply H1. discriminate.
Defined.



Lemma get_my_orders_lists_own_orders_witness :
  request (OrdersAPI.get_my_orders sort_newest_first 0 0 alice) env shop_with_history =
  (Return OrdersAPI.Unprocessable, shop_with_history) /\
  exists rs,
    request (OrdersAPI.get_my_orders sort_newest_first 0 2 alice) env shop_with_history =
    (Return (OrdersAPI.Listed (Some (OrderListResponse.mk 3 rs))), shop_with_history) /\
    length rs = 2%nat.
Proof.
  destruct (get_my_orders_lists_own_orders sort_newest_first 0 0 alice env shop_with_history)
    as (_ & H0 & _).
  destruct (get_my_orders_lists_own_orders sort_newest_first 0 2 alice env shop_with_history)
    as (_ & _ & H).
  split; [apply H0; [reflexivity | lia]|].
  destruct (H eq_refl ltac:(lia) ltac:(lia) sort_newest_first_spec
              history_references_products) as (rs & Hr & Hlen & _).
  exists rs. split; [exact Hr | exact Hlen].
Defined.

Lemma get_all_orders_admin_only_witness :
  request (OrdersAPI.get_all_orders sort_newest_first 0 20 None bob) env shop_with_history =
  (Raise (Forbidden "Only admins can access this"), shop_with_history) /\
  request (OrdersAPI.get_all_orders sort_newest_first 0 101 None admin) env
    shop_with_history =
  (Return OrdersAPI.Unprocessable, shop_with_history) /\
  exists rs,
    request (OrdersAPI.get_all_orders sort_newest_first 0 20 (Some PENDING) admin) env
      shop_with_history =
    (Return (OrdersAPI.Listed (Some (OrderListResponse.mk 2 rs))), shop_with_history) /\
    length rs = 2%nat.
Proof.
  destruct (get_all_orders_admin_only sort_newest_first 0 20 None bob env shop_with_history)
    as (H1 & _).
  destruct (get_all_orders_admin_only sort_newest_first 0 101 None admin env
              shop_with_history) as (_ & H0 & _).
  destruct (get_all_orders_admin_only sort_newest_first 0 20 (Some PENDING) admin env
              shop_with_history) as (_ & _ & H2).
  split; [apply H1; discriminate|].
  split; [apply H0; [reflexivity | lia]|].
  destruct (H2 eq_refl ltac:(lia) ltac:(lia) sort_newest_first_spec
              history_references_products) as (rs & Hr & Hlen & _).
  exists rs. split; [exact Hr | exact Hlen].
Defined.

Lemma two_carts_distinct_ids :
  NoDup (List.map CartItem.id (cart_items (shop [line_A 2; line_bob]))).
Proof. apply (bool_decide_unpack _). vm_compute. exact I. Qed.

Lemma add_one_A :
  request (CartService.add_to_cart one_A alice) env (shop [line_A 2; line_bob]) =
  (Return (inr (line_A 3)), shop [line_A 3; line_bob]).
Proof. vm_compute. reflexivity. Qed.


Lemma add_to_cart_adds_the_quantity_witness :
  NoDup (List.map CartItem.id (cart_items (shop [line_A 2; line_bob]))) /\
  CartItem.quantity (line_A 3) = in_cart (shop [line_A 2; line_bob]) 1 10 + 1 /\
  in_cart (shop [line_A 3; line_bob]) 2 10 = in_cart (shop [line_A 2; line_bob]) 2 10.
Proof.
  split; [exact two_carts_distinct_ids|].
  destruct (add_to_cart_adds_the_quantity one_A alice env (shop [line_A 2; line_bob])
              (line_A 3) (shop [line_A 3; line_bob]) two_carts_distinct_ids add_one_A)
    as (_ & _ & Hq & _ & _ & _ & Hother & _).
  split; [exact Hq|]. apply Hother. left. discriminate.
Defined.

Lemma add_to_cart_refusals_witness :
  request (CartService.add_to_cart four_A alice) env (shop [line_A 2; line_bob]) =
  (Return (inl (CartService.CannotAddMore 5)), shop [line_A 2; line_bob]).
Proof.
  destruct (add_to_cart_refusals four_A alice env (shop [line_A 2; line_bob]))
    as (_ & _ & _ & H).
  apply (H (product_A 5 (noon 0)) (line_A 2)); try reflexivity; simpl; lia.
Defined.


Lemma added_line_passes_checkout_witness :
  Forall (acceptable (shop [line_A 2; line_bob]))
    (cart_items_of (shop [line_A 2; line_bob]) (User.id alice)) /\
  Forall (acceptable (shop [line_A 3; line_bob]))
    (cart_items_of (shop [line_A 3; line_bob]) (User.id alice)).
Proof.
  assert (Hall : Forall (acceptable (shop [line_A 2; line_bob]))
                   (cart_items_of (shop [line_A 2; line_bob]) (User.id alice))).
  { constructor; [|constructor]. exists (product_A 5 (noon 0)).
    split; [reflexivity|]. split; [reflexivity|]. simpl. lia. }
  split; [exact Hall|].
  destruct (added_line_passes_checkout one_A alice env (shop [line_A 2; line_bob])
              (line_A 3) (shop [line_A 3; line_bob]) two_carts_distinct_ids Hall add_one_A)
    as (H & _).
  exact H.
Defined.

Lemma update_cart_item_owner_only_witness :
  request (CartService.update_cart_item 20 (CartItemUpdate.mk 1) bob) env
    (shop [line_A 2; line_bob]) =
  (Raise (Forbidden "Not your cart item"), shop [line_A 2; line_bob]) /\
  exists c p,
    find_by CartItem.id 22 (cart_items (shop [line_A 2; line_bob])) = Some c /\
    find_by Product.id (CartItem.product_id c) (products (shop [line_A 2; line_bob])) =
    Some p /\
    3 <= Product.stock p.
Proof.
  destruct (update_cart_item_owner_only 20 (CartItemUpdate.mk 1) bob env
              (shop [line_A 2; line_bob])) as (_ & H2 & _).
  destruct (update_cart_item_owner_only 22 (CartItemUpdate.mk 3) bob env
              (shop [line_A 2; line_bob])) as (_ & _ & _ & H4).
  split; [apply (H2 (line_A 2)); [reflexivity | discriminate]|].
  destruct (H4 (CartItem.set_quantity 3 line_bob)
              (shop [line_A 2; CartItem.set_quantity 3 line_bob])
              two_carts_distinct_ids) as (c & p & Hc & _ & Hp & Hq & _).
  { vm_compute. reflexivity. }
  exists c, p. split; [exact Hc|]. split; [exact Hp | exact Hq].
Defined.

Lemma removing_cart_lines_witness :
  request (OrderService.checkout shipping alice) env (shop [line_bob]) =
  (Raise EmptyCart, shop [line_bob]) /\
  cart_items_of (shop [line_bob]) (User.id bob) =
  cart_items_of (shop [line_A 2; line_bob]) (User.id bob).
Proof.
  destruct (removing_cart_lines alice env (shop [line_A 2; line_bob])) as (_ & H).
  destruct (H true (shop [line_bob])) as (_ & _ & Hother & _ & Hco).
  { vm_compute. reflexivity. }
  split.
  - apply (Hco shipping env alice). reflexivity.
  - apply Hother; [exact two_carts_distinct_ids | discriminate].
Defined.
